(** * viamrtsp: the RTSP camera session, its decode pipelines and the
      passthrough fan-out

    A shallow embedding of [rtspCamera] and its methods: the connection
    life cycle ([closeConnection], [reconnectClient], [initH264],
    [initH265]), the per-packet handlers built by the two [init] functions
    ([storeImage], [publishToWebRTC], [onPacketRTP]) and the subscription
    registry ([SubscribeRTP], [unitSubscriberFunc], [Unsubscribe],
    [unsubscribeAll]).

    The camera struct is a record that is threaded through every method;
    the closures a method creates become records holding the variables
    they capture.  What the code obtains from gortsplib, mediacommon, the
    raw decoder, the format processor and rdk is an interface ([Lib]) of
    state machines; the answers of the fallible calls of one connection
    attempt are a record ([Answers]).

    Each method is taken as one atomic step: the mutex [subsMu], the
    scheduling of the goroutine of [clientReconnectBackgroundWorker] (its
    ticks come as a list), and the worker that runs the jobs queued by
    [Publish] are not part of the embedding. *)

From stdpp Require Import base option list gmap strings.
From Stdlib Require Import ZArith Lia.

Local Open Scope string_scope.
Local Open Scope list_scope.
Local Open Scope Z_scope.

(** ** Data *)

(** A NAL unit is a byte string; an access unit is a slice of NAL units
    ([[][]byte]). *)
Definition NALU := list Z.
Definition AccessUnit := list NALU.

(** [rtp.Packet], with the header fields this program reads. *)
Record Packet := mkPacket {
  SequenceNumber : Z;      (* uint16 *)
  Timestamp : Z;           (* uint32 *)
  Marker : bool;
  Payload : list Z
}.

(** Addition on [uint32], as Go's [+=] on the [Timestamp] field. *)
Definition add32 (a b : Z) : Z := (a + b) mod 2 ^ 32.

(** Every [error] value this file creates or compares against. *)
Inductive Error :=
| ErrNonStartingPacketAndNoPrevious     (* rtph264 / rtph265 *)
| ErrMorePacketsNeeded                  (* rtph264 / rtph265 *)
| ErrLib (msg : string)                 (* any other library error *)
| ErrRtspCameraNil                      (* "rtspCamera is nil" *)
| ErrCodecNotSupported (codec : Z)      (* "codec not supported %v" *)
| ErrH264TrackNotFound                  (* "h264 track not found" *)
| ErrH265TrackNotFound                  (* "h265 track not found" *)
| ErrH265WithPassthrough                (* "address reports to have only an h265 track but rtpH264Passthrough was enabled" *)
| ErrH264PassthroughNotEnabled
| ErrTypeConversion                     (* "(*unit.H264) type conversion error" *)
| ErrBFrames                            (* "WebRTC doesn't support H264 streams with B-frames" *)
| ErrIdNotFound.                        (* "id not found" *)

#[global] Instance Error_eq_dec : EqDecision Error.
Proof. solve_decision. Defined.

(** The result of [getStreamInfo]: the two codecs that [reconnectClient]
    has a case for, or any other value. *)
Inductive Codec := H264 | H265 | OtherCodec (tag : Z).

(** [unit.H264]: the access unit ([None] is the nil slice), the
    presentation timestamp ([time.Duration], an int64) and the transport
    packets the unit was built from. *)
Record H264Unit := mkH264Unit {
  AU : option AccessUnit;
  PTS : Z;
  RTPPackets : list Packet
}.

(** [unit.Unit] is an interface; [*unit.H264] is the implementation that
    [unitSubscriberFunc] accepts. *)
Inductive Unit :=
| UnitH264 (tunit : H264Unit)
| UnitOther (kind : string).

(** [uuid.UUID], 16 bytes read as a number. *)
Definition SubscriptionID := N.

Inductive Level := Debug | Info | Warn | Err.

(** The track formats found in a [description.Session]; a parameter set
    that is [None] is nil in the SDP. *)
Record FormatH264 := mkFormatH264 { SPS264 : option NALU; PPS264 : option NALU }.
Record FormatH265 := mkFormatH265 {
  VPS265 : option NALU; SPS265 : option NALU; PPS265 : option NALU
}.

(** [description.Session]: the listed medias (as printed by [%v]) and what
    [FindFormat] answers for each of the two format types. *)
Record Session := mkSession {
  Medias : list string;
  findH264 : option FormatH264;
  findH265 : option FormatH265
}.

(** ** The libraries

    Each stateful library object is a type of states with a transition
    function that returns the new state next to the Go result. *)
Class Lib := {
  Image : Type;
  (* rtph264.Decoder and rtph265.Decoder: Decode(pkt) *)
  RtpDec264 : Type;
  rtpDecode264 : RtpDec264 → Packet → RtpDec264 * (Error + AccessUnit);
  RtpDec265 : Type;
  rtpDecode265 : RtpDec265 → Packet → RtpDec265 * (Error + AccessUnit);
  (* the raw frame decoder: decode(nalu) returns (image, error), the image
     may be nil *)
  RawDec : Type;
  rawDecode : RawDec → NALU → RawDec * (Error + option Image);
  (* h264.IDRPresent *)
  IDRPresent : AccessUnit → bool;
  (* gortsplib.Client: the time decoder behind PacketPTS *)
  TimeDec : Type;
  timeDec0 : TimeDec;
  PacketPTS : TimeDec → Packet → TimeDec * option Z;
  (* formatprocessor: ProcessRTPPacket(pkt, ntp, pts, false); the wall
     clock time ntp is not an argument here *)
  Fp : Type;
  ProcessRTPPacket : Fp → Packet → Z → Fp * (Error + Unit);
  (* rtph264.Encoder: Encode(au) *)
  Enc : Type;
  Encode : Enc → AccessUnit → Enc * (Error + list Packet);
  (* rtppassthrough.StreamSubscription: ID(), Start(), Publish(job);
     the job [func() error { return cb(u) }] is given by its unit *)
  Sub : Type;
  subID : Sub → SubscriptionID;
  subStart : Sub → Sub;
  Publish : Sub → Unit → Sub * option Error
}.

Section Camera.
Context `{L : Lib}.

(** ** The camera *)

(** The closure [unitSubscriberFunc] of one [SubscribeRTP] call: the
    variables it captures, and [calls], the packet batches that
    [packetsCB] has been invoked with (oldest first). *)
Record Subscriber := mkSubscriber {
  firstReceived : bool;
  lastPTS : Z;
  encoder : Enc;
  packetsCB : list Packet → option Error;
  calls : list (list Packet)
}.

Record subAndCB := mkSubAndCB { cb : Subscriber; sub : Sub }.

(** The variables captured by [storeImage] in [initH264]. *)
Record H264Pipeline := mkH264Pipeline {
  rtpDec : RtpDec264;
  iFrameReceived : bool;
  waitingForIframeLogged : bool
}.

(** The handler given to [OnPacketRTP]: [storeImage] alone, [storeImage]
    with [publishToWebRTC] (which captures the format processor), or the
    H.265 callback (which captures its depacketizer). *)
Inductive Handler :=
| HandleH264 (p : H264Pipeline) (fp : option Fp)
| HandleH265 (d : RtpDec265).

(** [gortsplib.Client]. *)
Record Client := mkClient {
  timeDec : TimeDec;
  handler : option Handler
}.

(** What the program does to the outside, in program order. *)
Inductive Event :=
| EvClientClose                       (* rc.client.Close() *)
| EvDecoderClose                      (* rc.rawDecoder.close() *)
| EvRaw (pkt : Packet)                (* the packet enters the raw-frame path *)
| EvPassthrough (pkt : Packet)        (* the packet enters publishToWebRTC *)
| EvUnit (au : AccessUnit)            (* the depacketizer returned an access unit *)
| EvStore (img : Image)               (* rc.latestFrame.Store(&img) *)
| EvPublish (id : SubscriptionID) (u : Unit) (err : option Error)
                                      (* sub.Publish(job) and its result *)
| EvSubClose (id : SubscriptionID).   (* sub.Close() *)

(** [rtspCamera].  [trace] is not a field of the struct: it records the
    events above so that their order can be stated. *)
Record rtspCamera := mkCamera {
  client : option Client;
  rawDecoder : option RawDec;
  latestFrame : option Image;
  logger : list (Level * string);
  rtpH264Passthrough : bool;
  subAndCBByID : gmap SubscriptionID subAndCB;
  trace : list Event
}.

Definition set_client (c : option Client) (rc : rtspCamera) : rtspCamera :=
  mkCamera c (rawDecoder rc) (latestFrame rc) (logger rc)
           (rtpH264Passthrough rc) (subAndCBByID rc) (trace rc).
Definition set_rawDecoder (d : option RawDec) (rc : rtspCamera) : rtspCamera :=
  mkCamera (client rc) d (latestFrame rc) (logger rc)
           (rtpH264Passthrough rc) (subAndCBByID rc) (trace rc).
Definition set_latestFrame (i : option Image) (rc : rtspCamera) : rtspCamera :=
  mkCamera (client rc) (rawDecoder rc) i (logger rc)
           (rtpH264Passthrough rc) (subAndCBByID rc) (trace rc).
Definition set_logger (l : list (Level * string)) (rc : rtspCamera) : rtspCamera :=
  mkCamera (client rc) (rawDecoder rc) (latestFrame rc) l
           (rtpH264Passthrough rc) (subAndCBByID rc) (trace rc).
Definition set_subAndCBByID (m : gmap SubscriptionID subAndCB) (rc : rtspCamera)
  : rtspCamera :=
  mkCamera (client rc) (rawDecoder rc) (latestFrame rc) (logger rc)
           (rtpH264Passthrough rc) m (trace rc).
Definition set_trace (t : list Event) (rc : rtspCamera) : rtspCamera :=
  mkCamera (client rc) (rawDecoder rc) (latestFrame rc) (logger rc)
           (rtpH264Passthrough rc) (subAndCBByID rc) t.

(** ** Methods as state transformers

    A method takes the camera and returns its result with the camera
    after it, or [None] when Go panics (a nil [rc.client] or
    [rc.rawDecoder] is dereferenced). *)
Definition M (A : Type) : Type := rtspCamera → option (A * rtspCamera).

#[global] Instance M_ret : MRet M := λ A a rc, Some (a, rc).
#[global] Instance M_bind : MBind M := λ A B f m rc,
  match m rc with
  | Some (a, rc') => f a rc'
  | None => None
  end.

Definition modify (f : rtspCamera → rtspCamera) : M () := λ rc, Some ((), f rc).
Definition gets {A} (f : rtspCamera → A) : M A := λ rc, Some (f rc, rc).
Definition panic {A} : M A := λ _, None.

Definition emit (e : Event) : M () :=
  modify (λ rc, set_trace (trace rc ++ [e]) rc).
Definition log (lvl : Level) (msg : string) : M () :=
  modify (λ rc, set_logger (logger rc ++ [(lvl, msg)]) rc).
Definition when (b : bool) (m : M ()) : M () := if b then m else mret ().

(** [rc.rawDecoder.decode(nalu)]: the decoder is the camera's field, read
    at the time of the call. *)
Definition decode (nalu : NALU) : M (Error + option Image) :=
  d ← gets rawDecoder;
  match d with
  | None => panic
  | Some d =>
      let '(d', r) := rawDecode d nalu in
      modify (set_rawDecoder (Some d'));; mret r
  end.

(** [rc.latestFrame.Store(&image)]. *)
Definition store (img : Image) : M () :=
  modify (set_latestFrame (Some img));; emit (EvStore img).

(** The loop [for _, nalu := range au] of both handlers; [msg] is the
    message logged before the early return. *)
Fixpoint decodeNALUs (msg : string) (au : AccessUnit) : M () :=
  match au with
  | [] => mret ()
  | nalu :: rest =>
      r ← decode nalu;
      match r with
      | inl _ => log Err msg
      | inr image =>
          match image with
          | Some img => store img
          | None => mret ()
          end;;
          decodeNALUs msg rest
      end
  end.

Definition benign (err : Error) : bool :=
  bool_decide (err = ErrNonStartingPacketAndNoPrevious)
  || bool_decide (err = ErrMorePacketsNeeded).

(** [storeImage] of [initH264]; the result is the closure's variables
    after the call. *)
Definition storeImage (p : H264Pipeline) (pkt : Packet) : M H264Pipeline :=
  emit (EvRaw pkt);;
  let '(d', r) := rtpDecode264 (rtpDec p) pkt in
  let p := mkH264Pipeline d' (iFrameReceived p) (waitingForIframeLogged p) in
  match r with
  | inl err =>
      when (negb (benign err)) (log Debug "error decoding(1) h264 rstp stream");;
      mret p
  | inr au =>
      emit (EvUnit au);;
      if negb (iFrameReceived p) then
        if negb (IDRPresent au) then
          if negb (waitingForIframeLogged p) then
            log Debug "waiting for I-frame";;
            mret (mkH264Pipeline d' (iFrameReceived p) true)
          else mret p
        else
          let p := mkH264Pipeline d' true (waitingForIframeLogged p) in
          log Debug "got I-frame";;
          decodeNALUs "error decoding(2) h264 rtsp stream" au;;
          mret p
      else
        decodeNALUs "error decoding(2) h264 rtsp stream" au;;
        mret p
  end.

(** The callback that [initH265] registers. *)
Definition onPacketH265 (d : RtpDec265) (pkt : Packet) : M RtpDec265 :=
  emit (EvRaw pkt);;
  let '(d', r) := rtpDecode265 d pkt in
  match r with
  | inl err =>
      when (negb (benign err)) (log Err "error decoding(1) h265 rstp stream");;
      mret d'
  | inr au =>
      emit (EvUnit au);;
      decodeNALUs "error decoding(2) h265 rtsp stream" au;;
      mret d'
  end.

(** [err.Error()], as far as the log needs it. *)
Definition errorString (err : Error) : string :=
  match err with
  | ErrLib msg => msg
  | ErrNonStartingPacketAndNoPrevious => "received a non-starting fragment without any previous starting fragment"
  | ErrMorePacketsNeeded => "need more packets"
  | _ => "error"
  end.

(** The loop over [rc.subAndCBByID] in [publishToWebRTC].  The
    subscription is a pointer, so [Publish] changes the registered
    subscription in place.  Go ranges over the map in no fixed order; here
    the entries come in the order of [map_to_list]. *)
Fixpoint publishAll (u : Unit) (l : list (SubscriptionID * subAndCB)) : M () :=
  match l with
  | [] => mret ()
  | (id, sc) :: rest =>
      let '(s', err) := Publish (sub sc) u in
      modify (λ rc, set_subAndCBByID
                      (<[id := mkSubAndCB (cb sc) s']> (subAndCBByID rc)) rc);;
      emit (EvPublish id u err);;
      match err with
      | Some _ => log Debug "RTP packet dropped"
      | None => mret ()
      end;;
      publishAll u rest
  end.

(** [publishToWebRTC] of [initH264]; it captures the format processor. *)
Definition publishToWebRTC (fp : Fp) (pkt : Packet) : M Fp :=
  emit (EvPassthrough pkt);;
  c ← gets client;
  match c with
  | None => panic
  | Some c =>
      let '(td', r) := PacketPTS (timeDec c) pkt in
      modify (set_client (Some (mkClient td' (handler c))));;
      match r with
      | None => mret fp
      | Some pts =>
          let '(fp', ur) := ProcessRTPPacket fp pkt pts in
          match ur with
          | inl err => log Debug (errorString err);; mret fp'
          | inr u =>
              subs ← gets subAndCBByID;
              if bool_decide (size subs = 0%nat) then mret fp'
              else publishAll u (map_to_list subs);; mret fp'
          end
      end
  end.

(** [onPacketRTP]: the function that [OnPacketRTP] receives. *)
Definition onPacketRTP (h : Handler) (pkt : Packet) : M Handler :=
  match h with
  | HandleH264 p None =>
      p' ← storeImage p pkt; mret (HandleH264 p' None)
  | HandleH264 p (Some fp) =>
      fp' ← publishToWebRTC fp pkt;
      p' ← storeImage p pkt;
      mret (HandleH264 p' (Some fp'))
  | HandleH265 d =>
      d' ← onPacketH265 d pkt; mret (HandleH265 d')
  end.

(** The client's receive task hands one packet of the track to the
    registered handler and keeps the closure's variables for the next. *)
Definition receive (pkt : Packet) : M () :=
  c ← gets client;
  match c ≫= handler with
  | None => mret ()
  | Some h =>
      h' ← onPacketRTP h pkt;
      modify (λ rc, match client rc with
                    | Some c => set_client (Some (mkClient (timeDec c) (Some h'))) rc
                    | None => rc
                    end)
  end.

(** ** Connection life cycle *)

Definition closeConnection : M () :=
  c ← gets client;
  match c with
  | Some _ => emit EvClientClose;; modify (set_client None)
  | None => mret ()
  end;;
  d ← gets rawDecoder;
  match d with
  | Some _ => emit EvDecoderClose;; modify (set_rawDecoder None)
  | None => mret ()
  end.

(** What the fallible calls answer during one connection attempt. *)
Record Answers := mkAnswers {
  Start : option Error;                                 (* rc.client.Start *)
  Describe : Error + Session;                           (* rc.client.Describe *)
  getStreamInfo : Error + Codec;
  CreateDecoder264 : FormatH264 → Error + RtpDec264;    (* f.CreateDecoder() *)
  CreateDecoder265 : FormatH265 → Error + RtpDec265;
  newH264Decoder : Error + RawDec;
  newH265Decoder : Error + RawDec;
  formatprocessorNew : Z → FormatH264 → bool → Error + Fp;
  Setup : option Error;                                 (* rc.client.Setup *)
  Play : option Error                                   (* rc.client.Play *)
}.

(** A method call on [rc.client] whose result is [answer]: the client
    must not be nil. *)
Definition clientCall {A} (answer : A) : M A :=
  c ← gets client;
  match c with
  | None => panic
  | Some _ => mret answer
  end.

(** [rc.client.OnPacketRTP(media, forma, h)]. *)
Definition OnPacketRTP (h : Handler) : M () :=
  c ← gets client;
  match c with
  | None => panic
  | Some c => modify (set_client (Some (mkClient (timeDec c) (Some h))))
  end.

Fixpoint logMedias (ms : list string) : M () :=
  match ms with
  | [] => mret ()
  | x :: rest => log Warn x;; logMedias rest
  end.

(** A parameter set of the SDP is sent to the decoder, the result is
    dropped; a missing one is logged. *)
Definition feedParameterSet (ps : option NALU) (missing : string) : M () :=
  match ps with
  | Some nalu => decode nalu;; mret ()
  | None => log Warn missing
  end.

Definition initH264 (a : Answers) (session : Session) : M (option Error) :=
  match findH264 session with
  | None =>
      log Warn "tracks available";;
      logMedias (Medias session);;
      mret (Some ErrH264TrackNotFound)
  | Some f =>
      match CreateDecoder264 a f with
      | inl err => log Err "error creating H264 decoder";; mret (Some err)
      | inr rtpDec =>
          match newH264Decoder a with
          | inl err => modify (set_rawDecoder None);; mret (Some err)
          | inr d =>
              modify (set_rawDecoder (Some d));;
              feedParameterSet (SPS264 f) "no SPS found in H264 format";;
              feedParameterSet (PPS264 f) "no PPS found in H264 format";;
              let p := mkH264Pipeline rtpDec false false in
              pass ← gets rtpH264Passthrough;
              match (if (pass : bool)
                     then match formatprocessorNew a 1472 f true with
                          | inl err => inl err
                          | inr fp => inr (HandleH264 p (Some fp))
                          end
                     else inr (HandleH264 p None)) with
              | inl err => mret (Some err)
              | inr onPacket =>
                  err ← clientCall (Setup a);
                  match err with
                  | Some err => mret (Some err)
                  | None => OnPacketRTP onPacket;; mret None
                  end
              end
          end
      end
  end.

Definition initH265 (a : Answers) (session : Session) : M (option Error) :=
  pass ← gets rtpH264Passthrough;
  if (pass : bool) then mret (Some ErrH265WithPassthrough)
  else
    match findH265 session with
    | None =>
        log Warn "tracks available";;
        logMedias (Medias session);;
        mret (Some ErrH265TrackNotFound)
    | Some f =>
        err ← clientCall (Setup a);
        match err with
        | Some err => mret (Some err)
        | None =>
            match CreateDecoder265 a f with
            | inl err => log Err "error creating H265 decoder";; mret (Some err)
            | inr rtpDec =>
                match newH265Decoder a with
                | inl err => modify (set_rawDecoder None);; mret (Some err)
                | inr d =>
                    modify (set_rawDecoder (Some d));;
                    feedParameterSet (VPS265 f) "no VPS found in H265 format";;
                    feedParameterSet (SPS265 f) "no SPS found in H265 format";;
                    feedParameterSet (PPS265 f) "no PPS found in H265 format";;
                    OnPacketRTP (HandleH265 rtpDec);;
                    mret None
                end
            end
        end
    end.

(** The part of [reconnectClient] that runs after the [defer]; the
    boolean is [clientSuccessful] at the return. *)
Definition connect (a : Answers) : M (bool * option Error) :=
  session ← clientCall (Describe a);
  match session with
  | inl err => mret (false, Some err)
  | inr session =>
      match getStreamInfo a with
      | inl err => mret (false, Some err)
      | inr codecInfo =>
          match codecInfo with
          | H264 =>
              log Info "setting up H264 decoder";;
              err ← initH264 a session;
              match err with
              | Some err => mret (false, Some err)
              | None =>
                  err ← clientCall (Play a);
                  match err with
                  | Some err => mret (false, Some err)
                  | None => mret (true, None)
                  end
              end
          | H265 =>
              log Info "setting up H265 decoder";;
              err ← initH265 a session;
              match err with
              | Some err => mret (false, Some err)
              | None =>
                  err ← clientCall (Play a);
                  match err with
                  | Some err => mret (false, Some err)
                  | None => mret (true, None)
                  end
              end
          | OtherCodec tag =>
              mret (false, Some (ErrCodecNotSupported tag))
          end
      end
  end.

(** [reconnectClient] on a camera that is not nil.  The three callbacks
    set on the new client only write to the debug log. *)
Definition reconnectClient (a : Answers) : M (option Error) :=
  closeConnection;;
  modify (set_client (Some (mkClient timeDec0 None)));;
  err ← clientCall (Start a);
  match err with
  | Some err => mret (Some err)
  | None =>
      '(clientSuccessful, err) ← connect a;
      when (negb clientSuccessful) closeConnection;;
      mret err
  end.

(** [reconnectClient] on any receiver: a nil camera is refused first. *)
Definition reconnectClientOn (a : Answers) (rc : option rtspCamera)
  : option (option Error * option rtspCamera) :=
  match rc with
  | None => Some (Some ErrRtspCameraNil, None)
  | Some rc => prod_map id Some <$> reconnectClient a rc
  end.

(** ** Passthrough subscriptions *)

(** [pkt.Timestamp += ts] on one packet of the encoder's output. *)
Definition addTimestamp (ts : Z) (pkt : Packet) : Packet :=
  mkPacket (SequenceNumber pkt) (add32 (Timestamp pkt) ts) (Marker pkt) (Payload pkt).

(** The tail of [unitSubscriberFunc], from [lastPTS = tunit.PTS] on.
    [None] is the panic of [tunit.RTPPackets[0]] on an empty slice. *)
Definition encodeAndCall (s : Subscriber) (tunit : H264Unit) (au : AccessUnit)
  : option (option Error * Subscriber) :=
  let '(enc', r) := Encode (encoder s) au in
  let s := mkSubscriber true (PTS tunit) enc' (packetsCB s) (calls s) in
  match r with
  | inl _ => Some (None, s)
  | inr pkts =>
      if bool_decide (length pkts = 0%nat) then Some (None, s)
      else
        match RTPPackets tunit with
        | [] => None
        | first :: _ =>
            let pkts := map (addTimestamp (Timestamp first)) pkts in
            Some (packetsCB s pkts,
                  mkSubscriber (firstReceived s) (lastPTS s) (encoder s)
                               (packetsCB s) (calls s ++ [pkts]))
        end
  end.

(** [unitSubscriberFunc] of [SubscribeRTP]: the returned error and the
    closure's variables after the call. *)
Definition unitSubscriberFunc (s : Subscriber) (u : Unit)
  : option (option Error * Subscriber) :=
  match u with
  | UnitOther _ => Some (Some ErrTypeConversion, s)
  | UnitH264 tunit =>
      match AU tunit with
      | None => Some (None, s)
      | Some au =>
          if negb (firstReceived s) then encodeAndCall s tunit au
          else if bool_decide (PTS tunit < lastPTS s) then Some (Some ErrBFrames, s)
          else encodeAndCall s tunit au
      end
  end.

(** What the two fallible calls of [SubscribeRTP] answer. *)
Record SubscribeAnswers := mkSubscribeAnswers {
  NewStreamSubscription : Z → Error + Sub;
  encoderInit : Error + Enc       (* PayloadType 96, PayloadMaxSize 1188 *)
}.

Definition uuidNil : SubscriptionID := 0%N.

Definition SubscribeRTP (a : SubscribeAnswers) (bufferSize : Z)
    (packetsCB : list Packet → option Error) : M (SubscriptionID * option Error) :=
  pass ← gets rtpH264Passthrough;
  if negb pass then mret (uuidNil, Some ErrH264PassthroughNotEnabled)
  else
    match NewStreamSubscription a bufferSize with
    | inl err => mret (uuidNil, Some err)
    | inr sub =>
        match encoderInit a with
        | inl err => mret (uuidNil, Some err)
        | inr encoder =>
            let unitSubscriberFunc := mkSubscriber false 0 encoder packetsCB [] in
            modify (λ rc, set_subAndCBByID
                            (<[subID sub := mkSubAndCB unitSubscriberFunc (subStart sub)]>
                               (subAndCBByID rc)) rc);;
            mret (subID (subStart sub), None)
        end
    end.

Definition Unsubscribe (id : SubscriptionID) : M (option Error) :=
  subs ← gets subAndCBByID;
  match subs !! id with
  | None => mret (Some ErrIdNotFound)
  | Some _ =>
      emit (EvSubClose id);;
      modify (λ rc, set_subAndCBByID (delete id (subAndCBByID rc)) rc);;
      mret None
  end.

Fixpoint closeAndDelete (ids : list SubscriptionID) : M () :=
  match ids with
  | [] => mret ()
  | id :: rest =>
      emit (EvSubClose id);;
      modify (λ rc, set_subAndCBByID (delete id (subAndCBByID rc)) rc);;
      closeAndDelete rest
  end.

Definition unsubscribeAll : M () :=
  subs ← gets subAndCBByID;
  closeAndDelete (fst <$> map_to_list subs).

(** ** The reconnect worker *)

(** The errors that the worker looks for in the error of [Options], and
    any other. *)
Inductive ProbeErrKind :=
| ErrClientTerminated                   (* liberrors.ErrClientTerminated{} *)
| ErrEOF                                (* io.EOF *)
| ErrEPIPE                              (* syscall.EPIPE *)
| ErrECONNREFUSED                       (* syscall.ECONNREFUSED *)
| ErrOtherProbe (msg : string).

#[global] Instance ProbeErrKind_eq_dec : EqDecision ProbeErrKind.
Proof. solve_decision. Defined.

(** [errors.Is(err, target)]: an error is given by the chain of the errors
    it wraps, itself first. *)
Definition errorsIs (err : list ProbeErrKind) (target : ProbeErrKind) : bool :=
  bool_decide (target ∈ err).

(** What [rc.client.Options(rc.u)] returns at one tick: the status code of
    the response ([None]: a nil response) and the error. *)
Record Probe := mkProbe {
  probeRes : option Z;
  probeErr : option (list ProbeErrKind)
}.

Definition StatusOK : Z := 200.

(** The body of the loop of [clientReconnectBackgroundWorker]: one tick,
    with the answer of the probe and of the calls of the reconnection. *)
Definition workerTick (probe : Probe) (a : Answers) : M () :=
  c ← gets client;
  badState ←
    match c with
    | None => mret true
    | Some _ =>
        if match probeErr probe with
           | Some err =>
               errorsIs err ErrClientTerminated || errorsIs err ErrEOF
               || errorsIs err ErrEPIPE || errorsIs err ErrECONNREFUSED
           | None => false
           end
        then
          log Warn "The rtsp client encountered an error, trying to reconnect";;
          mret true
        else
          match probeRes probe with
          | Some status =>
              if bool_decide (status ≠ StatusOK) then
                log Warn "The rtsp server responded with non-OK status";;
                mret true
              else mret false
          | None => mret false
          end
    end;
  if (badState : bool) then
    err ← reconnectClient a;
    match err with
    | Some _ => log Warn "cannot reconnect to rtsp server"
    | None => log Info "reconnected to rtsp server"
    end
  else mret ().

(** [clientReconnectBackgroundWorker]: one element per tick of the five
    second timer, until the context is cancelled. *)
Fixpoint clientReconnectBackgroundWorker (ticks : list (Probe * Answers)) : M () :=
  match ticks with
  | [] => mret ()
  | (probe, a) :: rest => workerTick probe a;; clientReconnectBackgroundWorker rest
  end.

(** ** [Close] and the worker

    [Close] cancels the context, so that the worker starts no further
    tick, empties the registry, closes the connection and waits for the
    worker.  The body of the worker's loop does not look at the context
    again: a tick that is in progress when [Close] is called runs to its
    end, before [unsubscribeAll], between the two calls, or after
    [closeConnection] while [Wait] blocks.  The tick is one step, as every
    method is. *)
Inductive TickPoint :=
| TickBeforeUnsubscribe
| TickBeforeCloseConnection
| TickDuringWait.

#[global] Instance TickPoint_eq_dec : EqDecision TickPoint.
Proof. solve_decision. Defined.

(** The tick of the worker that is in progress, and when it runs. *)
Record InFlight := mkInFlight {
  tickPoint : TickPoint;
  tickProbe : Probe;
  tickAnswers : Answers
}.

Definition tickAt (inflight : option InFlight) (point : TickPoint) : M () :=
  match inflight with
  | Some t =>
      if bool_decide (tickPoint t = point)
      then workerTick (tickProbe t) (tickAnswers t)
      else mret ()
  | None => mret ()
  end.

(** [Close]; [inflight] is the tick in progress, if there is one. *)
Definition Close (inflight : option InFlight) : M () :=
  (* rc.cancelFunc() *)
  tickAt inflight TickBeforeUnsubscribe;;
  unsubscribeAll;;
  tickAt inflight TickBeforeCloseConnection;;
  closeConnection;;
  (* rc.activeBackgroundWorkers.Wait() *)
  tickAt inflight TickDuringWait.

(** ** Construction and the frame reader *)

(** The result of the [VideoReaderFunc] of [newRTSPCamera]. *)
Inductive ReadResult :=
| Frame (img : Image)
| ErrNoFrameYet.                        (* "no frame yet" *)

Definition VideoReader (rc : rtspCamera) : ReadResult :=
  match latestFrame rc with
  | None => ErrNoFrameYet
  | Some latest => Frame latest
  end.

(** [newRTSPCamera]: [ParseURL] is the answer of [base.ParseURL] on the
    address of the configuration, [NewVideoSource] that of
    [camera.NewVideoSourceFromReader]; the camera is returned wrapped in
    the video source; the log starts empty. *)
Definition newRTSPCamera (ParseURL : option Error) (RTPPassthrough : bool)
    (a : Answers) (NewVideoSource : option Error) : option (Error + rtspCamera) :=
  match ParseURL with
  | Some err => Some (inl err)
  | None =>
      let rtspCam := mkCamera None None None [] RTPPassthrough ∅ [] in
      match reconnectClient a rtspCam with
      | None => None
      | Some (Some err, _) => Some (inl err)
      | Some (None, rtspCam) =>
          match NewVideoSource with
          | Some err => Some (inl err)
          | None => Some (inr rtspCam)
          end
      end
  end.

(** ** Runs and observations *)

(** The handler's closure after the packets [pkts], in arrival order. *)
Fixpoint feed (h : Handler) (pkts : list Packet) : M Handler :=
  match pkts with
  | [] => mret h
  | pkt :: rest => h' ← onPacketRTP h pkt; feed h' rest
  end.

(** The receive task over the packets [pkts]. *)
Fixpoint receiveAll (pkts : list Packet) : M () :=
  match pkts with
  | [] => mret ()
  | pkt :: rest => receive pkt;; receiveAll rest
  end.

(** The access units the H.264 depacketizer returns over [pkts]. *)
Fixpoint units264 (d : RtpDec264) (pkts : list Packet) : list AccessUnit :=
  match pkts with
  | [] => []
  | pkt :: rest =>
      let '(d', r) := rtpDecode264 d pkt in
      match r with
      | inl _ => units264 d' rest
      | inr au => au :: units264 d' rest
      end
  end.

(** The depacketizer's state after [pkts]. *)
Definition rtpDecAfter (d : RtpDec264) (pkts : list Packet) : RtpDec264 :=
  foldl (λ d pkt, fst (rtpDecode264 d pkt)) d pkts.

(** The images the raw decoder returns for the NAL units of [au], in
    order, up to its first error. *)
Fixpoint decodedImages (d : RawDec) (au : AccessUnit) : list Image :=
  match au with
  | [] => []
  | nalu :: rest =>
      let '(d', r) := rawDecode d nalu in
      match r with
      | inl _ => []
      | inr None => decodedImages d' rest
      | inr (Some img) => img :: decodedImages d' rest
      end
  end.

(** The raw decoder's state after the same NAL units. *)
Fixpoint decoderAfter (d : RawDec) (au : AccessUnit) : RawDec :=
  match au with
  | [] => d
  | nalu :: rest =>
      let '(d', r) := rawDecode d nalu in
      match r with
      | inl _ => d'
      | inr _ => decoderAfter d' rest
      end
  end.

(** The newest of the images [imgs], or [old] when there is none. *)
Definition newestOf (imgs : list Image) (old : option Image) : option Image :=
  match last imgs with
  | Some img => Some img
  | None => old
  end.

(** The closure's variables after [storeImage p pkt]. *)
Definition pipelineAfter (p : H264Pipeline) (pkt : Packet) : H264Pipeline :=
  let '(d', r) := rtpDecode264 (rtpDec p) pkt in
  match r with
  | inl _ => mkH264Pipeline d' (iFrameReceived p) (waitingForIframeLogged p)
  | inr au =>
      if iFrameReceived p || IDRPresent au
      then mkH264Pipeline d' true (waitingForIframeLogged p)
      else mkH264Pipeline d' false true
  end.

(** A subscription after [Publish] of the job for [u], and the event of
    that call. *)
Definition published (u : Unit) (sc : subAndCB) : subAndCB :=
  mkSubAndCB (cb sc) (Publish (sub sc) u).1.

Definition publishEvent (u : Unit) (e : SubscriptionID * subAndCB) : Event :=
  EvPublish e.1 u (Publish (sub e.2) u).2.

(** The unit that [publishToWebRTC] obtains for a packet: none when the
    packet has no timestamp or the format processor fails. *)
Definition passthroughUnit (c : Client) (fp : Fp) (pkt : Packet) : option Unit :=
  match (PacketPTS (timeDec c) pkt).2 with
  | None => None
  | Some pts =>
      match (ProcessRTPPacket fp pkt pts).2 with
      | inl _ => None
      | inr u => Some u
      end
  end.

(** What one packet does on the raw-frame path, from the camera [rc] to
    [rc'], when the decoder is [d]: an access unit reaches the raw decoder
    exactly when the gate is open or the unit has an IDR; otherwise
    decoder and frame slot stay as they are. *)
Definition rawPathStep (p : H264Pipeline) (pkt : Packet) (d : RawDec)
    (rc rc' : rtspCamera) : Prop :=
  match (rtpDecode264 (rtpDec p) pkt).2 with
  | inl _ =>
      latestFrame rc' = latestFrame rc ∧ rawDecoder rc' = Some d
      ∧ trace rc' = trace rc ++ [EvRaw pkt]
  | inr au =>
      if iFrameReceived p || IDRPresent au then
        latestFrame rc' = newestOf (decodedImages d au) (latestFrame rc)
        ∧ rawDecoder rc' = Some (decoderAfter d au)
        ∧ trace rc' = trace rc ++ EvRaw pkt :: EvUnit au
                               :: (EvStore <$> decodedImages d au)
      else
        latestFrame rc' = latestFrame rc ∧ rawDecoder rc' = Some d
        ∧ trace rc' = trace rc ++ [EvRaw pkt; EvUnit au]
  end.

(** The hand-offs of packets to the two paths, in the order of the trace. *)
Inductive Path := RawFramePath | PassthroughPath.

Definition handoffs (t : list Event) : list (Path * Packet) :=
  omap (λ e, match e with
             | EvRaw pkt => Some (RawFramePath, pkt)
             | EvPassthrough pkt => Some (PassthroughPath, pkt)
             | _ => None
             end) t.

(** No image is stored before a keyframe unit has been seen: [seen] says
    whether the events before [t] contain one; [isKey] tells keyframe
    units. *)
Fixpoint gated (isKey : AccessUnit → bool) (seen : bool) (t : list Event) : bool :=
  match t with
  | [] => true
  | EvUnit au :: rest => gated isKey (seen || isKey au) rest
  | EvStore _ :: rest => seen && gated isKey seen rest
  | _ :: rest => gated isKey seen rest
  end.

(** Everything but the decoder and the log is as before. *)
Definition quiet (rc rc' : rtspCamera) : Prop :=
  client rc' = client rc
  ∧ latestFrame rc' = latestFrame rc
  ∧ rtpH264Passthrough rc' = rtpH264Passthrough rc
  ∧ subAndCBByID rc' = subAndCBByID rc
  ∧ trace rc' = trace rc.

(** A handler as the two [init] functions build it: the gate of an H.264
    pipeline is closed, and it has a format processor exactly when
    passthrough is enabled. *)
Definition freshHandler (passthrough : bool) (h : Handler) : Prop :=
  match h with
  | HandleH264 p fp =>
      iFrameReceived p = false ∧ waitingForIframeLogged p = false
      ∧ (is_Some fp ↔ passthrough = true)
  | HandleH265 _ => passthrough = false
  end.

(** The outcome of an [init] function on a camera with a client: on
    success a fresh handler is registered and a decoder is in place. *)
Definition initOutcome (c : Client) (rc : rtspCamera)
    (r : option Error) (rc' : rtspCamera) : Prop :=
  latestFrame rc' = latestFrame rc
  ∧ rtpH264Passthrough rc' = rtpH264Passthrough rc
  ∧ subAndCBByID rc' = subAndCBByID rc
  ∧ trace rc' = trace rc
  ∧ match r with
    | None =>
        ∃ h, client rc' = Some (mkClient (timeDec c) (Some h))
             ∧ freshHandler (rtpH264Passthrough rc) h
             ∧ is_Some (rawDecoder rc')
    | Some _ => client rc' = Some c
    end.

(** [unitSubscriberFunc] on the units [us] in order: the errors returned
    and the closure after the last unit. *)
Fixpoint runUnits (s : Subscriber) (us : list Unit)
  : option (list (option Error) * Subscriber) :=
  match us with
  | [] => Some ([], s)
  | u :: rest =>
      match unitSubscriberFunc s u with
      | None => None
      | Some (r, s') =>
          match runUnits s' rest with
          | None => None
          | Some (rs, s'') => Some (r :: rs, s'')
          end
      end
  end.

(** Whether a keyframe unit has been seen once the events [t] are over. *)
Definition seenKey (isKey : AccessUnit → bool) (seen : bool) (t : list Event) : bool :=
  seen || existsb (λ e, match e with EvUnit au => isKey au | _ => false end) t.

(** Events that neither return a unit nor store an image. *)
Definition frameless (t : list Event) : Prop :=
  Forall (λ e, match e with EvUnit _ | EvStore _ => False | _ => True end) t.

(** The raw decoder after [decode] of a parameter set that is present. *)
Definition fedWith (d : RawDec) (ps : option NALU) : RawDec :=
  match ps with
  | Some nalu => (rawDecode d nalu).1
  | None => d
  end.

(** The warning for a parameter set that is missing. *)
Definition missingWarning (ps : option NALU) (msg : string) : list (Level * string) :=
  match ps with
  | Some _ => []
  | None => [(Warn, msg)]
  end.

(** The first error of the raw decoder over the NAL units of [au]. *)
Fixpoint firstError (d : RawDec) (au : AccessUnit) : option Error :=
  match au with
  | [] => None
  | nalu :: rest =>
      let '(d', r) := rawDecode d nalu in
      match r with
      | inl err => Some err
      | inr _ => firstError d' rest
      end
  end.

(** The probe calls for a reconnection: there is no client, the error of
    [Options] is or wraps one of the four connection errors, or the
    response has a status other than 200. *)
Definition unhealthy (rc : rtspCamera) (probe : Probe) : Prop :=
  client rc = None
  ∨ (∃ err kind, probeErr probe = Some err ∧ kind ∈ err
       ∧ kind ∈ [ErrClientTerminated; ErrEOF; ErrEPIPE; ErrECONNREFUSED])
  ∨ (∃ status, probeRes probe = Some status ∧ status ≠ StatusOK).

#[global] Instance Level_eq_dec : EqDecision Level.
Proof. solve_decision. Defined.

(** How often the entry [entry] occurs in a log. *)
Definition countLog (entry : Level * string) (l : list (Level * string)) : nat :=
  length (filter (λ e, e = entry) l).

(** What [storeImage] may still log once: the wait for a keyframe, and
    its arrival. *)
Definition waitBudget (p : H264Pipeline) : nat :=
  if iFrameReceived p || waitingForIframeLogged p then 0 else 1.
Definition gotBudget (p : H264Pipeline) : nat :=
  if iFrameReceived p then 0 else 1.

(** The images stored by the events [t], oldest first. *)
Definition stores (t : list Event) : list Image :=
  omap (λ e, match e with EvStore img => Some img | _ => None end) t.

(** The subscriptions closed by the events [t], oldest first. *)
Definition closedIds (t : list Event) : list SubscriptionID :=
  omap (λ e, match e with EvSubClose id => Some id | _ => None end) t.

(** The events of closing what the camera holds. *)
Definition closing (rc : rtspCamera) : list Event :=
  match client rc with Some _ => [EvClientClose] | None => [] end
  ++ match rawDecoder rc with Some _ => [EvDecoderClose] | None => [] end.

(** The packet batches are all non-empty. *)
Definition batchesNonEmpty (batches : list (list Packet)) : Prop :=
  Forall (λ batch, batch ≠ []) batches.

(** The camera after the method [m] has run on [rc] ([rc] itself when
    the method panics). *)
Definition stateAfter {A} (m : M A) (rc : rtspCamera) : rtspCamera :=
  match m rc with
  | Some (_, rc') => rc'
  | None => rc
  end.

End Camera.

(** ** A small instance of the libraries

    Packets carry one NAL unit each (the single NAL unit mode of RFC 6184
    and RFC 7798; a fragment asks for more packets), the raw decoder
    returns a picture for every slice and nothing for parameter sets, a
    picture is named by the slice it was decoded from, the encoder emits
    one packet per NAL unit and a subscription is a bounded queue. *)
Module SingleNal.

Definition naluType264 (nalu : NALU) : Z := Z.land (hd 0 nalu) 31.
Definition naluType265 (nalu : NALU) : Z := Z.land (Z.shiftr (hd 0 nalu) 1) 63.

Definition depacketize (fragment : Z) (typ : NALU → Z) (pkt : Packet)
  : Error + AccessUnit :=
  match Payload pkt with
  | [] => inl (ErrLib "payload is too short")
  | _ => if typ (Payload pkt) =? fragment then inl ErrMorePacketsNeeded
         else inr [Payload pkt]
  end.

(** The raw decoder is told by its state which codec it decodes. *)
Definition isSlice (h265 : bool) (nalu : NALU) : bool :=
  if h265 then naluType265 nalu <? 32
  else (naluType264 nalu =? 1) || (naluType264 nalu =? 5).

Definition isIDR264 (au : AccessUnit) : bool :=
  existsb (λ nalu, naluType264 nalu =? 5) au.

(** H.265 random access points: IDR_W_RADL, IDR_N_LP, CRA_NUT. *)
Definition isKey265 (au : AccessUnit) : bool :=
  existsb (λ nalu, (19 <=? naluType265 nalu) && (naluType265 nalu <=? 21)) au.

Record Queue := mkQueue { qid : SubscriptionID; capacity : nat; pending : list Unit }.

Definition enqueue (q : Queue) (u : Unit) : Queue * option Error :=
  if bool_decide (length (pending q) < capacity q)%nat
  then (mkQueue (qid q) (capacity q) (pending q ++ [u]), None)
  else (q, Some (ErrLib "queue full")).

#[export] Instance lib : Lib := {|
  Image := NALU;
  RtpDec264 := ();
  rtpDecode264 := λ d pkt, (d, depacketize 28 naluType264 pkt);
  RtpDec265 := ();
  rtpDecode265 := λ d pkt, (d, depacketize 49 naluType265 pkt);
  RawDec := bool;
  rawDecode := λ d nalu, (d, inr (if isSlice d nalu then Some nalu else None));
  IDRPresent := isIDR264;
  TimeDec := ();
  timeDec0 := ();
  PacketPTS := λ d pkt, (d, Some (Timestamp pkt));
  Fp := ();
  ProcessRTPPacket := λ fp pkt pts,
    (fp, inr (UnitH264 (mkH264Unit (Some [Payload pkt]) pts [pkt])));
  Enc := Z;
  Encode := λ seq au,
    (seq + Z.of_nat (length au),
     inr (imap (λ i nalu, mkPacket (seq + Z.of_nat i) 0 true nalu) au));
  Sub := Queue;
  subID := qid;
  subStart := λ q, q;
  Publish := enqueue
|}.

(** The states of the library objects at creation. *)
Definition rtpDec264_0 : RtpDec264 := ().
Definition rtpDec265_0 : RtpDec265 := ().
Definition fp0 : Fp := ().
Definition h264Decoder : RawDec := false.
Definition h265Decoder : RawDec := true.

(** The callback of [initH265] and its camera. *)
Definition callback265 : Handler := HandleH265 rtpDec265_0.

(** A camera with a live client and decoder, and no subscriber. *)
Definition camera (passthrough h265 : bool) (h : Handler) : rtspCamera :=
  mkCamera (Some (mkClient () (Some h))) (Some h265) None [] passthrough ∅ [].

(** Packets: a non-IDR slice and an IDR slice of H.264, a trailing
    picture of H.265 (type 1), each alone in its packet. *)
Definition slicePkt : Packet := mkPacket 1 9000 true [0x41; 0x9a].
Definition idrPkt : Packet := mkPacket 2 12000 true [0x65; 0x88].
Definition trailPkt : Packet := mkPacket 1 9000 true [0x02; 0x01].

(** Connection attempts: the source has an H.264 track and every call
    succeeds; the same with a failing [Start]. *)
Definition session264 : Session :=
  mkSession ["video"] (Some (mkFormatH264 (Some [0x67]) (Some [0x68]))) None.

Definition answersOK : Answers :=
  mkAnswers None (inr session264) (inr H264)
            (λ _, inr ()) (λ _, inr ()) (inr false) (inr true)
            (λ _ _ _, inr ()) None None.

Definition answersStartFails : Answers :=
  mkAnswers (Some (ErrLib "dial tcp: connection refused")) (inr session264) (inr H264)
            (λ _, inr ()) (λ _, inr ()) (inr false) (inr true)
            (λ _ _ _, inr ()) None None.

(** The source has only an H.265 track. *)
Definition session265 : Session :=
  mkSession ["video"] None (Some (mkFormatH265 None None None)).

Definition answers265 : Answers :=
  mkAnswers None (inr session265) (inr H265)
            (λ _, inr ()) (λ _, inr ()) (inr false) (inr true)
            (λ _ _ _, inr ()) None None.

(** A camera that was never connected. *)
Definition newCamera (passthrough : bool) : rtspCamera :=
  mkCamera None None None [] passthrough ∅ [].

(** A subscriber that has accepted a unit with timestamp 100. *)
Definition subscriber : Subscriber :=
  mkSubscriber true 100 0 (λ _, None) [].

(** A pipeline as [initH264] builds it. *)
Definition pipeline : H264Pipeline := mkH264Pipeline rtpDec264_0 false false.

Definition handler264 : Handler := HandleH264 pipeline (Some fp0).

(** A connected H.264 camera with passthrough and two subscriptions, the
    second with a full queue. *)
Definition watched : rtspCamera :=
  mkCamera (Some (mkClient () (Some handler264)))
           (Some h264Decoder) None [] true
           (<[7%N := mkSubAndCB subscriber (mkQueue 7%N 2 [])]>
              (<[9%N := mkSubAndCB subscriber (mkQueue 9%N 0 [])]> ∅))
           [].

End SingleNal.

(** ** ONVIF discovery ([viamonvif])

    The functions of [discovery.go] that turn the answers of a device
    into the camera information.  A function returns its Go result next to
    the lines it logs.  The device is the interface [OnvifDevice]; the
    code that opens a device ([device.NewDevice]) and the WS-Discovery
    probe ([WSDiscovery]) are arguments. *)
Module Onvif.

(** [url.URL]: the host and the printed form. *)
Record URL := mkURL { Host : string; urlString : string }.

Record Credentials := mkCredentials { User : string; Pass : string }.

(** The body of the device information response. *)
Record DeviceInfo := mkDeviceInfo {
  devManufacturer : string;
  devModel : string;
  devSerialNumber : string;
  devFirmwareVersion : string;
  devHardwareId : string
}.

(** [onvif.Profile], as far as it is printed. *)
Record Profile := mkProfile { Token : string; Name : string }.

Record CameraInfo := mkCameraInfo {
  WSDiscoveryXAddr : string;
  RTSPURLs : list string;
  Manufacturer : string;
  Model : string;
  SerialNumber : string;
  FirmwareVersion : string;
  HardwareId : string
}.

(** Errors: those of a device or of the network, and the two shapes that
    [fmt.Errorf] builds here. *)
Inductive DiscoveryError :=
| ErrDevice (msg : string)
| ErrorfW (context : string) (err : DiscoveryError)   (* "<context>: %w" *)
| ErrorfS (context : string) (arg : string).          (* "<context> %s" *)

(** [err.Error()]. *)
Fixpoint errorText (err : DiscoveryError) : string :=
  match err with
  | ErrDevice msg => msg
  | ErrorfW context err => context +:+ ": " +:+ errorText err
  | ErrorfS context arg => context +:+ " " +:+ arg
  end.

(** The interface [OnvifDevice]. *)
Class OnvifDevice (Dev : Type) := {
  GetDeviceInformation : Dev → DiscoveryError + DeviceInfo;
  GetProfiles : Dev → DiscoveryError + list Profile;
  GetStreamUri : Dev → Profile → Credentials → DiscoveryError + URL
}.

Definition Log := list (Level * string).

Section Device.
Context {Dev : Type} `{OnvifDevice Dev}.

(** The loop of [GetRTSPStreamURIsFromProfiles]: the slice [rtspUris] and
    the log after the profiles [profiles]. *)
Definition streamURIs (dev : Dev) (creds : Credentials) (profiles : list Profile)
  : list string * Log :=
  foldl (λ acc profile,
           match GetStreamUri dev profile creds with
           | inl err => (acc.1, acc.2 ++ [(Warn, errorText err)])
           | inr uri => (acc.1 ++ [urlString uri], acc.2)
           end) ([], []) profiles.

Definition GetRTSPStreamURIsFromProfiles (dev : Dev) (creds : Credentials)
  : (DiscoveryError + list string) * Log :=
  match GetProfiles dev with
  | inl err => (inl err, [])
  | inr resp =>
      let '(rtspUris, log) := streamURIs dev creds resp in
      (inr rtspUris, log)
  end.

Definition GetCameraInfo (dev : Dev) (xaddr : URL) (creds : Credentials)
  : (DiscoveryError + CameraInfo) * Log :=
  match GetDeviceInformation dev with
  | inl err =>
      (inl (ErrorfW "failed to read device information response body" err), [])
  | inr deviceInfo =>
      let '(r, log) := GetRTSPStreamURIsFromProfiles dev creds in
      match r with
      | inl err => (inl (ErrorfW "failed to get RTSP URLs" err), log)
      | inr rtspURLs =>
          (inr (mkCameraInfo (Host xaddr) rtspURLs
                  (devManufacturer deviceInfo) (devModel deviceInfo)
                  (devSerialNumber deviceInfo) (devFirmwareVersion deviceInfo)
                  (devHardwareId deviceInfo)),
           log)
      end
  end.

(** The loop of [DiscoverCamerasOnXAddr] from its iteration [i] on, over
    the credentials left; [ctxErr i] tells whether the context is
    cancelled when iteration [i] looks at it. *)
Fixpoint tryCredentials (NewDevice : URL → Credentials → DiscoveryError + Dev)
    (ctxErr : nat → bool) (xaddr : URL) (i : nat) (creds : list Credentials)
  : (DiscoveryError + CameraInfo) * Log :=
  match creds with
  | [] => (inl (ErrorfS "no credentials matched IP" (urlString xaddr)), [])
  | cred :: rest =>
      if ctxErr i then
        (inl (ErrorfS "context canceled while connecting to ONVIF device:"
                      (urlString xaddr)), [])
      else
        match NewDevice xaddr cred with
        | inl err =>
            let '(r, log) := tryCredentials NewDevice ctxErr xaddr (S i) rest in
            (r, (Debug, "Failed to get camera capabilities") :: log)
        | inr dev =>
            let '(info, infoLog) := GetCameraInfo dev xaddr cred in
            match info with
            | inl err =>
                let '(r, log) := tryCredentials NewDevice ctxErr xaddr (S i) rest in
                (r, (Debug, "GetCapabilities") :: infoLog
                    ++ (Warn, "Failed to get camera info") :: log)
            | inr cameraInfo => (inr cameraInfo, (Debug, "GetCapabilities") :: infoLog)
            end
        end
  end.

(** The credentials open the device and give its camera information. *)
Definition credentialsWork (NewDevice : URL → Credentials → DiscoveryError + Dev)
    (xaddr : URL) (cred : Credentials) : bool :=
  match NewDevice xaddr cred with
  | inl _ => false
  | inr dev =>
      match (GetCameraInfo dev xaddr cred).1 with
      | inl _ => false
      | inr _ => true
      end
  end.

(** The printed stream address of a profile, when the device gives one. *)
Definition streamOf (dev : Dev) (creds : Credentials) (profile : Profile)
  : option string :=
  match GetStreamUri dev profile creds with
  | inl _ => None
  | inr uri => Some (urlString uri)
  end.

Definition DiscoverCamerasOnXAddr (NewDevice : URL → Credentials → DiscoveryError + Dev)
    (ctxErr : nat → bool) (xaddr : URL) (creds : list Credentials)
  : (DiscoveryError + CameraInfo) * Log :=
  tryCredentials NewDevice ctxErr xaddr 0 creds.

(** The map [discovered] of [DiscoverCameras]: the manual addresses, then
    the addresses found on each interface whose probe succeeds, each under
    its host. *)
Definition addXAddrs (discovered : gmap string URL) (xaddrs : list URL)
  : gmap string URL :=
  foldl (λ m xaddr, <[Host xaddr := xaddr]> m) discovered xaddrs.

Definition discoveredXAddrs (WSDiscovery : string → DiscoveryError + list URL)
    (manualXAddrs : list URL) (ifaces : list string) : gmap string URL :=
  foldl (λ m iface,
           match WSDiscovery iface with
           | inl _ => m
           | inr xaddrs => addXAddrs m xaddrs
           end) (addXAddrs ∅ manualXAddrs) ifaces.

(** [DiscoverCameras]: [Interfaces] is the answer of [net.Interfaces];
    the context is the function's own and is cancelled only when it
    returns.  Go ranges over the map in no fixed order; here the entries
    come in the order of [map_to_list].  The log is left out. *)
Definition DiscoverCameras (Interfaces : DiscoveryError + list string)
    (WSDiscovery : string → DiscoveryError + list URL)
    (NewDevice : URL → Credentials → DiscoveryError + Dev)
    (creds : list Credentials) (manualXAddrs : list URL)
  : DiscoveryError + list CameraInfo :=
  match Interfaces with
  | inl err => inl (ErrorfW "failed to retrieve network interfaces" err)
  | inr ifaces =>
      let discovered := discoveredXAddrs WSDiscovery manualXAddrs ifaces in
      inr (foldl (λ discoveredCameras entry,
                    match (DiscoverCamerasOnXAddr NewDevice (λ _, false) entry.2 creds).1 with
                    | inl _ => discoveredCameras
                    | inr cameraInfo => discoveredCameras ++ [cameraInfo]
                    end) [] (map_to_list discovered))
  end.

End Device.

(** [net.Flags]. *)
Definition FlagUp : Z := 1.
Definition FlagBroadcast : Z := 2.
Definition FlagLoopback : Z := 4.
Definition FlagPointToPoint : Z := 8.
Definition FlagMulticast : Z := 16.
Definition FlagRunning : Z := 32.

(** [ValidWSDiscoveryInterface]: [Addrs] and [MulticastAddrs] are the
    errors of the two address queries ([None]: no error), on which the
    function panics; the addresses are only printed. *)
Definition ValidWSDiscoveryInterface (Addrs MulticastAddrs : option DiscoveryError)
    (Flags : Z) : option bool :=
  match Addrs with
  | Some _ => None
  | None =>
      match MulticastAddrs with
      | Some _ => None
      | None =>
          Some (negb (Z.land Flags FlagUp =? 0)
                && negb (Z.land Flags FlagMulticast =? 0)
                && (Z.land Flags FlagLoopback =? 0))
      end
  end.

(** A device that answers from a table: the stream address of a profile
    is found under its token. *)
Record TableDevice := mkTableDevice {
  tdInfo : DiscoveryError + DeviceInfo;
  tdProfiles : DiscoveryError + list Profile;
  tdStreams : list (string * string)
}.

#[export] Instance tableDevice : OnvifDevice TableDevice := {|
  GetDeviceInformation := tdInfo;
  GetProfiles := tdProfiles;
  GetStreamUri := λ dev profile creds,
    match list_find (λ e, e.1 = Token profile) (tdStreams dev) with
    | Some (_, e) => inr (mkURL "camera" e.2)
    | None => inl (ErrDevice "no stream for this profile")
    end
|}.

(** A camera with two profiles, of which the second has no stream. *)
Definition twoProfiles : TableDevice :=
  mkTableDevice (inr (mkDeviceInfo "Acme" "C1" "0042" "1.0" "rev2"))
                (inr [mkProfile "main" "Main"; mkProfile "sub" "Sub"])
                [("main", "rtsp://camera/main")].

(** It needs the user "admin". *)
Definition openTwoProfiles (xaddr : URL) (cred : Credentials)
  : DiscoveryError + TableDevice :=
  if bool_decide (User cred = "admin") then inr twoProfiles
  else inl (ErrDevice "not authorized").

End Onvif.

(** ** An instance with a raw decoder and an encoder that can fail

    As [SingleNal], but the raw decoder refuses a NAL unit whose
    forbidden bit is set, and the encoder refuses an access unit that
    holds an empty NAL unit. *)
Module Checked.

Definition forbidden (nalu : NALU) : bool := 128 <=? hd 0 nalu.

#[local] Instance lib : Lib := {|
  Image := NALU;
  RtpDec264 := ();
  rtpDecode264 := λ d pkt, (d, SingleNal.depacketize 28 SingleNal.naluType264 pkt);
  RtpDec265 := ();
  rtpDecode265 := λ d pkt, (d, SingleNal.depacketize 49 SingleNal.naluType265 pkt);
  RawDec := bool;
  rawDecode := λ d nalu,
    if forbidden nalu then (d, inl (ErrLib "forbidden_zero_bit is set"))
    else (d, inr (if SingleNal.isSlice d nalu then Some nalu else None));
  IDRPresent := SingleNal.isIDR264;
  TimeDec := ();
  timeDec0 := ();
  PacketPTS := λ d pkt, (d, Some (Timestamp pkt));
  Fp := ();
  ProcessRTPPacket := λ fp pkt pts,
    (fp, inr (UnitH264 (mkH264Unit (Some [Payload pkt]) pts [pkt])));
  Enc := Z;
  Encode := λ seq au,
    if existsb (λ nalu, bool_decide (nalu = [])) au
    then (seq, inl (ErrLib "NAL unit is empty"))
    else (seq + Z.of_nat (length au),
          inr (imap (λ i nalu, mkPacket (seq + Z.of_nat i) 0 true nalu) au));
  Sub := SingleNal.Queue;
  subID := SingleNal.qid;
  subStart := λ q, q;
  Publish := SingleNal.enqueue
|}.

Definition h264Decoder : RawDec := false.

(** A camera with a decoder, and a subscriber that has accepted a unit
    with timestamp 100. *)
Definition camera : rtspCamera :=
  mkCamera (Some (mkClient () None)) (Some h264Decoder) None [] false ∅ [].

Definition subscriber : Subscriber :=
  mkSubscriber true 100 0 (λ _, None) [].

(** A unit whose access unit holds an empty NAL unit. *)
Definition emptyNalUnit : H264Unit := mkH264Unit (Some [[]]) 150 [].

End Checked.

(** ** Inputs for the small instance *)
Module Examples.
Import SingleNal.

(** A packet without payload, which the depacketizers refuse. *)
Definition emptyPkt : Packet := mkPacket 3 15000 false [].

(** An H.264 track that announces its SPS but no PPS. *)
Definition sessionNoPPS : Session :=
  mkSession ["video"] (Some (mkFormatH264 (Some [0x67]) None)) None.

(** A pipeline whose gate is open, and its camera without passthrough. *)
Definition openPipeline : H264Pipeline := mkH264Pipeline rtpDec264_0 true true.

Definition openCamera : rtspCamera := camera false false (HandleH264 openPipeline None).

(** A camera without passthrough whose pipeline is as [initH264] built it. *)
Definition waitingCamera : rtspCamera := camera false false (HandleH264 pipeline None).

(** [SubscribeRTP] gets a queue of the asked size under the id 11. *)
Definition subscribeOK : SubscribeAnswers :=
  mkSubscribeAnswers (λ bufferSize, inr (mkQueue 11%N (Z.to_nat bufferSize) []))
                     (inr 0).

(** Three units: a later one, an earlier one, and one of another kind. *)
Definition threeUnits : list Unit :=
  [UnitH264 (mkH264Unit (Some [[0x65]]) 150 [idrPkt]);
   UnitH264 (mkH264Unit (Some [[0x41]]) 120 [slicePkt]);
   UnitOther "opus"].

(** The subscriber of [SingleNal] after these units: the first one has
    been encoded and delivered. *)
Definition afterThreeUnits : Subscriber :=
  mkSubscriber true 150 1 (λ _, None) [[mkPacket 0 12000 true [0x65]]].

(** Probes: a time-out with a healthy response, and an [io.EOF] wrapped
    in a read error. *)
Definition probeTimeout : Probe :=
  mkProbe (Some StatusOK) (Some [ErrOtherProbe "i/o timeout"]).

Definition probeEOF : Probe :=
  mkProbe None (Some [ErrOtherProbe "read tcp"; ErrEOF]).

(** A tick of the worker that is in progress while [Close] waits. *)
Definition tickWhileWaiting : InFlight := mkInFlight TickDuringWait probeTimeout answersOK.

(** The unit that the format processor returns for [slicePkt]. *)
Definition sliceUnit : Unit :=
  UnitH264 (mkH264Unit (Some [[0x41; 0x9a]]) 9000 [slicePkt]).

(** An ONVIF address and two credentials, of which the second opens
    [Onvif.openTwoProfiles]. *)
Definition xaddr : Onvif.URL :=
  Onvif.mkURL "192.168.1.20" "http://192.168.1.20/onvif/device_service".

Definition guest : Onvif.Credentials := Onvif.mkCredentials "guest" "guest".
Definition administrator : Onvif.Credentials := Onvif.mkCredentials "admin" "secret".

End Examples.

(** * Properties *)

Section Proofs.
Context `{L : Lib}.

(** ** The state transformers *)

Lemma bind_run {A B} (m : M A) (f : A → M B) (rc : rtspCamera) :
  (m ≫= f) rc = match m rc with Some (a, rc') => f a rc' | None => None end.
Proof. reflexivity. Qed.

Lemma ret_run {A} (a : A) (rc : rtspCamera) : (mret a : M A) rc = Some (a, rc).
Proof. reflexivity. Qed.

Ltac fin := split_and?; first [done | by eauto].

Ltac run :=
  repeat first
    [ rewrite bind_run
    | rewrite ret_run
    | progress unfold emit, log, modify, gets, when, store, panic
    | progress simpl ].

(** ** The decode loop *)

Lemma newestOf_cons img imgs old :
  newestOf (img :: imgs) old = newestOf imgs (Some img).
Proof.
  unfold newestOf. destruct imgs as [|i l]; [done|].
  rewrite last_cons. by destruct (last (i :: l)).
Qed.

(** With a decoder in place the loop does not panic; it stores every
    image the decoder returns, in order, and touches nothing but the
    decoder, the frame slot, the log and the trace. *)
Lemma decodeNALUs_run msg au : ∀ rc d,
  rawDecoder rc = Some d →
  ∃ rc', decodeNALUs msg au rc = Some ((), rc')
    ∧ latestFrame rc' = newestOf (decodedImages d au) (latestFrame rc)
    ∧ trace rc' = trace rc ++ (EvStore <$> decodedImages d au)
    ∧ rawDecoder rc' = Some (decoderAfter d au)
    ∧ client rc' = client rc
    ∧ subAndCBByID rc' = subAndCBByID rc
    ∧ rtpH264Passthrough rc' = rtpH264Passthrough rc.
Proof.
  induction au as [|nalu rest IH]; intros rc d Hd.
  - eexists. split; [reflexivity|]. simpl. rewrite app_nil_r. eauto 10.
  - simpl. unfold decode. run. rewrite Hd.
    destruct (rawDecode d nalu) as [d' [err|[img|]]] eqn:E; run.
    + eexists. split; [reflexivity|]. simpl. rewrite app_nil_r. eauto 10.
    + edestruct (IH (set_trace (trace rc ++ [EvStore img])
                       (set_latestFrame (Some img) (set_rawDecoder (Some d') rc))) d')
        as (rc' & -> & Hf & Ht & Hd' & Hc & Hs & Hp); [done|].
      eexists. split; [reflexivity|].
      rewrite Hf, Ht, newestOf_cons. simpl. rewrite <- app_assoc. eauto 10.
    + edestruct (IH (set_rawDecoder (Some d') rc) d')
        as (rc' & -> & Hf & Ht & Hd' & Hc & Hs & Hp); [done|].
      eexists. split; [reflexivity|]. rewrite Hf, Ht. eauto 10.
Qed.

(** Whatever the camera holds, the loop adds only stores to the trace and
    leaves the client and the registry alone. *)
Lemma decodeNALUs_stores msg au : ∀ rc rc',
  decodeNALUs msg au rc = Some ((), rc') →
  (∃ imgs, trace rc' = trace rc ++ (EvStore <$> imgs))
  ∧ client rc' = client rc
  ∧ subAndCBByID rc' = subAndCBByID rc
  ∧ rtpH264Passthrough rc' = rtpH264Passthrough rc.
Proof.
  induction au as [|nalu rest IH]; intros rc rc'; simpl.
  - run. intros [= <-]. split; [exists []; simpl; by rewrite app_nil_r | done].
  - unfold decode. run. destruct (rawDecoder rc) as [d|]; [|done].
    destruct (rawDecode d nalu) as [d' [err|[img|]]]; run.
    + intros [= <-]. split; [exists []; simpl; by rewrite app_nil_r | done].
    + intros H. apply IH in H as ([imgs Ht] & Hc & Hs & Hp). simpl in *.
      split; [|done]. exists (img :: imgs). rewrite Ht. simpl.
      by rewrite <- app_assoc.
    + intros H. apply IH in H as ([imgs Ht] & Hc & Hs & Hp). simpl in *.
      split; [|done]. by exists imgs.
Qed.

(** ** [storeImage] *)

(** With a decoder in place [storeImage] does not panic, and the packet
    takes the step [rawPathStep]. *)
Lemma storeImage_run p pkt rc d :
  rawDecoder rc = Some d →
  ∃ rc', storeImage p pkt rc = Some (pipelineAfter p pkt, rc')
    ∧ client rc' = client rc
    ∧ subAndCBByID rc' = subAndCBByID rc
    ∧ rtpH264Passthrough rc' = rtpH264Passthrough rc
    ∧ rawPathStep p pkt d rc rc'.
Proof.
  intros Hd. unfold storeImage, pipelineAfter, rawPathStep. run.
  destruct (rtpDecode264 (rtpDec p) pkt) as [d' [err|au]] eqn:E; run.
  - destruct (benign err); run; eexists; (split; [reflexivity|]); simpl; eauto 10.
  - destruct (iFrameReceived p) eqn:Hg; simpl.
    + rewrite bind_run.
      match goal with |- context [decodeNALUs ?m ?a ?s] =>
        destruct (decodeNALUs_run m a s d) as (rc' & -> & Hf & Ht & Hd' & Hc & Hs & Hp);
          [done|]
      end.
      eexists. split; [reflexivity|]. rewrite Hf, Ht. simpl.
      rewrite <- !app_assoc. eauto 10.
    + destruct (IDRPresent au) eqn:Hk; simpl.
      * rewrite !bind_run.
        match goal with |- context [decodeNALUs ?m ?a ?s] =>
          destruct (decodeNALUs_run m a s d) as (rc' & -> & Hf & Ht & Hd' & Hc & Hs & Hp);
            [done|]
        end.
        eexists. split; [reflexivity|]. rewrite Hf, Ht. simpl.
        rewrite <- !app_assoc. eauto 10.
      * destruct (waitingForIframeLogged p) eqn:Hw; run;
          eexists; (split; [reflexivity|]); simpl; rewrite <- !app_assoc; eauto 10.
Qed.

(** ** [publishToWebRTC] *)

Lemma publishAll_run u l : ∀ rc,
  ∃ rc', publishAll u l rc = Some ((), rc')
    ∧ client rc' = client rc
    ∧ rawDecoder rc' = rawDecoder rc
    ∧ latestFrame rc' = latestFrame rc
    ∧ rtpH264Passthrough rc' = rtpH264Passthrough rc
    ∧ trace rc' = trace rc ++ (publishEvent u <$> l)
    ∧ subAndCBByID rc' =
        foldl (λ m e, <[e.1 := published u e.2]> m) (subAndCBByID rc) l.
Proof.
  induction l as [|[id sc] l IH]; intros rc; simpl.
  - eexists. split; [reflexivity|]. rewrite app_nil_r. eauto 10.
  - destruct (Publish (sub sc) u) as [s' err] eqn:E. run.
    destruct err as [e|]; run;
      match goal with |- context [publishAll u l ?s] =>
        destruct (IH s) as (rc' & Hrun & Hc & Hd & Hf & Hp & Ht & Hs)
      end;
      exists rc'; (split; [exact Hrun|]);
      rewrite Ht, Hs; unfold publishEvent, published; simpl; rewrite E; simpl;
      rewrite <- app_assoc; eauto 10.
Qed.

(** Publishing to the entries of a map one by one maps [published] over
    the map. *)
Lemma foldl_published u (l : list (SubscriptionID * subAndCB)) :
  ∀ m0 : gmap SubscriptionID subAndCB,
  NoDup l.*1 →
  ∀ id, foldl (λ m e, <[e.1 := published u e.2]> m) m0 l !! id =
        match (list_to_map l : gmap SubscriptionID subAndCB) !! id with
        | Some sc => Some (published u sc)
        | None => m0 !! id
        end.
Proof.
  induction l as [|[k v] l IH]; intros m0 Hnd id; simpl.
  - by rewrite lookup_empty.
  - apply NoDup_cons in Hnd as [Hk Hnd]. rewrite IH by done.
    destruct (decide (k = id)) as [->|Hne].
    + rewrite lookup_insert_eq.
      rewrite (not_elem_of_list_to_map_1 _ id) by done.
      by rewrite lookup_insert_eq.
    + rewrite !lookup_insert_ne by done. done.
Qed.

Lemma publish_registry u (m : gmap SubscriptionID subAndCB) :
  foldl (λ m e, <[e.1 := published u e.2]> m) m (map_to_list m) = published u <$> m.
Proof.
  apply map_eq. intros id.
  rewrite foldl_published by apply NoDup_fst_map_to_list.
  rewrite list_to_map_to_list, lookup_fmap. by destruct (m !! id).
Qed.

(** With a client in place [publishToWebRTC] does not panic.  It leaves
    decoder and frame slot alone; when the format processor returns a
    unit, every registered subscription gets one [Publish] of it. *)
Lemma publishToWebRTC_run fp pkt rc c :
  client rc = Some c →
  ∃ fp' rc' evs, publishToWebRTC fp pkt rc = Some (fp', rc')
    ∧ is_Some (client rc')
    ∧ rawDecoder rc' = rawDecoder rc
    ∧ latestFrame rc' = latestFrame rc
    ∧ rtpH264Passthrough rc' = rtpH264Passthrough rc
    ∧ trace rc' = trace rc ++ EvPassthrough pkt :: evs
    ∧ match passthroughUnit c fp pkt with
      | Some u =>
          subAndCBByID rc' = published u <$> subAndCBByID rc
          ∧ evs = publishEvent u <$> map_to_list (subAndCBByID rc)
      | None => subAndCBByID rc' = subAndCBByID rc ∧ evs = []
      end.
Proof.
  intros Hc. unfold publishToWebRTC, passthroughUnit. run. rewrite Hc.
  destruct (PacketPTS (timeDec c) pkt) as [td' [pts|]]; run.
  2: { eexists _, _, []. split; [reflexivity|]. simpl. eauto 10. }
  destruct (ProcessRTPPacket fp pkt pts) as [fp' [err|u]]; run.
  { eexists _, _, []. split; [reflexivity|]. simpl. eauto 10. }
  case_bool_decide as Hsz.
  - apply map_size_empty_iff in Hsz.
    eexists _, _, []. split; [reflexivity|]. simpl.
    rewrite Hsz, fmap_empty, map_to_list_empty. eauto 10.
  - rewrite bind_run.
    match goal with |- context [publishAll u ?l ?s] =>
      destruct (publishAll_run u l s) as (rc' & -> & Hc' & Hd & Hf & Hp & Ht & Hs)
    end.
    eexists _, _, _. split; [reflexivity|]. simpl in *.
    rewrite Hc', Hd, Hf, Hp, Ht, Hs, publish_registry.
    rewrite <- app_assoc. simpl. eauto 10.
Qed.

(** ** Order of the two paths *)

Lemma handoffs_app t1 t2 : handoffs (t1 ++ t2) = handoffs t1 ++ handoffs t2.
Proof. apply omap_app. Qed.

Lemma handoffs_stores imgs : handoffs (EvStore <$> imgs) = [].
Proof. by induction imgs. Qed.

Lemma handoffs_publishes u l : handoffs (publishEvent u <$> l) = [].
Proof. by induction l. Qed.

Lemma rawPathStep_handoffs p pkt d rc rc' :
  rawPathStep p pkt d rc rc' →
  handoffs (trace rc') = handoffs (trace rc) ++ [(RawFramePath, pkt)].
Proof.
  unfold rawPathStep.
  destruct (rtpDecode264 (rtpDec p) pkt).2 as [err|au].
  - intros (_ & _ & ->). by rewrite handoffs_app.
  - destruct (iFrameReceived p || IDRPresent au); intros (_ & _ & ->);
      rewrite handoffs_app; simpl; [|done].
    by rewrite handoffs_stores.
Qed.

(** The step depends on the camera before it only through the frame slot. *)
Lemma rawPathStep_frame p pkt d rc1 rc1' rc2 rc2' :
  rawPathStep p pkt d rc1 rc1' → rawPathStep p pkt d rc2 rc2' →
  latestFrame rc1 = latestFrame rc2 →
  latestFrame rc1' = latestFrame rc2' ∧ rawDecoder rc1' = rawDecoder rc2'.
Proof.
  unfold rawPathStep. intros H1 H2 Hf.
  destruct (rtpDecode264 (rtpDec p) pkt).2 as [err|au].
  - destruct H1 as (-> & -> & _), H2 as (-> & -> & _). done.
  - destruct (iFrameReceived p || IDRPresent au);
      destruct H1 as (-> & -> & _), H2 as (-> & -> & _); by rewrite Hf.
Qed.

(** C2 (as amended).  With passthrough enabled, the handler of an H.264
    session hands every packet to [publishToWebRTC] first and to
    [storeImage] second.  Whatever the passthrough step does with the
    packet (no timestamp, a format processor error, rejected publishes),
    the raw-frame step runs, and it leaves the pipeline, the decoder and
    the frame slot exactly as [storeImage] alone would. *)
Theorem onPacketRTP_passthrough_then_raw
    (p : H264Pipeline) (fp : Fp) (pkt : Packet) (rc : rtspCamera)
    (c : Client) (d : RawDec) :
  client rc = Some c →
  rawDecoder rc = Some d →
  ∃ fp' rc' rcRaw,
    onPacketRTP (HandleH264 p (Some fp)) pkt rc
      = Some (HandleH264 (pipelineAfter p pkt) (Some fp'), rc')
    ∧ handoffs (trace rc')
      = handoffs (trace rc) ++ [(PassthroughPath, pkt); (RawFramePath, pkt)]
    ∧ storeImage p pkt rc = Some (pipelineAfter p pkt, rcRaw)
    ∧ latestFrame rc' = latestFrame rcRaw
    ∧ rawDecoder rc' = rawDecoder rcRaw.
Proof.
  intros Hc Hd.
  destruct (publishToWebRTC_run fp pkt rc c Hc)
    as (fp' & rc1 & evs & Hpub & _ & Hd1 & Hf1 & _ & Ht1 & Hsubs).
  destruct (storeImage_run p pkt rc1 d) as (rc' & Hraw & _ & _ & _ & Hstep);
    [by rewrite Hd1|].
  destruct (storeImage_run p pkt rc d Hd) as (rcRaw & Halone & _ & _ & _ & Hstep0).
  exists fp', rc', rcRaw. split.
  { simpl. rewrite bind_run, Hpub, bind_run, Hraw. done. }
  split.
  { rewrite (rawPathStep_handoffs _ _ _ _ _ Hstep), Ht1, handoffs_app. simpl.
    assert (handoffs evs = []) as ->.
    { destruct (passthroughUnit c fp pkt); destruct Hsubs as [_ ->];
        [apply handoffs_publishes | done]. }
    by rewrite <- app_assoc. }
  split; [done|].
  by apply (rawPathStep_frame p pkt d rc1 rc' rc rcRaw).
Qed.

(** C10.  With passthrough enabled, a unit that the format processor
    returns for a packet is published to every registered subscription,
    whatever the state of the keyframe gate; and if the gate is closed and
    stays closed, the frame slot is not touched by the same packet. *)
Theorem publish_ignores_keyframe_gate
    (p : H264Pipeline) (fp : Fp) (pkt : Packet) (rc : rtspCamera)
    (c : Client) (d : RawDec) (u : Unit) :
  client rc = Some c →
  rawDecoder rc = Some d →
  passthroughUnit c fp pkt = Some u →
  ∃ fp' rc',
    onPacketRTP (HandleH264 p (Some fp)) pkt rc
      = Some (HandleH264 (pipelineAfter p pkt) (Some fp'), rc')
    ∧ subAndCBByID rc' = published u <$> subAndCBByID rc
    ∧ (∀ id sc, subAndCBByID rc !! id = Some sc →
         EvPublish id u (Publish (sub sc) u).2 ∈ trace rc')
    ∧ (iFrameReceived p = false →
       (∀ au, (rtpDecode264 (rtpDec p) pkt).2 = inr au → IDRPresent au = false) →
       iFrameReceived (pipelineAfter p pkt) = false
       ∧ latestFrame rc' = latestFrame rc).
Proof.
  intros Hc Hd Hu.
  destruct (publishToWebRTC_run fp pkt rc c Hc)
    as (fp' & rc1 & evs & Hpub & _ & Hd1 & Hf1 & _ & Ht1 & Hsubs).
  rewrite Hu in Hsubs. destruct Hsubs as [Hm ->].
  destruct (storeImage_run p pkt rc1 d) as (rc' & Hraw & _ & Hs & _ & Hstep);
    [by rewrite Hd1|].
  exists fp', rc'. split.
  { simpl. rewrite bind_run, Hpub, bind_run, Hraw. done. }
  split; [by rewrite Hs|]. split.
  - intros id sc Hid.
    assert (∃ evs', trace rc' = trace rc1 ++ evs') as [evs' ->].
    { unfold rawPathStep in Hstep.
      destruct (rtpDecode264 (rtpDec p) pkt).2 as [err|au];
        [|destruct (iFrameReceived p || IDRPresent au)];
        destruct Hstep as (_ & _ & ->); eauto. }
    rewrite Ht1. apply elem_of_app. left. apply elem_of_app. right.
    apply elem_of_cons. right.
    apply list_elem_of_fmap. exists (id, sc). split; [done|].
    by apply elem_of_map_to_list.
  - intros Hg Hnk. unfold rawPathStep, pipelineAfter in *.
    destruct (rtpDecode264 (rtpDec p) pkt) as [d' [err|au]]; simpl in *.
    + destruct Hstep as (-> & _). done.
    + rewrite Hg, (Hnk au eq_refl) in *. simpl in *.
      destruct Hstep as (-> & _). done.
Qed.

(** ** The handler of an H.264 session *)

Lemma onPacketRTP_H264_run p fp pkt rc d c :
  rawDecoder rc = Some d →
  client rc = Some c →
  ∃ fp' rc1 rc' evs,
    onPacketRTP (HandleH264 p fp) pkt rc
      = Some (HandleH264 (pipelineAfter p pkt) fp', rc')
    ∧ is_Some (client rc')
    ∧ latestFrame rc1 = latestFrame rc
    ∧ trace rc1 = trace rc ++ evs
    ∧ frameless evs
    ∧ rawPathStep p pkt d rc1 rc'.
Proof.
  intros Hd Hc. destruct fp as [fp|].
  - destruct (publishToWebRTC_run fp pkt rc c Hc)
      as (fp' & rc1 & evs & Hpub & Hc1 & Hd1 & Hf1 & _ & Ht1 & Hsubs).
    destruct (storeImage_run p pkt rc1 d) as (rc' & Hraw & Hc' & _ & _ & Hstep);
      [by rewrite Hd1|].
    exists (Some fp'), rc1, rc', (EvPassthrough pkt :: evs). split.
    { simpl. rewrite bind_run, Hpub, bind_run, Hraw. done. }
    rewrite Hc'. repeat split; try done.
    apply Forall_cons. split; [done|].
    destruct (passthroughUnit c fp pkt); destruct Hsubs as [_ ->]; [|constructor].
    apply Forall_fmap, Forall_forall. done.
  - destruct (storeImage_run p pkt rc d Hd) as (rc' & Hraw & Hc' & _ & _ & Hstep).
    exists None, rc, rc', []. split.
    { simpl. rewrite bind_run, Hraw. done. }
    rewrite Hc', Hc, app_nil_r. repeat split; eauto. constructor.
Qed.

Lemma rawPathStep_decoder p pkt d rc rc' :
  rawPathStep p pkt d rc rc' → is_Some (rawDecoder rc').
Proof.
  unfold rawPathStep.
  destruct (rtpDecode264 (rtpDec p) pkt).2 as [err|au];
    [|destruct (iFrameReceived p || IDRPresent au)];
    intros (_ & -> & _); eauto.
Qed.

Lemma feed_app h pkts1 pkts2 rc :
  feed h (pkts1 ++ pkts2) rc =
  match feed h pkts1 rc with
  | Some (h', rc') => feed h' pkts2 rc'
  | None => None
  end.
Proof.
  revert h rc. induction pkts1 as [|pkt l IH]; intros h rc; simpl; [done|].
  rewrite !bind_run. destruct (onPacketRTP h pkt rc) as [[h' rc']|]; [|done].
  apply IH.
Qed.

Lemma units264_app d pkts1 pkts2 :
  units264 d (pkts1 ++ pkts2)
  = units264 d pkts1 ++ units264 (rtpDecAfter d pkts1) pkts2.
Proof.
  revert d. induction pkts1 as [|pkt l IH]; intros d; simpl; [done|].
  unfold rtpDecAfter in *. simpl.
  destruct (rtpDecode264 d pkt) as [d' [err|au]]; simpl; by rewrite IH.
Qed.

(** ** The keyframe gate of the H.264 pipeline *)

(** While every returned access unit lacks an IDR, the gate stays closed
    and neither the decoder nor the frame slot is touched. *)
Lemma feed_waiting pkts : ∀ p fp rc d c,
  rawDecoder rc = Some d →
  client rc = Some c →
  iFrameReceived p = false →
  Forall (λ au, IDRPresent au = false) (units264 (rtpDec p) pkts) →
  ∃ p' fp' rc', feed (HandleH264 p fp) pkts rc = Some (HandleH264 p' fp', rc')
    ∧ iFrameReceived p' = false
    ∧ rtpDec p' = rtpDecAfter (rtpDec p) pkts
    ∧ (is_Some fp' ↔ is_Some fp)
    ∧ latestFrame rc' = latestFrame rc
    ∧ rawDecoder rc' = Some d
    ∧ is_Some (client rc').
Proof.
  induction pkts as [|pkt l IH]; intros p fp rc d c Hd Hc Hg Hall.
  - exists p, fp, rc. simpl. rewrite Hc. eauto 10.
  - destruct (onPacketRTP_H264_run p fp pkt rc d c Hd Hc)
      as (fp1 & rc1 & rc2 & evs & Hrun & [c2 Hc2] & Hf1 & _ & _ & Hstep).
    assert (is_Some fp1 ↔ is_Some fp) as Hfp.
    { destruct fp as [fp|]; simpl in Hrun; rewrite !bind_run in Hrun.
      - destruct (publishToWebRTC fp pkt rc) as [[? ?]|]; [|done].
        rewrite bind_run in Hrun.
        destruct (storeImage p pkt r) as [[? ?]|]; [|done].
        injection Hrun as _ <- _. done.
      - destruct (storeImage p pkt rc) as [[? ?]|]; [|done].
        injection Hrun as _ <- _. done. }
    simpl in Hall. unfold rawPathStep, pipelineAfter in *.
    destruct (rtpDecode264 (rtpDec p) pkt) as [d' [err|au]] eqn:E; simpl in *.
    + destruct Hstep as (Hf2 & Hd2 & _).
      destruct (IH (mkH264Pipeline d' (iFrameReceived p) (waitingForIframeLogged p))
                   fp1 rc2 d c2 Hd2 Hc2 Hg Hall)
        as (p' & fp' & rc' & Hfeed & Hg' & Hdec & Hfp' & Hf' & Hd' & Hc').
      exists p', fp', rc'. rewrite bind_run, Hrun. split; [exact Hfeed|].
      unfold rtpDecAfter in *. simpl. rewrite E. simpl.
      rewrite Hf', Hf2, Hf1, Hfp', Hfp. done.
    + apply Forall_cons in Hall as [Hk Hall]. rewrite Hg, Hk in *. simpl in *.
      destruct Hstep as (Hf2 & Hd2 & _).
      destruct (IH (mkH264Pipeline d' false true) fp1 rc2 d c2 Hd2 Hc2 eq_refl Hall)
        as (p' & fp' & rc' & Hfeed & Hg' & Hdec & Hfp' & Hf' & Hd' & Hc').
      exists p', fp', rc'. rewrite bind_run, Hrun. split; [exact Hfeed|].
      unfold rtpDecAfter in *. simpl. rewrite E. simpl.
      rewrite Hf', Hf2, Hf1, Hfp', Hfp. done.
Qed.

(** C6.  A freshly built H.264 pipeline, with the frame slot empty, is fed
    packets whose access units all lack an IDR, and then a packet that
    completes an access unit with an IDR.  The frame slot is empty after
    every prefix of the first packets; after the last packet the gate is
    open and the slot holds the newest image the raw decoder returned for
    the keyframe unit. *)
Theorem frame_slot_waits_for_keyframe
    (d0 : RtpDec264) (fp : option Fp) (rc : rtspCamera) (d : RawDec) (c : Client)
    (pkts : list Packet) (pkt : Packet) (au : AccessUnit) :
  rawDecoder rc = Some d →
  client rc = Some c →
  latestFrame rc = None →
  Forall (λ au, IDRPresent au = false) (units264 d0 pkts) →
  (rtpDecode264 (rtpDecAfter d0 pkts) pkt).2 = inr au →
  IDRPresent au = true →
  (∀ n, ∃ h rcn,
      feed (HandleH264 (mkH264Pipeline d0 false false) fp) (take n pkts) rc
        = Some (h, rcn)
      ∧ latestFrame rcn = None)
  ∧ ∃ p' fp' rc',
      feed (HandleH264 (mkH264Pipeline d0 false false) fp) (pkts ++ [pkt]) rc
        = Some (HandleH264 p' fp', rc')
      ∧ iFrameReceived p' = true
      ∧ latestFrame rc' = last (decodedImages d au).
Proof.
  intros Hd Hc Hempty Hall Hau Hkey. split.
  - intros n.
    assert (Forall (λ au, IDRPresent au = false) (units264 d0 (take n pkts))) as Hn.
    { rewrite <- (take_drop n pkts), units264_app in Hall.
      by apply Forall_app in Hall as [? _]. }
    destruct (feed_waiting (take n pkts) (mkH264Pipeline d0 false false) fp rc d c
                Hd Hc eq_refl Hn)
      as (p' & fp' & rcn & Hfeed & _ & _ & _ & Hf & _).
    exists (HandleH264 p' fp'), rcn. split; [done|]. by rewrite Hf.
  - destruct (feed_waiting pkts (mkH264Pipeline d0 false false) fp rc d c
                Hd Hc eq_refl Hall)
      as (p1 & fp1 & rc1 & Hfeed & Hg1 & Hdec & _ & Hf1 & Hd1 & [c1 Hc1]).
    destruct (onPacketRTP_H264_run p1 fp1 pkt rc1 d c1 Hd1 Hc1)
      as (fp2 & rcm & rc2 & evs & Hrun & _ & Hfm & _ & _ & Hstep).
    exists (pipelineAfter p1 pkt), fp2, rc2.
    rewrite feed_app, Hfeed. cbn [feed]. rewrite bind_run, Hrun. split; [done|].
    unfold rawPathStep, pipelineAfter in *. simpl in Hdec. rewrite Hdec in *.
    destruct (rtpDecode264 (rtpDecAfter d0 pkts) pkt) as [d' r]. simpl in *.
    subst r. rewrite Hg1, Hkey in *. simpl in *.
    destruct Hstep as (-> & _). split; [done|].
    rewrite Hfm, Hf1, Hempty. unfold newestOf.
    by destruct (last (decodedImages d au)).
Qed.

Lemma gated_app isKey seen (t1 t2 : list Event) :
  gated isKey seen (t1 ++ t2)
  = gated isKey seen t1 && gated isKey (seenKey isKey seen t1) t2.
Proof.
  unfold seenKey. revert seen.
  induction t1 as [|e t1 IH]; intros seen; simpl.
  - by rewrite orb_false_r.
  - destruct e; simpl; rewrite ?IH, ?orb_assoc, ?andb_assoc; done.
Qed.

Lemma seenKey_app isKey seen (t1 t2 : list Event) :
  seenKey isKey seen (t1 ++ t2) = seenKey isKey (seenKey isKey seen t1) t2.
Proof. unfold seenKey. by rewrite existsb_app, orb_assoc. Qed.

Lemma gated_frameless isKey seen (t : list Event) :
  frameless t → gated isKey seen t = true ∧ seenKey isKey seen t = seen.
Proof.
  unfold seenKey. induction 1 as [|e t He Ht [IH1 IH2]]; simpl.
  - by rewrite orb_false_r.
  - destruct e; try done.
Qed.

Lemma gated_stores isKey (imgs : list Image) :
  gated isKey true (EvStore <$> imgs) = true.
Proof. by induction imgs. Qed.

Lemma seenKey_mono isKey (t : list Event) : seenKey isKey true t = true.
Proof. done. Qed.

(** One packet on the raw-frame path keeps the order: a store only after
    a keyframe unit; and the gate variable is set only once one was seen. *)
Lemma rawPathStep_gated p pkt d rc rc' seen :
  rawPathStep p pkt d rc rc' →
  (iFrameReceived p = true → seen = true) →
  ∃ evs, trace rc' = trace rc ++ evs
    ∧ gated IDRPresent seen evs = true
    ∧ (iFrameReceived (pipelineAfter p pkt) = true →
       seenKey IDRPresent seen evs = true).
Proof.
  unfold rawPathStep, pipelineAfter, seenKey. intros Hstep Hinv.
  destruct (rtpDecode264 (rtpDec p) pkt) as [d' [err|au]]; simpl in *.
  - destruct Hstep as (_ & _ & ->). eexists. split; [done|]. simpl.
    split; [done|]. intros ->%Hinv. done.
  - destruct (iFrameReceived p) eqn:Hg; simpl in *.
    + rewrite (Hinv eq_refl). destruct Hstep as (_ & _ & ->).
      eexists. split; [done|]. simpl. by rewrite gated_stores.
    + destruct (IDRPresent au) eqn:Hk; destruct Hstep as (_ & _ & ->);
        (eexists; split; [done|]); simpl; rewrite Hk, ?orb_true_r; simpl.
      * by rewrite gated_stores.
      * done.
Qed.

(** The H.264 half of the keyframe-gate invariant: whatever packets a
    pipeline with a closed gate receives, with or without passthrough, no
    image is stored before an access unit with an IDR has been returned. *)
Lemma initH264_keyframe_gate pkts : ∀ p fp rc d c seen,
  rawDecoder rc = Some d →
  client rc = Some c →
  (iFrameReceived p = true → seen = true) →
  ∃ h' rc' evs, feed (HandleH264 p fp) pkts rc = Some (h', rc')
    ∧ trace rc' = trace rc ++ evs
    ∧ gated IDRPresent seen evs = true.
Proof.
  induction pkts as [|pkt l IH]; intros p fp rc d c seen Hd Hc Hinv.
  - exists (HandleH264 p fp), rc, []. by rewrite app_nil_r.
  - destruct (onPacketRTP_H264_run p fp pkt rc d c Hd Hc)
      as (fp1 & rc1 & rc2 & evs1 & Hrun & [c2 Hc2] & _ & Ht1 & Hfl & Hstep).
    destruct (rawPathStep_decoder _ _ _ _ _ Hstep) as [d2 Hd2].
    destruct (gated_frameless IDRPresent seen evs1 Hfl) as [Hg1 Hs1].
    destruct (rawPathStep_gated _ _ _ _ _ seen Hstep Hinv) as (evs2 & Ht2 & Hg2 & Hs2).
    destruct (IH (pipelineAfter p pkt) fp1 rc2 d2 c2
                 (seenKey IDRPresent seen evs2) Hd2 Hc2 Hs2)
      as (h' & rc' & evs3 & Hfeed & Ht3 & Hg3).
    exists h', rc', (evs1 ++ evs2 ++ evs3).
    cbn [feed]. rewrite bind_run, Hrun. split; [done|].
    rewrite Ht3, Ht2, Ht1, !gated_app, Hg1, Hs1, Hg2, Hg3, <- !app_assoc. done.
Qed.

(** ** The H.265 callback *)

(** C1 (H.265 half, where the code departs from the claim).  The H.265
    callback has no gate: for any notion [isKey] of keyframe unit, an
    access unit that is not one and for which the raw decoder returns an
    image is stored in the frame slot, though no keyframe unit has been
    seen since the callback was built. *)
Theorem initH265_stores_before_keyframe
    (isKey : AccessUnit → bool) (d : RtpDec265) (pkt : Packet)
    (rc : rtspCamera) (dec : RawDec) (au : AccessUnit) :
  rawDecoder rc = Some dec →
  (rtpDecode265 d pkt).2 = inr au →
  isKey au = false →
  decodedImages dec au ≠ [] →
  ∃ d' rc' evs, onPacketH265 d pkt rc = Some (d', rc')
    ∧ trace rc' = trace rc ++ evs
    ∧ gated isKey false evs = false
    ∧ latestFrame rc' = last (decodedImages dec au)
    ∧ is_Some (latestFrame rc').
Proof.
  intros Hd Hau Hk Himgs. unfold onPacketH265. run.
  destruct (rtpDecode265 d pkt) as [d' r]. simpl in Hau. subst r. run.
  match goal with |- context [decodeNALUs ?m ?a ?s] =>
    destruct (decodeNALUs_run m a s dec) as (rc' & -> & Hf & Ht & _); [done|]
  end.
  exists d', rc', (EvRaw pkt :: EvUnit au :: (EvStore <$> decodedImages dec au)).
  split; [done|]. simpl in Ht. rewrite Ht, <- !app_assoc. split; [done|].
  simpl. rewrite Hk.
  assert (newestOf (decodedImages dec au) (latestFrame rc)
          = last (decodedImages dec au) ∧ is_Some (last (decodedImages dec au)))
    as [Hn Hs].
  { unfold newestOf. destruct (decodedImages dec au) as [|i l] eqn:E; [done|].
    destruct (last (i :: l)) eqn:El; [eauto|].
    by apply last_None in El. }
  rewrite Hf. simpl. rewrite Hn. repeat split; [|done].
  destruct (decodedImages dec au); done.
Qed.

(** ** Connecting *)

Lemma quiet_refl rc : quiet rc rc.
Proof. by unfold quiet. Qed.

Lemma quiet_trans rc1 rc2 rc3 : quiet rc1 rc2 → quiet rc2 rc3 → quiet rc1 rc3.
Proof. unfold quiet. intros (-> & -> & -> & -> & ->) (-> & -> & -> & -> & ->). done. Qed.

Lemma clientCall_run {A} (answer : A) rc c :
  client rc = Some c → clientCall answer rc = Some (answer, rc).
Proof. intros Hc. unfold clientCall. run. by rewrite Hc. Qed.

Lemma closeConnection_run rc :
  ∃ rc', closeConnection rc = Some ((), rc')
    ∧ client rc' = None
    ∧ rawDecoder rc' = None
    ∧ latestFrame rc' = latestFrame rc
    ∧ rtpH264Passthrough rc' = rtpH264Passthrough rc
    ∧ subAndCBByID rc' = subAndCBByID rc
    ∧ logger rc' = logger rc.
Proof.
  unfold closeConnection. run.
  destruct (client rc) as [c|] eqn:Hc, (rawDecoder rc) as [d|] eqn:Hd; run;
    rewrite ?Hc, ?Hd; run; eexists; (split; [reflexivity|]); simpl; eauto 10.
Qed.

Lemma logMedias_run ms : ∀ rc,
  ∃ rc', logMedias ms rc = Some ((), rc')
    ∧ rawDecoder rc' = rawDecoder rc ∧ quiet rc rc'.
Proof.
  induction ms as [|x ms IH]; intros rc; simpl.
  - exists rc. eauto using quiet_refl.
  - run. match goal with |- context [logMedias ms ?s] =>
           destruct (IH s) as (rc' & -> & Hd & Hq) end.
    exists rc'. split; [done|]. split; [done|]. exact Hq.
Qed.

Lemma feedParameterSet_run ps msg rc d :
  rawDecoder rc = Some d →
  ∃ rc' d', feedParameterSet ps msg rc = Some ((), rc')
    ∧ rawDecoder rc' = Some d' ∧ quiet rc rc'.
Proof.
  intros Hd. unfold feedParameterSet, decode. destruct ps as [nalu|]; run.
  - rewrite Hd. destruct (rawDecode d nalu) as [d' r]. run.
    eexists _, d'. split; [reflexivity|]. split; [done|]. by unfold quiet.
  - eexists _, d. split; [reflexivity|]. split; [done|]. by unfold quiet.
Qed.

Lemma initH264_run a session rc c :
  client rc = Some c →
  ∃ r rc', initH264 a session rc = Some (r, rc')
    ∧ initOutcome c rc r rc'
    ∧ (findH264 session = None →
       r = Some ErrH264TrackNotFound ∧ rawDecoder rc' = rawDecoder rc).
Proof.
  intros Hc. unfold initH264, initOutcome.
  destruct (findH264 session) as [f|].
  2: { run. match goal with |- context [logMedias ?m ?s] =>
         destruct (logMedias_run m s) as (rc' & -> & Hd & Hq) end.
       destruct Hq as (Hc' & Hf' & Hp' & Hs' & Ht'). simpl in *.
       eexists _, rc'. split; [reflexivity|].
       rewrite Hc', Hc, Hd, Hf', Hp', Hs', Ht'. eauto 10. }
  destruct (CreateDecoder264 a f) as [err|dec]; run.
  { eexists _, _. split; [reflexivity|]. simpl. split; [eauto 10|done]. }
  destruct (newH264Decoder a) as [err|d]; run.
  { eexists _, _. split; [reflexivity|]. simpl. split; [eauto 10|done]. }
  destruct (feedParameterSet_run (SPS264 f) "no SPS found in H264 format"
              (set_rawDecoder (Some d) rc) d eq_refl) as (rc1 & d1 & -> & Hd1 & Hq1).
  run.
  destruct (feedParameterSet_run (PPS264 f) "no PPS found in H264 format" rc1 d1 Hd1)
    as (rc2 & d2 & -> & Hd2 & Hq2).
  run.
  destruct (quiet_trans _ _ _ Hq1 Hq2) as (Hc2 & Hf2 & Hp2 & Hs2 & Ht2).
  simpl in *. rewrite Hp2.
  destruct (rtpH264Passthrough rc) eqn:Hpass.
  - destruct (formatprocessorNew a 1472 f true) as [err|fp]; run.
    { eexists _, rc2. split; [reflexivity|]. rewrite Hc2, Hc. split; [eauto 10|done]. }
    rewrite ?bind_run, (clientCall_run _ _ c) by congruence.
    destruct (Setup a) as [err|]; run.
    { eexists _, rc2. split; [reflexivity|]. rewrite Hc2, Hc. split; [eauto 10|done]. }
    unfold OnPacketRTP. run. rewrite Hc2, Hc. run.
    eexists _, _. split; [reflexivity|]. simpl. split; [|done].
    do 4 (split; [done|]). eexists. split; [done|]. simpl. rewrite Hd2.
    split; [|eauto]. do 2 (split; [done|]). split; eauto.
  - rewrite ?bind_run, (clientCall_run _ _ c) by congruence.
    destruct (Setup a) as [err|]; run.
    { eexists _, rc2. split; [reflexivity|]. rewrite Hc2, Hc. split; [eauto 10|done]. }
    unfold OnPacketRTP. run. rewrite Hc2, Hc. run.
    eexists _, _. split; [reflexivity|]. simpl. split; [|done].
    do 4 (split; [done|]). eexists. split; [done|]. simpl. rewrite Hd2.
    split; [|eauto]. do 2 (split; [done|]). split; [by intros [? ?]|done].
Qed.

Lemma initH265_run a session rc c :
  client rc = Some c →
  ∃ r rc', initH265 a session rc = Some (r, rc')
    ∧ initOutcome c rc r rc'
    ∧ (rtpH264Passthrough rc = true →
       r = Some ErrH265WithPassthrough ∧ rc' = rc).
Proof.
  intros Hc. unfold initH265, initOutcome. run.
  destruct (rtpH264Passthrough rc) eqn:Hpass; run.
  { eexists _, rc. split; [reflexivity|]. rewrite Hc. eauto 10. }
  destruct (findH265 session) as [f|].
  2: { run. match goal with |- context [logMedias ?m ?s] =>
         destruct (logMedias_run m s) as (rc' & -> & Hd & Hq) end.
       destruct Hq as (Hc' & Hf' & Hp' & Hs' & Ht'). simpl in *.
       eexists _, rc'. split; [reflexivity|].
       rewrite Hc', Hc, Hf', Hp', Hs', Ht'. split; [eauto 10|done]. }
  rewrite ?bind_run, (clientCall_run _ _ c) by done.
  destruct (Setup a) as [err|]; run.
  { eexists _, _. split; [reflexivity|]. simpl. split; [eauto 10|done]. }
  destruct (CreateDecoder265 a f) as [err|dec]; run.
  { eexists _, _. split; [reflexivity|]. simpl. split; [eauto 10|done]. }
  destruct (newH265Decoder a) as [err|d]; run.
  { eexists _, _. split; [reflexivity|]. simpl. split; [eauto 10|done]. }
  destruct (feedParameterSet_run (VPS265 f) "no VPS found in H265 format"
              (set_rawDecoder (Some d) rc) d eq_refl) as (rc1 & d1 & -> & Hd1 & Hq1).
  run.
  destruct (feedParameterSet_run (SPS265 f) "no SPS found in H265 format" rc1 d1 Hd1)
    as (rc2 & d2 & -> & Hd2 & Hq2).
  run.
  destruct (feedParameterSet_run (PPS265 f) "no PPS found in H265 format" rc2 d2 Hd2)
    as (rc3 & d3 & -> & Hd3 & Hq3).
  run.
  destruct (quiet_trans _ _ _ (quiet_trans _ _ _ Hq1 Hq2) Hq3)
    as (Hc3 & Hf3 & Hp3 & Hs3 & Ht3).
  simpl in *. unfold OnPacketRTP. run. rewrite Hc3, Hc. run.
  eexists _, _. split; [reflexivity|]. simpl. split; [|done].
  rewrite Hp3, Hpass.
  do 4 (split; [done|]). eexists. split; [done|]. simpl. rewrite Hd3. eauto.
Qed.

(** The part of [reconnectClient] under the [defer] does not panic;
    [clientSuccessful] is set exactly when no error is returned, and then
    a fresh handler and a decoder are in place. *)
Lemma connect_run a rc c :
  client rc = Some c →
  ∃ err rc', connect a rc = Some ((bool_decide (err = None), err), rc')
    ∧ latestFrame rc' = latestFrame rc
    ∧ rtpH264Passthrough rc' = rtpH264Passthrough rc
    ∧ subAndCBByID rc' = subAndCBByID rc
    ∧ trace rc' = trace rc
    ∧ is_Some (client rc')
    ∧ (err = None →
       ∃ h, client rc' = Some (mkClient (timeDec c) (Some h))
            ∧ freshHandler (rtpH264Passthrough rc) h
            ∧ is_Some (rawDecoder rc')).
Proof.
  intros Hc. unfold connect. rewrite ?bind_run, (clientCall_run _ _ c) by done.
  destruct (Describe a) as [err|session]; run.
  { exists (Some err), rc. rewrite Hc. split; [done|]. fin. }
  destruct (getStreamInfo a) as [err|[| |tag]]; run.
  - exists (Some err), rc. rewrite Hc. split; [done|]. fin.
  - match goal with |- context [initH264 a session ?s] =>
      destruct (initH264_run a session s c Hc)
        as (r & rc1 & -> & (Hf & Hp & Hs & Ht & Hr) & _) end.
    simpl in *. destruct r as [err|]; run.
    { exists (Some err), rc1. rewrite Hr. split; [done|]. fin. }
    destruct Hr as (h & Hc1 & Hh & Hd1).
    rewrite (clientCall_run _ _ _ Hc1).
    destruct (Play a) as [err|]; run.
    + exists (Some err), rc1. rewrite Hc1. split; [done|]. fin.
    + exists None, rc1. rewrite Hc1. split; [done|]. fin.
  - match goal with |- context [initH265 a session ?s] =>
      destruct (initH265_run a session s c Hc)
        as (r & rc1 & -> & (Hf & Hp & Hs & Ht & Hr) & _) end.
    simpl in *. destruct r as [err|]; run.
    { exists (Some err), rc1. rewrite Hr. split; [done|]. fin. }
    destruct Hr as (h & Hc1 & Hh & Hd1).
    rewrite (clientCall_run _ _ _ Hc1).
    destruct (Play a) as [err|]; run.
    + exists (Some err), rc1. rewrite Hc1. split; [done|]. fin.
    + exists None, rc1. rewrite Hc1. split; [done|]. fin.
  - exists (Some (ErrCodecNotSupported tag)), rc. rewrite Hc. split; [done|]. fin.
Qed.

(** With passthrough enabled and no H.264 track in the description, no
    branch of [connect] succeeds, and none creates a decoder. *)
Lemma connect_passthrough_without_h264 a rc c :
  client rc = Some c →
  rtpH264Passthrough rc = true →
  (∀ session, Describe a = inr session → findH264 session = None) →
  ∃ err rc', connect a rc = Some ((false, Some err), rc')
    ∧ rawDecoder rc' = rawDecoder rc
    ∧ trace rc' = trace rc
    ∧ is_Some (client rc')
    ∧ ((∃ session, Describe a = inr session) → getStreamInfo a = inr H265 →
       err = ErrH265WithPassthrough).
Proof.
  intros Hc Hpass Hno. unfold connect.
  rewrite ?bind_run, (clientCall_run _ _ c) by done.
  destruct (Describe a) as [err|session] eqn:HD; run.
  { exists err, rc. rewrite Hc. split; [done|]. do 3 (split; [eauto|]).
    by intros [? ?]. }
  specialize (Hno session eq_refl).
  destruct (getStreamInfo a) as [err|[| |tag]]; run.
  - exists err, rc. rewrite Hc. split; [done|]. fin.
  - match goal with |- context [initH264 a session ?s] =>
      destruct (initH264_run a session s c Hc)
        as (r & rc1 & -> & (Hf & Hp & Hs & Ht & Hr) & Hnone) end.
    destruct (Hnone Hno) as [-> Hd]. simpl in *. run.
    exists ErrH264TrackNotFound, rc1. rewrite Hr. split; [done|]. fin.
  - match goal with |- context [initH265 a session ?s] =>
      destruct (initH265_run a session s c Hc)
        as (r & rc1 & -> & _ & Hpt) end.
    destruct (Hpt Hpass) as [-> ->]. run.
    eexists _, _. split; [reflexivity|]. simpl. rewrite Hc. fin.
  - eexists _, rc. split; [reflexivity|]. rewrite Hc. fin.
Qed.

(** [reconnectClient] does not panic. *)
Lemma reconnectClient_total a rc : is_Some (reconnectClient a rc).
Proof.
  unfold reconnectClient. rewrite bind_run.
  destruct (closeConnection_run rc) as (rc0 & -> & _). run.
  destruct (Start a) as [e|]; run; [eauto|].
  match goal with |- context [connect a ?s] =>
    destruct (connect_run a s _ eq_refl) as (err & rc1 & -> & _) end.
  destruct err as [e|]; simpl; run; [|eauto].
  destruct (closeConnection_run rc1) as (rc2 & -> & _). eauto.
Qed.

(** After a successful [Start], every error return leaves the camera
    without a client and without a decoder. *)
Lemma reconnectClient_failure_after_start a rc err rc' :
  Start a = None →
  reconnectClient a rc = Some (Some err, rc') →
  client rc' = None ∧ rawDecoder rc' = None.
Proof.
  intros HS. unfold reconnectClient. rewrite bind_run.
  destruct (closeConnection_run rc) as (rc0 & -> & _). run.
  rewrite HS. run.
  match goal with |- context [connect a ?s] =>
    destruct (connect_run a s _ eq_refl) as (e & rc1 & -> & _) end.
  destruct e as [e|]; simpl; run; [|done].
  destruct (closeConnection_run rc1) as (rc2 & -> & Hc & Hd & _).
  by intros [= _ <-].
Qed.

(** A successful [reconnectClient] leaves a client with a fresh handler
    (the gate of an H.264 pipeline closed) and a decoder. *)
Lemma reconnectClient_success a rc rc' :
  reconnectClient a rc = Some (None, rc') →
  ∃ c h, client rc' = Some c ∧ handler c = Some h
         ∧ freshHandler (rtpH264Passthrough rc) h
         ∧ is_Some (rawDecoder rc').
Proof.
  unfold reconnectClient. rewrite bind_run.
  destruct (closeConnection_run rc) as (rc0 & -> & _ & _ & _ & Hp & _). run.
  destruct (Start a) as [e|]; run; [done|].
  match goal with |- context [connect a ?s] =>
    destruct (connect_run a s _ eq_refl) as (e & rc1 & -> & _ & _ & _ & _ & _ & Hok) end.
  destruct e as [e|]; simpl; run.
  - destruct (closeConnection_run rc1) as (rc2 & -> & _). done.
  - intros [= <-]. destruct (Hok eq_refl) as (h & Hc1 & Hh & Hd1).
    simpl in Hh. rewrite Hp in Hh. eauto 10.
Qed.

(** The same for the packets that the client delivers to a registered
    H.264 handler. *)
Lemma receiveAll_keyframe_gate pkts : ∀ rc c p fp d seen,
  client rc = Some c →
  handler c = Some (HandleH264 p fp) →
  rawDecoder rc = Some d →
  (iFrameReceived p = true → seen = true) →
  ∃ rc' evs, receiveAll pkts rc = Some ((), rc')
    ∧ trace rc' = trace rc ++ evs
    ∧ gated IDRPresent seen evs = true.
Proof.
  induction pkts as [|pkt l IH]; intros rc c p fp d seen Hc Hh Hd Hinv.
  - exists rc, []. by rewrite app_nil_r.
  - destruct (onPacketRTP_H264_run p fp pkt rc d c Hd Hc)
      as (fp1 & rc1 & rc2 & evs1 & Hrun & [c2 Hc2] & _ & Ht1 & Hfl & Hstep).
    destruct (rawPathStep_decoder _ _ _ _ _ Hstep) as [d2 Hd2].
    destruct (gated_frameless IDRPresent seen evs1 Hfl) as [Hg1 Hs1].
    destruct (rawPathStep_gated _ _ _ _ _ seen Hstep Hinv) as (evs2 & Ht2 & Hg2 & Hs2).
    destruct (IH (set_client (Some (mkClient (timeDec c2)
                                      (Some (HandleH264 (pipelineAfter p pkt) fp1)))) rc2)
                 (mkClient (timeDec c2) (Some (HandleH264 (pipelineAfter p pkt) fp1)))
                 (pipelineAfter p pkt) fp1 d2 (seenKey IDRPresent seen evs2)
                 eq_refl eq_refl Hd2 Hs2)
      as (rc' & evs3 & Hall & Ht3 & Hg3).
    exists rc', (evs1 ++ evs2 ++ evs3).
    cbn [receiveAll]. unfold receive. rewrite !bind_run. unfold gets at 1.
    rewrite Hc. simpl. rewrite Hh, bind_run, Hrun. unfold modify at 1. rewrite Hc2.
    split; [exact Hall|].
    simpl in Ht3.
    rewrite Ht3, Ht2, Ht1, !gated_app, Hg1, Hs1, Hg2, Hg3, <- !app_assoc. done.
Qed.

(** X30.  From the (re)creation of the pipeline on: after a successful
    [reconnectClient] that installed an H.264 handler, no image is stored
    before an access unit with an IDR has been returned, whatever packets
    arrive. *)
Lemma reconnected_keyframe_gate a rc rc1 c p fp pkts :
  reconnectClient a rc = Some (None, rc1) →
  client rc1 = Some c →
  handler c = Some (HandleH264 p fp) →
  ∃ rc2 evs, receiveAll pkts rc1 = Some ((), rc2)
    ∧ trace rc2 = trace rc1 ++ evs
    ∧ gated IDRPresent false evs = true.
Proof.
  intros Hre Hc Hh.
  destruct (reconnectClient_success a rc rc1 Hre) as (c' & h & Hc' & Hh' & Hfresh & [d Hd]).
  rewrite Hc in Hc'. injection Hc' as <-. rewrite Hh in Hh'. injection Hh' as <-.
  destruct Hfresh as (Hg & _).
  apply (receiveAll_keyframe_gate pkts rc1 c p fp d false Hc Hh Hd).
  by rewrite Hg.
Qed.

(** C3.  Passthrough is enabled and the described session has no H.264
    track (the source advertises H.265 only).  Then [reconnectClient]
    returns an error whatever the other calls answer, and leaves neither
    a decoder nor a registered handler, hence no format processor.  When
    the session is opened and the stream is reported as H.265, the error
    is the one of [initH265], the client has been closed, and no decoder
    was created in between (the trace shows no decoder to close). *)
Theorem reconnectClient_h265_with_passthrough (a : Answers) (rc : rtspCamera) :
  rtpH264Passthrough rc = true →
  (∀ session, Describe a = inr session → findH264 session = None) →
  ∃ err rc0 rc',
    closeConnection rc = Some ((), rc0)
    ∧ reconnectClient a rc = Some (Some err, rc')
    ∧ rawDecoder rc' = None
    ∧ client rc' ≫= handler = None
    ∧ (Start a = None → (∃ session, Describe a = inr session) →
       getStreamInfo a = inr H265 →
       err = ErrH265WithPassthrough
       ∧ client rc' = None
       ∧ trace rc' = trace rc0 ++ [EvClientClose]).
Proof.
  intros Hpass Hno. unfold reconnectClient. rewrite bind_run.
  destruct (closeConnection_run rc) as (rc0 & Hclose & Hc0 & Hd0 & _ & Hp0 & _).
  rewrite Hclose. run.
  destruct (Start a) as [e|]; run.
  { exists e, rc0. eexists. split; [done|]. split; [reflexivity|]. simpl. fin. }
  match goal with |- context [connect a ?s] =>
    destruct (connect_passthrough_without_h264 a s _ eq_refl)
      as (err & rc1 & -> & Hd1 & Ht1 & [c1 Hc1] & Herr) end;
    [simpl; congruence | done |].
  simpl in *. run.
  exists err, rc0. unfold closeConnection. run. rewrite Hc1. run.
  rewrite Hd1, Hd0. run.
  eexists. split; [done|]. split; [reflexivity|]. simpl.
  rewrite Hd1, Hd0, Ht1. fin.
Qed.

(** C4 (the sub-step where the code departs from the claim).  When
    [Start] fails, [reconnectClient] returns its error before the
    deferred clean-up is installed: the decoder is gone, but the camera
    keeps the client that was just created and never started. *)
Theorem reconnectClient_start_failure_keeps_client
    (a : Answers) (rc : rtspCamera) (err : Error) :
  Start a = Some err →
  ∃ rc', reconnectClient a rc = Some (Some err, rc')
    ∧ client rc' = Some (mkClient timeDec0 None)
    ∧ rawDecoder rc' = None.
Proof.
  intros HS. unfold reconnectClient. rewrite bind_run.
  destruct (closeConnection_run rc) as (rc0 & -> & _ & Hd0 & _). run.
  rewrite HS. run. eexists. split; [reflexivity|]. done.
Qed.

(** ** The subscriber's function *)

(** An accepted unit: the timestamp is recorded, the encoder has run on
    the access unit, and earlier callback invocations are kept. *)
Lemma encodeAndCall_accepts s tunit au r s' :
  encodeAndCall s tunit au = Some (r, s') →
  firstReceived s' = true
  ∧ lastPTS s' = PTS tunit
  ∧ encoder s' = (Encode (encoder s) au).1
  ∧ calls s `prefix_of` calls s'.
Proof.
  unfold encodeAndCall. destruct (Encode (encoder s) au) as [enc' [err|pkts]]; simpl.
  - intros [= <- <-]. done.
  - case_bool_decide.
    + intros [= <- <-]. done.
    + destruct (RTPPackets tunit); [done|]. intros [= <- <-]. simpl.
      repeat split. by apply prefix_app_r.
Qed.

(** C5 (as amended).  Once a unit has been accepted, an H.264 unit that
    carries an access unit and whose presentation timestamp is lower than
    the last accepted one is rejected with the B-frames error and changes
    nothing: no packets, no call of the callback, the last accepted
    timestamp as before.  A later unit with an access unit and a timestamp
    at or above the last accepted one goes to the encoder as if the
    rejected unit had never arrived, and becomes the last accepted one. *)
Theorem unitSubscriberFunc_rejects_decreasing_pts
    (s : Subscriber) (tunit next : H264Unit) (au auNext : AccessUnit) :
  firstReceived s = true →
  AU tunit = Some au →
  PTS tunit < lastPTS s →
  AU next = Some auNext →
  lastPTS s ≤ PTS next →
  unitSubscriberFunc s (UnitH264 tunit) = Some (Some ErrBFrames, s)
  ∧ runUnits s [UnitH264 tunit; UnitH264 next]
    = match encodeAndCall s next auNext with
      | Some (r, s') => Some ([Some ErrBFrames; r], s')
      | None => None
      end
  ∧ ∀ r s', encodeAndCall s next auNext = Some (r, s') →
      lastPTS s' = PTS next
      ∧ encoder s' = (Encode (encoder s) auNext).1.
Proof.
  intros Hfirst Hau Hlow HauN Hhigh.
  assert (unitSubscriberFunc s (UnitH264 tunit) = Some (Some ErrBFrames, s)) as Hrej.
  { unfold unitSubscriberFunc. rewrite Hau, Hfirst. simpl.
    by rewrite bool_decide_eq_true_2. }
  split; [done|]. split.
  - cbn [runUnits]. rewrite Hrej. unfold unitSubscriberFunc.
    rewrite HauN, Hfirst. simpl. rewrite bool_decide_eq_false_2 by lia.
    by destruct (encodeAndCall s next auNext) as [[r s']|].
  - intros r s' H. apply encodeAndCall_accepts in H as (_ & ? & ? & _). done.
Qed.

(** C7.  An accepted unit whose access unit the encoder turns into the
    packets [pkts]: with no packet the callback is not called; otherwise
    it is called once, with as many packets, each being the encoder's
    packet with the timestamp of the unit's first transport packet added
    to its [Timestamp] field (an addition on uint32). *)
Theorem unitSubscriberFunc_timestamps
    (s : Subscriber) (tunit : H264Unit) (au : AccessUnit)
    (first : Packet) (rest pkts : list Packet) :
  AU tunit = Some au →
  RTPPackets tunit = first :: rest →
  (firstReceived s = true → lastPTS s ≤ PTS tunit) →
  (Encode (encoder s) au).2 = inr pkts →
  ∃ r s', unitSubscriberFunc s (UnitH264 tunit) = Some (r, s')
    ∧ match pkts with
      | [] => calls s' = calls s ∧ r = None
      | _ :: _ =>
          ∃ delivered,
            calls s' = calls s ++ [delivered]
            ∧ r = packetsCB s delivered
            ∧ length delivered = length pkts
            ∧ ∀ i out pkt, delivered !! i = Some out → pkts !! i = Some pkt →
                Timestamp out = add32 (Timestamp pkt) (Timestamp first)
                ∧ Timestamp out = (Timestamp pkt + Timestamp first) mod 2 ^ 32
                ∧ SequenceNumber out = SequenceNumber pkt
                ∧ Marker out = Marker pkt
                ∧ Payload out = Payload pkt
      end.
Proof.
  intros Hau Hfirst Hord Henc.
  assert (unitSubscriberFunc s (UnitH264 tunit) = encodeAndCall s tunit au) as ->.
  { unfold unitSubscriberFunc. rewrite Hau.
    destruct (firstReceived s); simpl; [|done].
    rewrite bool_decide_eq_false_2; [done|]. specialize (Hord eq_refl). lia. }
  unfold encodeAndCall. destruct (Encode (encoder s) au) as [enc' r].
  simpl in Henc. subst r. destruct pkts as [|pkt0 pkts].
  - eexists _, _. split; [reflexivity|]. done.
  - rewrite bool_decide_eq_false_2 by done. rewrite Hfirst.
    eexists _, _. split; [reflexivity|]. simpl.
    eexists. split; [reflexivity|]. split; [done|].
    split; [simpl; by rewrite length_map|].
    intros i out pkt Hout Hpkt.
    change (addTimestamp (Timestamp first) pkt0 :: map (addTimestamp (Timestamp first)) pkts)
      with (addTimestamp (Timestamp first) <$> (pkt0 :: pkts)) in Hout.
    rewrite list_lookup_fmap, Hpkt in Hout. injection Hout as <-. done.
Qed.

Lemma runUnits_app s us1 us2 :
  runUnits s (us1 ++ us2) =
  match runUnits s us1 with
  | None => None
  | Some (rs1, s1) =>
      match runUnits s1 us2 with
      | None => None
      | Some (rs2, s2) => Some (rs1 ++ rs2, s2)
      end
  end.
Proof.
  revert s. induction us1 as [|u us1 IH]; intros s; simpl.
  - by destruct (runUnits s us2) as [[rs2 s2]|].
  - destruct (unitSubscriberFunc s u) as [[r s']|]; [|done].
    rewrite IH. destruct (runUnits s' us1) as [[rs1 s1]|]; [|done].
    by destruct (runUnits s1 us2) as [[rs2 s2]|].
Qed.

Lemma runUnits_length s us rs s' :
  runUnits s us = Some (rs, s') → length rs = length us.
Proof.
  revert s rs s'. induction us as [|u us IH]; intros s rs s'; simpl.
  - by intros [= <- _].
  - destruct (unitSubscriberFunc s u) as [[r s1]|]; [|done].
    destruct (runUnits s1 us) as [[rs1 s2]|] eqn:E; [|done].
    intros [= <- _]. simpl. by rewrite (IH _ _ _ E).
Qed.

(** C8.  A unit without an access unit (a nil [AU]) is a no-op for every
    closure and every presentation timestamp: it returns no error and
    leaves the closure (last timestamp, encoder, callback invocations) as
    it is; put anywhere into a sequence of units, it changes neither what
    the other units return nor the closure at the end.  A unit whose
    access unit is not nil, be it empty or made of parameter sets only,
    is not exempt from the ordering check: below the last accepted
    timestamp it is rejected with the ordering error; otherwise, when the
    encoder gives no packet for it, it returns no error and the callback
    is not invoked, but its timestamp becomes the last accepted one. *)
Theorem unitSubscriberFunc_no_payload
    (s : Subscriber) (pts : Z) (pkts : list Packet) (before after : list Unit) :
  unitSubscriberFunc s (UnitH264 (mkH264Unit None pts pkts)) = Some (None, s)
  ∧ match runUnits s (before ++ after) with
    | Some (rs, s') =>
        ∃ rs1 rs2, rs = rs1 ++ rs2
          ∧ length rs1 = length before
          ∧ runUnits s (before ++ UnitH264 (mkH264Unit None pts pkts) :: after)
            = Some (rs1 ++ None :: rs2, s')
    | None =>
        runUnits s (before ++ UnitH264 (mkH264Unit None pts pkts) :: after) = None
    end
  ∧ (∀ au, firstReceived s = true → pts < lastPTS s →
       unitSubscriberFunc s (UnitH264 (mkH264Unit (Some au) pts pkts))
       = Some (Some ErrBFrames, s))
  ∧ (∀ au, (firstReceived s = true → lastPTS s ≤ pts) →
       (Encode (encoder s) au).2 = inr [] →
       ∃ s', unitSubscriberFunc s (UnitH264 (mkH264Unit (Some au) pts pkts))
             = Some (None, s')
         ∧ calls s' = calls s
         ∧ firstReceived s' = true
         ∧ lastPTS s' = pts).
Proof.
  split; [done|]. split; [|split].
  - rewrite !runUnits_app.
    destruct (runUnits s before) as [[rs1 s1]|] eqn:E1; [|done].
    cbn [runUnits]. change (unitSubscriberFunc s1 (UnitH264 (mkH264Unit None pts pkts)))
      with (Some (@None Error, s1)).
    cbv iota beta.
    destruct (runUnits s1 after) as [[rs2 s2]|]; [|done].
    exists rs1, rs2. split; [done|]. split; [|done].
    by apply runUnits_length in E1.
  - intros au Hfirst Hlow. unfold unitSubscriberFunc. simpl.
    rewrite Hfirst. simpl. by rewrite bool_decide_eq_true_2.
  - intros au Hord Henc.
    assert (unitSubscriberFunc s (UnitH264 (mkH264Unit (Some au) pts pkts))
            = encodeAndCall s (mkH264Unit (Some au) pts pkts) au) as ->.
    { unfold unitSubscriberFunc. simpl.
      destruct (firstReceived s) eqn:Hfirst; simpl; [|done].
      rewrite bool_decide_eq_false_2; [done|]. specialize (Hord eq_refl). lia. }
    unfold encodeAndCall. destruct (Encode (encoder s) au) as [enc' r]. simpl in Henc.
    subst r. simpl. eexists. split; [reflexivity|]. done.
Qed.

(** ** The registry *)

(** C9.  [Unsubscribe] of an id that is not registered returns the
    not-found error and leaves the camera, hence the registry, as it is.
    After a successful [Unsubscribe] the id is gone, so a second call with
    the same id fails that way. *)
Theorem Unsubscribe_unknown_id (rc : rtspCamera) (id : SubscriptionID) :
  (subAndCBByID rc !! id = None →
   Unsubscribe id rc = Some (Some ErrIdNotFound, rc))
  ∧ (∀ sc, subAndCBByID rc !! id = Some sc →
     ∃ rc1, Unsubscribe id rc = Some (None, rc1)
       ∧ subAndCBByID rc1 = delete id (subAndCBByID rc)
       ∧ Unsubscribe id rc1 = Some (Some ErrIdNotFound, rc1)).
Proof.
  split.
  - intros H. unfold Unsubscribe. run. by rewrite H.
  - intros sc H. unfold Unsubscribe. run. rewrite H. run.
    eexists. split; [reflexivity|]. simpl. split; [done|].
    run. by rewrite lookup_delete_eq.
Qed.

(** * Further properties of the code *)

(** ** Closing and reconnecting *)

Lemma closeConnection_closing rc :
  ∃ rc', closeConnection rc = Some ((), rc')
    ∧ client rc' = None
    ∧ rawDecoder rc' = None
    ∧ latestFrame rc' = latestFrame rc
    ∧ rtpH264Passthrough rc' = rtpH264Passthrough rc
    ∧ subAndCBByID rc' = subAndCBByID rc
    ∧ logger rc' = logger rc
    ∧ trace rc' = trace rc ++ closing rc
    ∧ (client rc = None → rawDecoder rc = None → rc' = rc).
Proof.
  unfold closeConnection, closing. run.
  destruct (client rc) as [c|] eqn:Hc, (rawDecoder rc) as [d|] eqn:Hd; run;
    rewrite ?Hc, ?Hd; run; eexists; (split; [reflexivity|]); simpl;
    rewrite <- ?app_assoc, ?app_nil_r; split_and?; done.
Qed.

(** X1.  [closeConnection] leaves the camera without client and without
    decoder; a second call changes nothing, and so does a first call on a
    camera that holds neither. *)
Theorem closeConnection_idempotent (rc : rtspCamera) :
  ∃ rc1, closeConnection rc = Some ((), rc1)
    ∧ client rc1 = None
    ∧ rawDecoder rc1 = None
    ∧ closeConnection rc1 = Some ((), rc1)
    ∧ (client rc = None → rawDecoder rc = None → rc1 = rc).
Proof.
  destruct (closeConnection_closing rc) as (rc1 & Hrun & Hc & Hd & _ & _ & _ & _ & _ & Hid).
  exists rc1. split_and?; try done.
  destruct (closeConnection_closing rc1) as (rc2 & Hrun2 & _ & _ & _ & _ & _ & _ & _ & Hid2).
  by rewrite Hrun2, (Hid2 Hc Hd).
Qed.

(** Whatever [connect] returns, the frame slot, the registry and the
    trace are as before, and the client is still there to be closed. *)
Lemma reconnectClient_shape a rc :
  ∃ r rc' evs, reconnectClient a rc = Some (r, rc')
    ∧ latestFrame rc' = latestFrame rc
    ∧ rtpH264Passthrough rc' = rtpH264Passthrough rc
    ∧ subAndCBByID rc' = subAndCBByID rc
    ∧ trace rc' = trace rc ++ closing rc ++ evs
    ∧ match r, Start a with
      | None, _ => evs = []
      | Some _, Some _ => evs = []
      | Some _, None => evs = [EvClientClose] ∨ evs = [EvClientClose; EvDecoderClose]
      end.
Proof.
  unfold reconnectClient. rewrite bind_run.
  destruct (closeConnection_closing rc)
    as (rc0 & -> & Hc0 & Hd0 & Hf0 & Hp0 & Hs0 & _ & Ht0 & _). run.
  destruct (Start a) as [e|]; run.
  { eexists _, _, []. split; [reflexivity|]. simpl. rewrite app_nil_r. done. }
  match goal with |- context [connect a ?s] =>
    destruct (connect_run a s _ eq_refl)
      as (err & rc1 & -> & Hf1 & Hp1 & Hs1 & Ht1 & [c1 Hc1] & _) end.
  simpl in *. destruct err as [e|]; simpl; run.
  - destruct (closeConnection_closing rc1)
      as (rc2 & -> & _ & _ & Hf2 & Hp2 & Hs2 & _ & Ht2 & _).
    exists (Some e), rc2, (closing rc1). split; [done|].
    rewrite Hf2, Hp2, Hs2, Ht2, Hf1, Hp1, Hs1, Ht1, Ht0, <- app_assoc.
    split_and?; try done.
    destruct (rawDecoder rc1) eqn:Hd1; [right|left]; unfold closing;
      by rewrite Hc1, Hd1.
  - exists None, rc1, []. split; [done|].
    rewrite Hf1, Hp1, Hs1, Ht1, Ht0, app_nil_r. done.
Qed.

(** X2.  [reconnectClient] never panics and, whatever it returns, leaves
    the subscription registry, the frame slot and the passthrough flag as
    they were: subscriptions survive a reconnection, and the last decoded
    frame stays readable. *)
Theorem reconnectClient_keeps_registry_and_frame (a : Answers) (rc : rtspCamera) :
  ∃ r rc', reconnectClient a rc = Some (r, rc')
    ∧ subAndCBByID rc' = subAndCBByID rc
    ∧ latestFrame rc' = latestFrame rc
    ∧ VideoReader rc' = VideoReader rc
    ∧ rtpH264Passthrough rc' = rtpH264Passthrough rc.
Proof.
  destruct (reconnectClient_shape a rc) as (r & rc' & evs & Hrun & Hf & Hp & Hs & _).
  exists r, rc'. unfold VideoReader. rewrite Hf. done.
Qed.

(** X3.  [reconnectClient] first closes what the camera holds (client,
    then decoder), once.  On success and on a failing [Start] nothing
    else is closed; on any later failure the new client is closed once,
    followed by at most one close of a new decoder. *)
Theorem reconnectClient_closes_old_session_first (a : Answers) (rc : rtspCamera) :
  ∃ r rc' evs, reconnectClient a rc = Some (r, rc')
    ∧ trace rc' = trace rc ++ closing rc ++ evs
    ∧ match r, Start a with
      | None, _ => evs = []
      | Some _, Some _ => evs = []
      | Some _, None => evs = [EvClientClose] ∨ evs = [EvClientClose; EvDecoderClose]
      end.
Proof.
  destruct (reconnectClient_shape a rc) as (r & rc' & evs & Hrun & _ & _ & _ & Ht & Hevs).
  by exists r, rc', evs.
Qed.

(** ** What a successful set-up has done *)

Lemma feedParameterSet_fed ps msg rc d :
  rawDecoder rc = Some d →
  ∃ rc', feedParameterSet ps msg rc = Some ((), rc')
    ∧ rawDecoder rc' = Some (fedWith d ps)
    ∧ logger rc' = logger rc ++ missingWarning ps msg
    ∧ quiet rc rc'.
Proof.
  intros Hd. unfold feedParameterSet, decode. destruct ps as [nalu|]; run.
  - rewrite Hd. destruct (rawDecode d nalu) as [d' r]. run.
    eexists. split; [reflexivity|]. simpl. rewrite app_nil_r. by unfold quiet.
  - eexists. split; [reflexivity|]. simpl. by unfold quiet.
Qed.

Lemma initH264_inv a session rc c rc' :
  client rc = Some c →
  initH264 a session rc = Some (None, rc') →
  ∃ f dec d fp,
    findH264 session = Some f
    ∧ CreateDecoder264 a f = inr dec
    ∧ newH264Decoder a = inr d
    ∧ Setup a = None
    ∧ (if rtpH264Passthrough rc
       then ∃ x, formatprocessorNew a 1472 f true = inr x ∧ fp = Some x
       else fp = None)
    ∧ client rc'
      = Some (mkClient (timeDec c)
                (Some (HandleH264 (mkH264Pipeline dec false false) fp)))
    ∧ rawDecoder rc' = Some (fedWith (fedWith d (SPS264 f)) (PPS264 f))
    ∧ logger rc' = logger rc
                   ++ missingWarning (SPS264 f) "no SPS found in H264 format"
                   ++ missingWarning (PPS264 f) "no PPS found in H264 format"
    ∧ latestFrame rc' = latestFrame rc
    ∧ trace rc' = trace rc.
Proof.
  intros Hc. unfold initH264.
  destruct (findH264 session) as [f|] eqn:Hfind.
  2: { run. match goal with |- context [logMedias ?m ?s] =>
         destruct (logMedias_run m s) as (rc1 & -> & _) end. done. }
  destruct (CreateDecoder264 a f) as [err|dec] eqn:HCD; run; [done|].
  destruct (newH264Decoder a) as [err|d] eqn:HND; run; [done|].
  destruct (feedParameterSet_fed (SPS264 f) "no SPS found in H264 format"
              (set_rawDecoder (Some d) rc) d eq_refl) as (rc1 & -> & Hd1 & Hl1 & Hq1).
  run.
  destruct (feedParameterSet_fed (PPS264 f) "no PPS found in H264 format" rc1 _ Hd1)
    as (rc2 & -> & Hd2 & Hl2 & Hq2).
  run.
  destruct (quiet_trans _ _ _ Hq1 Hq2) as (Hc2 & Hf2 & Hp2 & Hs2 & Ht2).
  simpl in *. rewrite Hp2.
  destruct (rtpH264Passthrough rc) eqn:Hpass.
  - destruct (formatprocessorNew a 1472 f true) as [err|x] eqn:HFP; run; [done|].
    rewrite ?bind_run, (clientCall_run _ _ c) by congruence.
    destruct (Setup a) as [err|] eqn:HSetup; run; [done|].
    unfold OnPacketRTP. run. rewrite Hc2, Hc. run. intros [= <-].
    exists f, dec, d, (Some x). simpl.
    rewrite Hd2, Hl2, Hl1, Hf2, Ht2, <- app_assoc. split_and?; eauto.
  - rewrite ?bind_run, (clientCall_run _ _ c) by congruence.
    destruct (Setup a) as [err|] eqn:HSetup; run; [done|].
    unfold OnPacketRTP. run. rewrite Hc2, Hc. run. intros [= <-].
    exists f, dec, d, None. simpl.
    rewrite Hd2, Hl2, Hl1, Hf2, Ht2, <- app_assoc. split_and?; eauto.
Qed.

Lemma initH265_inv a session rc c rc' :
  client rc = Some c →
  initH265 a session rc = Some (None, rc') →
  ∃ f dec d,
    rtpH264Passthrough rc = false
    ∧ findH265 session = Some f
    ∧ Setup a = None
    ∧ CreateDecoder265 a f = inr dec
    ∧ newH265Decoder a = inr d
    ∧ client rc' = Some (mkClient (timeDec c) (Some (HandleH265 dec)))
    ∧ rawDecoder rc'
      = Some (fedWith (fedWith (fedWith d (VPS265 f)) (SPS265 f)) (PPS265 f))
    ∧ logger rc' = logger rc
                   ++ missingWarning (VPS265 f) "no VPS found in H265 format"
                   ++ missingWarning (SPS265 f) "no SPS found in H265 format"
                   ++ missingWarning (PPS265 f) "no PPS found in H265 format"
    ∧ latestFrame rc' = latestFrame rc
    ∧ trace rc' = trace rc.
Proof.
  intros Hc. unfold initH265. run.
  destruct (rtpH264Passthrough rc) eqn:Hpass; run; [done|].
  destruct (findH265 session) as [f|] eqn:Hfind.
  2: { run. match goal with |- context [logMedias ?m ?s] =>
         destruct (logMedias_run m s) as (rc1 & -> & _) end. done. }
  rewrite ?bind_run, (clientCall_run _ _ c) by done.
  destruct (Setup a) as [err|] eqn:HSetup; run; [done|].
  destruct (CreateDecoder265 a f) as [err|dec] eqn:HCD; run; [done|].
  destruct (newH265Decoder a) as [err|d] eqn:HND; run; [done|].
  destruct (feedParameterSet_fed (VPS265 f) "no VPS found in H265 format"
              (set_rawDecoder (Some d) rc) d eq_refl) as (rc1 & -> & Hd1 & Hl1 & Hq1).
  run.
  destruct (feedParameterSet_fed (SPS265 f) "no SPS found in H265 format" rc1 _ Hd1)
    as (rc2 & -> & Hd2 & Hl2 & Hq2).
  run.
  destruct (feedParameterSet_fed (PPS265 f) "no PPS found in H265 format" rc2 _ Hd2)
    as (rc3 & -> & Hd3 & Hl3 & Hq3).
  run.
  destruct (quiet_trans _ _ _ (quiet_trans _ _ _ Hq1 Hq2) Hq3)
    as (Hc3 & Hf3 & Hp3 & Hs3 & Ht3).
  simpl in *. unfold OnPacketRTP. run. rewrite Hc3, Hc. run. intros [= <-].
  exists f, dec, d. simpl.
  rewrite Hd3, Hl3, Hl2, Hl1, Hf3, Ht3, <- !app_assoc. split_and?; eauto.
Qed.

(** X4.  When [initH264] succeeds, the SPS and then the PPS of the track
    description, as far as present, have been sent to the new raw decoder
    before any packet; what the decoder returned for them (an error, an
    image) is dropped: the frame slot is as before.  A missing set costs
    one warning each, nothing else. *)
Theorem initH264_feeds_parameter_sets
    (a : Answers) (session : Session) (rc rc' : rtspCamera) (c : Client) :
  client rc = Some c →
  initH264 a session rc = Some (None, rc') →
  ∃ f d,
    findH264 session = Some f
    ∧ newH264Decoder a = inr d
    ∧ rawDecoder rc' = Some (fedWith (fedWith d (SPS264 f)) (PPS264 f))
    ∧ logger rc' = logger rc
                   ++ missingWarning (SPS264 f) "no SPS found in H264 format"
                   ++ missingWarning (PPS264 f) "no PPS found in H264 format"
    ∧ latestFrame rc' = latestFrame rc.
Proof.
  intros Hc Hrun.
  destruct (initH264_inv a session rc c rc' Hc Hrun)
    as (f & dec & d & fp & Hf & _ & Hd & _ & _ & _ & Hraw & Hlog & Hfr & _).
  exists f, d. done.
Qed.

(** X5.  The same for [initH265], with VPS, SPS and PPS in this order;
    and [initH265] succeeds only with passthrough disabled. *)
Theorem initH265_feeds_parameter_sets
    (a : Answers) (session : Session) (rc rc' : rtspCamera) (c : Client) :
  client rc = Some c →
  initH265 a session rc = Some (None, rc') →
  ∃ f d,
    rtpH264Passthrough rc = false
    ∧ findH265 session = Some f
    ∧ newH265Decoder a = inr d
    ∧ rawDecoder rc'
      = Some (fedWith (fedWith (fedWith d (VPS265 f)) (SPS265 f)) (PPS265 f))
    ∧ logger rc' = logger rc
                   ++ missingWarning (VPS265 f) "no VPS found in H265 format"
                   ++ missingWarning (SPS265 f) "no SPS found in H265 format"
                   ++ missingWarning (PPS265 f) "no PPS found in H265 format"
    ∧ latestFrame rc' = latestFrame rc.
Proof.
  intros Hc Hrun.
  destruct (initH265_inv a session rc c rc' Hc Hrun)
    as (f & dec & d & Hp & Hf & _ & _ & Hd & _ & Hraw & Hlog & Hfr & _).
  exists f, d. done.
Qed.

Ltac failing_return :=
  run;
  match goal with |- context [closeConnection ?s] =>
    destruct (closeConnection_run s) as (? & -> & _)
  end;
  done.

(** X6.  [reconnectClient] returns nil only when [Start], [Describe],
    [getStreamInfo] (with H.264 or H.265), the set-up of that codec and
    [Play] have all succeeded.  The handler then registered is the one of
    the reported codec: for H.264 a pipeline with a closed gate on the
    depacketizer of the track, with a format processor exactly when
    passthrough is enabled; for H.265 the callback on its depacketizer,
    and passthrough is disabled. *)
Theorem reconnectClient_success_means_connected
    (a : Answers) (rc rc' : rtspCamera) :
  reconnectClient a rc = Some (None, rc') →
  Start a = None
  ∧ Play a = None
  ∧ ∃ session c,
      Describe a = inr session
      ∧ client rc' = Some c
      ∧ is_Some (rawDecoder rc')
      ∧ ((getStreamInfo a = inr H264
          ∧ ∃ f dec fp,
              findH264 session = Some f
              ∧ CreateDecoder264 a f = inr dec
              ∧ handler c = Some (HandleH264 (mkH264Pipeline dec false false) fp)
              ∧ (is_Some fp ↔ rtpH264Passthrough rc = true))
         ∨ (getStreamInfo a = inr H265
            ∧ rtpH264Passthrough rc = false
            ∧ ∃ f dec,
                findH265 session = Some f
                ∧ CreateDecoder265 a f = inr dec
                ∧ handler c = Some (HandleH265 dec))).
Proof.
  unfold reconnectClient. rewrite bind_run.
  destruct (closeConnection_closing rc) as (rc0 & -> & _ & _ & _ & Hp0 & _). run.
  destruct (Start a) as [e|] eqn:HS; run; [done|].
  unfold connect. rewrite ?bind_run, (clientCall_run _ _ (mkClient timeDec0 None)) by done.
  destruct (Describe a) as [e|session] eqn:HD; [failing_return|].
  destruct (getStreamInfo a) as [e|[| |tag]] eqn:HG; [failing_return| | |failing_return].
  - run.
    match goal with |- context [initH264 a session ?s] =>
      destruct (initH264_run a session s _ eq_refl) as (r & rc1 & Hrun & _);
      rewrite Hrun; pose proof (initH264_inv a session s _ rc1 eq_refl) as Hinv
    end.
    destruct r as [e|]; [failing_return|].
    destruct (Hinv Hrun) as (f & dec & d & fp & Hf & HCD & _ & _ & Hfp & Hc1 & Hd1 & _).
    run. rewrite (clientCall_run _ _ _ Hc1).
    destruct (Play a) as [e|] eqn:HP; [failing_return|]. run.
    intros [= <-]. do 2 (split; [done|]).
    eexists session, _. split; [done|]. split; [exact Hc1|]. split; [by rewrite Hd1|].
    left. split; [done|]. exists f, dec, fp. do 3 (split; [done|]).
    simpl in Hfp. rewrite Hp0 in Hfp.
    destruct (rtpH264Passthrough rc).
    + destruct Hfp as (x & _ & ->). split; eauto.
    + subst fp. split; [by intros [? ?]|done].
  - run.
    match goal with |- context [initH265 a session ?s] =>
      destruct (initH265_run a session s _ eq_refl) as (r & rc1 & Hrun & _);
      rewrite Hrun; pose proof (initH265_inv a session s _ rc1 eq_refl) as Hinv
    end.
    destruct r as [e|]; [failing_return|].
    destruct (Hinv Hrun) as (f & dec & d & Hpass & Hf & _ & HCD & _ & Hc1 & Hd1 & _).
    run. rewrite (clientCall_run _ _ _ Hc1).
    destruct (Play a) as [e|] eqn:HP; [failing_return|]. run.
    intros [= <-]. do 2 (split; [done|]).
    eexists session, _. split; [done|]. split; [exact Hc1|]. split; [by rewrite Hd1|].
    right. split; [done|]. simpl in Hpass. rewrite Hp0 in Hpass. split; [done|].
    by exists f, dec.
Qed.

(** ** Packets on a connected camera *)

Lemma stores_app t1 t2 : stores (t1 ++ t2) = stores t1 ++ stores t2.
Proof. apply omap_app. Qed.

Lemma stores_EvStore imgs : stores (EvStore <$> imgs) = imgs.
Proof. induction imgs as [|i l IH]; [done|]. simpl. f_equal. exact IH. Qed.

Lemma stores_frameless t : frameless t → stores t = [].
Proof.
  induction 1 as [|e t He Ht IH]; [done|].
  destruct e; simpl; try done.
Qed.

Lemma newestOf_app l1 l2 old :
  newestOf (l1 ++ l2) old = newestOf l2 (newestOf l1 old).
Proof.
  unfold newestOf. rewrite last_app.
  destruct (last l2); [done|]. by destruct (last l1).
Qed.

Lemma rawPathStep_stores p pkt d rc rc' :
  rawPathStep p pkt d rc rc' →
  ∃ evs, trace rc' = trace rc ++ evs
    ∧ latestFrame rc' = newestOf (stores evs) (latestFrame rc).
Proof.
  unfold rawPathStep.
  destruct (rtpDecode264 (rtpDec p) pkt).2 as [err|au].
  - intros (-> & _ & ->). by eexists.
  - destruct (iFrameReceived p || IDRPresent au); intros (-> & _ & ->);
      eexists; (split; [done|]); simpl; [|done].
    by rewrite stores_EvStore.
Qed.

(** With a decoder in place the H.265 callback does not panic. *)
Lemma onPacketH265_run d0 pkt rc d :
  rawDecoder rc = Some d →
  ∃ rc' evs, onPacketH265 d0 pkt rc = Some ((rtpDecode265 d0 pkt).1, rc')
    ∧ client rc' = client rc
    ∧ subAndCBByID rc' = subAndCBByID rc
    ∧ rtpH264Passthrough rc' = rtpH264Passthrough rc
    ∧ is_Some (rawDecoder rc')
    ∧ trace rc' = trace rc ++ evs
    ∧ latestFrame rc' = newestOf (stores evs) (latestFrame rc).
Proof.
  intros Hd. unfold onPacketH265. run.
  destruct (rtpDecode265 d0 pkt) as [d' [err|au]]; run.
  - destruct (benign err); run; eexists _, [EvRaw pkt];
      (split; [reflexivity|]); simpl; rewrite Hd; split_and?; eauto.
  - match goal with |- context [decodeNALUs ?m ?a ?s] =>
      destruct (decodeNALUs_run m a s d) as (rc' & -> & Hf & Ht & Hd' & Hc & Hs & Hp);
        [done|]
    end.
    exists rc', (EvRaw pkt :: EvUnit au :: (EvStore <$> decodedImages d au)).
    split; [done|]. simpl in *. rewrite Hc, Hs, Hp, Hd', Ht, Hf, stores_EvStore.
    rewrite <- !app_assoc. split_and?; eauto.
Qed.

(** [publishToWebRTC] updates the client's time decoder and nothing else
    of the client. *)
Lemma publishToWebRTC_client fp pkt rc c fp' rc' :
  client rc = Some c →
  publishToWebRTC fp pkt rc = Some (fp', rc') →
  ∃ td, client rc' = Some (mkClient td (handler c)).
Proof.
  intros Hc. unfold publishToWebRTC. run. rewrite Hc.
  destruct (PacketPTS (timeDec c) pkt) as [td' [pts|]]; run.
  2: { intros [= _ <-]. by eexists. }
  destruct (ProcessRTPPacket fp pkt pts) as [fp1 [err|u]]; run.
  { intros [= _ <-]. by eexists. }
  case_bool_decide.
  - run. intros [= _ <-]. by eexists.
  - rewrite bind_run.
    match goal with |- context [publishAll u ?l ?s] =>
      destruct (publishAll_run u l s) as (rc1 & -> & Hc1 & _)
    end.
    run. intros [= _ <-]. rewrite Hc1. by eexists.
Qed.

(** One packet on a camera with client and decoder, whatever the handler:
    no panic; the frame slot holds the newest image stored by the packet,
    if any; the subscriptions and their closures are the same. *)
Lemma onPacketRTP_connected h pkt rc c d :
  client rc = Some c →
  rawDecoder rc = Some d →
  ∃ h' rc' evs, onPacketRTP h pkt rc = Some (h', rc')
    ∧ (∃ td, client rc' = Some (mkClient td (handler c)))
    ∧ is_Some (rawDecoder rc')
    ∧ rtpH264Passthrough rc' = rtpH264Passthrough rc
    ∧ trace rc' = trace rc ++ evs
    ∧ latestFrame rc' = newestOf (stores evs) (latestFrame rc)
    ∧ (∀ id, cb <$> (subAndCBByID rc' !! id) = cb <$> (subAndCBByID rc !! id)).
Proof.
  intros Hc Hd. destruct h as [p [fp|]|d0].
  - destruct (publishToWebRTC_run fp pkt rc c Hc)
      as (fp' & rc1 & evs & Hpub & _ & Hd1 & Hf1 & Hp1 & Ht1 & Hsubs).
    destruct (publishToWebRTC_client fp pkt rc c fp' rc1 Hc Hpub) as [td Hc1].
    destruct (storeImage_run p pkt rc1 d) as (rc' & Hraw & Hc' & Hs' & Hp' & Hstep);
      [by rewrite Hd1|].
    destruct (rawPathStep_stores _ _ _ _ _ Hstep) as (evs2 & Ht2 & Hf2).
    exists (HandleH264 (pipelineAfter p pkt) (Some fp')), rc',
           (EvPassthrough pkt :: evs ++ evs2).
    split. { simpl. rewrite bind_run, Hpub, bind_run, Hraw. done. }
    split; [exists td; by rewrite Hc'|].
    split; [by eapply rawPathStep_decoder|].
    split; [by rewrite Hp'|].
    assert (stores evs = []) as Hnone.
    { destruct (passthroughUnit c fp pkt); destruct Hsubs as [_ ->]; [|done].
      apply stores_frameless, Forall_fmap, Forall_forall. done. }
    split. { rewrite Ht2, Ht1. simpl. by rewrite <- !app_assoc. }
    split. { rewrite Hf2, Hf1. simpl. by rewrite stores_app, Hnone. }
    intros id. rewrite Hs'.
    destruct (passthroughUnit c fp pkt) as [u|]; destruct Hsubs as [-> _]; [|done].
    rewrite lookup_fmap. by destruct (subAndCBByID rc !! id).
  - destruct (storeImage_run p pkt rc d Hd) as (rc' & Hraw & Hc' & Hs' & Hp' & Hstep).
    destruct (rawPathStep_stores _ _ _ _ _ Hstep) as (evs2 & Ht2 & Hf2).
    exists (HandleH264 (pipelineAfter p pkt) None), rc', evs2.
    split. { simpl. rewrite bind_run, Hraw. done. }
    split; [exists (timeDec c); rewrite Hc', Hc; by destruct c|].
    split; [by eapply rawPathStep_decoder|].
    rewrite Hs'. done.
  - destruct (onPacketH265_run d0 pkt rc d Hd)
      as (rc' & evs & Hrun & Hc' & Hs' & Hp' & Hd' & Ht & Hf).
    exists (HandleH265 (rtpDecode265 d0 pkt).1), rc', evs.
    split. { simpl. rewrite bind_run, Hrun. done. }
    split; [exists (timeDec c); rewrite Hc', Hc; by destruct c|].
    rewrite Hs'. done.
Qed.

(** The same for the packets that the client delivers, one after the
    other, to the handler it has registered. *)
Lemma receiveAll_connected pkts : ∀ rc c h d,
  client rc = Some c →
  handler c = Some h →
  rawDecoder rc = Some d →
  ∃ rc' evs, receiveAll pkts rc = Some ((), rc')
    ∧ is_Some (client rc' ≫= handler)
    ∧ is_Some (rawDecoder rc')
    ∧ rtpH264Passthrough rc' = rtpH264Passthrough rc
    ∧ trace rc' = trace rc ++ evs
    ∧ latestFrame rc' = newestOf (stores evs) (latestFrame rc)
    ∧ (∀ id, cb <$> (subAndCBByID rc' !! id) = cb <$> (subAndCBByID rc !! id)).
Proof.
  induction pkts as [|pkt l IH]; intros rc c h d Hc Hh Hd.
  - exists rc, []. rewrite app_nil_r, Hc, Hd. simpl. rewrite Hh. split_and?; eauto.
  - destruct (onPacketRTP_connected h pkt rc c d Hc Hd)
      as (h' & rc1 & evs1 & Hrun & [td Hc1] & [d1 Hd1] & Hp1 & Ht1 & Hf1 & Hs1).
    destruct (IH (set_client (Some (mkClient td (Some h'))) rc1)
                 (mkClient td (Some h')) h' d1 eq_refl eq_refl Hd1)
      as (rc' & evs2 & Hall & Hc' & Hd' & Hp' & Ht' & Hf' & Hs').
    exists rc', (evs1 ++ evs2).
    cbn [receiveAll]. unfold receive. rewrite !bind_run. unfold gets at 1.
    rewrite Hc. simpl. rewrite Hh, bind_run, Hrun. unfold modify at 1. rewrite Hc1.
    split; [exact Hall|]. simpl in *.
    rewrite Hp', Hp1, Ht', Ht1, Hf', Hf1, stores_app, newestOf_app, <- app_assoc.
    split_and?; try done.
    intros id. by rewrite Hs', Hs1.
Qed.

(** X7.  While the camera is connected, the receive task never panics,
    and after any packets the frame reader returns the newest image that
    these packets stored; if they stored none, it returns what it returned
    before (the old frame, or "no frame yet"). *)
Theorem VideoReader_returns_newest_stored_image
    (pkts : list Packet) (rc : rtspCamera) (c : Client) (h : Handler) (d : RawDec) :
  client rc = Some c →
  handler c = Some h →
  rawDecoder rc = Some d →
  ∃ rc' evs, receiveAll pkts rc = Some ((), rc')
    ∧ trace rc' = trace rc ++ evs
    ∧ VideoReader rc' = match last (stores evs) with
                        | Some img => Frame img
                        | None => VideoReader rc
                        end.
Proof.
  intros Hc Hh Hd.
  destruct (receiveAll_connected pkts rc c h d Hc Hh Hd)
    as (rc' & evs & Hrun & _ & _ & _ & Ht & Hf & _).
  exists rc', evs. split; [done|]. split; [done|].
  unfold VideoReader. rewrite Hf. unfold newestOf. by destruct (last (stores evs)).
Qed.

(** X8.  Receiving packets never adds or removes a subscription: the
    handlers only read the registry, so the registered ids are the same
    after any packets.  (What the jobs handed to [Publish] do to a
    subscriber's closure when the subscription runs them is not part of
    this.) *)
Theorem receiveAll_keeps_registered_ids
    (pkts : list Packet) (rc : rtspCamera) (c : Client) (h : Handler) (d : RawDec) :
  client rc = Some c →
  handler c = Some h →
  rawDecoder rc = Some d →
  ∃ rc', receiveAll pkts rc = Some ((), rc')
    ∧ dom (subAndCBByID rc') = dom (subAndCBByID rc)
    ∧ size (subAndCBByID rc') = size (subAndCBByID rc).
Proof.
  intros Hc Hh Hd.
  destruct (receiveAll_connected pkts rc c h d Hc Hh Hd)
    as (rc' & evs & Hrun & _ & _ & _ & _ & _ & Hs).
  exists rc'. split; [done|].
  assert (dom (subAndCBByID rc') = dom (subAndCBByID rc)) as Hdom.
  { apply set_eq. intros id. rewrite !elem_of_dom.
    specialize (Hs id).
    destruct (subAndCBByID rc' !! id), (subAndCBByID rc !! id); simpl in Hs;
      try done; split; eauto. }
  split; [exact Hdom|]. by rewrite <- !size_dom, Hdom.
Qed.

(** ** The open gate, and errors on the way to the frame slot *)

Lemma feed_gate_open pkts : ∀ p fp rc c d,
  iFrameReceived p = true →
  client rc = Some c →
  rawDecoder rc = Some d →
  ∃ p' fp' rc', feed (HandleH264 p fp) pkts rc = Some (HandleH264 p' fp', rc')
    ∧ iFrameReceived p' = true.
Proof.
  induction pkts as [|pkt l IH]; intros p fp rc c d Hg Hc Hd.
  - by exists p, fp, rc.
  - destruct (onPacketRTP_H264_run p fp pkt rc d c Hd Hc)
      as (fp1 & rc1 & rc2 & evs & Hrun & [c2 Hc2] & _ & _ & _ & Hstep).
    destruct (rawPathStep_decoder _ _ _ _ _ Hstep) as [d2 Hd2].
    assert (iFrameReceived (pipelineAfter p pkt) = true) as Hg'.
    { unfold pipelineAfter. destruct (rtpDecode264 (rtpDec p) pkt) as [d' [err|au]];
        [done|]. by rewrite Hg. }
    destruct (IH (pipelineAfter p pkt) fp1 rc2 c2 d2 Hg' Hc2 Hd2)
      as (p' & fp' & rc' & Hfeed & Hg'').
    exists p', fp', rc'. cbn [feed]. by rewrite bind_run, Hrun.
Qed.

(** X9.  Once the gate of an H.264 pipeline is open it stays open,
    whatever packets follow, and every access unit the depacketizer
    returns, with or without an IDR, goes to the raw decoder: after the
    packet the frame slot holds the newest image decoded from the unit,
    or the previous frame if there is none. *)
Theorem open_gate_decodes_every_unit
    (p : H264Pipeline) (fp : option Fp) (pkt : Packet) (pkts : list Packet)
    (rc : rtspCamera) (c : Client) (d : RawDec) :
  iFrameReceived p = true →
  client rc = Some c →
  rawDecoder rc = Some d →
  ∃ fp1 rc1 p' fp' rc',
    onPacketRTP (HandleH264 p fp) pkt rc
      = Some (HandleH264 (pipelineAfter p pkt) fp1, rc1)
    ∧ (∀ au, (rtpDecode264 (rtpDec p) pkt).2 = inr au →
         latestFrame rc1 = newestOf (decodedImages d au) (latestFrame rc)
         ∧ rawDecoder rc1 = Some (decoderAfter d au))
    ∧ feed (HandleH264 p fp) (pkt :: pkts) rc = Some (HandleH264 p' fp', rc')
    ∧ iFrameReceived p' = true.
Proof.
  intros Hg Hc Hd.
  destruct (onPacketRTP_H264_run p fp pkt rc d c Hd Hc)
    as (fp1 & rc0 & rc1 & evs & Hrun & _ & Hf0 & _ & _ & Hstep).
  destruct (feed_gate_open (pkt :: pkts) p fp rc c d Hg Hc Hd)
    as (p' & fp' & rc' & Hfeed & Hg').
  exists fp1, rc1, p', fp', rc'. split; [done|]. split; [|done].
  intros au Hau. unfold rawPathStep in Hstep. rewrite Hau, Hg in Hstep.
  simpl in Hstep. destruct Hstep as (-> & -> & _). by rewrite Hf0.
Qed.

(** X10.  A depacketizer error ends the handling of the packet on the
    raw-frame path, with or without a decoder in place: the frame slot,
    the decoder, the gate and the registry are as before.  "More packets
    needed" and "non-starting packet" leave no trace in the log; any other
    error is logged once, at debug level by [storeImage] and at error
    level by the H.265 callback. *)
Theorem depacketizer_errors_are_absorbed
    (p : H264Pipeline) (d0 : RtpDec265) (pkt : Packet) (rc : rtspCamera) :
  (∀ err, (rtpDecode264 (rtpDec p) pkt).2 = inl err →
     ∃ p' rc', storeImage p pkt rc = Some (p', rc')
       ∧ iFrameReceived p' = iFrameReceived p
       ∧ latestFrame rc' = latestFrame rc
       ∧ rawDecoder rc' = rawDecoder rc
       ∧ subAndCBByID rc' = subAndCBByID rc
       ∧ logger rc' = logger rc
           ++ if benign err then []
              else [(Debug, "error decoding(1) h264 rstp stream")])
  ∧ (∀ err, (rtpDecode265 d0 pkt).2 = inl err →
       ∃ d' rc', onPacketH265 d0 pkt rc = Some (d', rc')
         ∧ latestFrame rc' = latestFrame rc
         ∧ rawDecoder rc' = rawDecoder rc
         ∧ subAndCBByID rc' = subAndCBByID rc
         ∧ logger rc' = logger rc
             ++ if benign err then []
                else [(Err, "error decoding(1) h265 rstp stream")]).
Proof.
  split; intros err Herr.
  - unfold storeImage. run.
    destruct (rtpDecode264 (rtpDec p) pkt) as [d' r]. simpl in Herr. subst r.
    destruct (benign err); run; eexists _, _; (split; [reflexivity|]); simpl;
      rewrite ?app_nil_r; done.
  - unfold onPacketH265. run.
    destruct (rtpDecode265 d0 pkt) as [d' r]. simpl in Herr. subst r.
    destruct (benign err); run; eexists _, _; (split; [reflexivity|]); simpl;
      rewrite ?app_nil_r; done.
Qed.

(** X11.  The loop over the NAL units of an access unit stops at the
    first error of the raw decoder: the error is logged once, the NAL
    units after it are never handed to the decoder, and the images decoded
    before it stay stored. *)
Theorem decodeNALUs_stops_at_first_error
    (msg : string) (pre post : list NALU) (bad : NALU) (rc : rtspCamera)
    (d d' : RawDec) (err : Error) :
  rawDecoder rc = Some d →
  firstError d pre = None →
  rawDecode (decoderAfter d pre) bad = (d', inl err) →
  ∃ rc', decodeNALUs msg (pre ++ bad :: post) rc = Some ((), rc')
    ∧ rawDecoder rc' = Some d'
    ∧ latestFrame rc' = newestOf (decodedImages d pre) (latestFrame rc)
    ∧ trace rc' = trace rc ++ (EvStore <$> decodedImages d pre)
    ∧ logger rc' = logger rc ++ [(Err, msg)].
Proof.
  revert rc d. induction pre as [|nalu pre IH]; intros rc d Hd Hclean Hbad; simpl in *.
  - unfold decode. run. rewrite Hd, Hbad. run.
    eexists. split; [reflexivity|]. simpl. by rewrite app_nil_r.
  - unfold decode. run. rewrite Hd.
    destruct (rawDecode d nalu) as [d1 [e|[img|]]] eqn:E; [done| |]; run.
    + match goal with |- context [decodeNALUs msg _ ?s] =>
        destruct (IH s d1 eq_refl Hclean Hbad) as (rc' & -> & Hd' & Hf & Ht & Hl)
      end.
      exists rc'. split; [done|]. simpl in *.
      rewrite Hf, Ht, Hl, newestOf_cons, <- app_assoc. done.
    + match goal with |- context [decodeNALUs msg _ ?s] =>
        destruct (IH s d1 eq_refl Hclean Hbad) as (rc' & -> & Hd' & Hf & Ht & Hl)
      end.
      exists rc'. split; [done|]. simpl in *. by rewrite Hf, Ht, Hl.
Qed.

(** ** Subscribing and unsubscribing *)

(** X12.  [SubscribeRTP] never panics.  With passthrough disabled it is
    refused with [ErrH264PassthroughNotEnabled]; and whenever it returns
    an error (also from the creation of the subscription or of the
    encoder) the id is [uuid.Nil] and the camera, hence the registry, is
    as before. *)
Theorem SubscribeRTP_failure_changes_nothing
    (a : SubscribeAnswers) (bufferSize : Z)
    (packetsCB : list Packet → option Error) (rc : rtspCamera) :
  ∃ id r rc', SubscribeRTP a bufferSize packetsCB rc = Some ((id, r), rc')
    ∧ (rtpH264Passthrough rc = false → r = Some ErrH264PassthroughNotEnabled)
    ∧ (is_Some r → rc' = rc ∧ id = uuidNil).
Proof.
  unfold SubscribeRTP. run.
  destruct (rtpH264Passthrough rc); run.
  2: { eexists _, _, _. split; [reflexivity|]. done. }
  destruct (NewStreamSubscription a bufferSize) as [err|sub]; run.
  { eexists _, _, _. split; [reflexivity|]. done. }
  destruct (encoderInit a) as [err|enc]; run.
  { eexists _, _, _. split; [reflexivity|]. done. }
  eexists _, _, _. split; [reflexivity|]. split; [done|]. by intros [? ?].
Qed.

(** X13.  A successful [SubscribeRTP] registers, under the id of the new
    subscription, the started subscription with a closure that has seen
    no unit yet, and leaves every other entry alone.  When the id is new
    and [Start] keeps it, [Unsubscribe] of the returned id succeeds and
    gives back the registry as it was before. *)
Theorem SubscribeRTP_then_Unsubscribe
    (a : SubscribeAnswers) (bufferSize : Z)
    (packetsCB : list Packet → option Error) (rc rc1 : rtspCamera)
    (id : SubscriptionID) :
  SubscribeRTP a bufferSize packetsCB rc = Some ((id, None), rc1) →
  ∃ sub enc,
    rtpH264Passthrough rc = true
    ∧ NewStreamSubscription a bufferSize = inr sub
    ∧ encoderInit a = inr enc
    ∧ id = subID (subStart sub)
    ∧ subAndCBByID rc1 !! subID sub
      = Some (mkSubAndCB (mkSubscriber false 0 enc packetsCB []) (subStart sub))
    ∧ (∀ id', id' ≠ subID sub → subAndCBByID rc1 !! id' = subAndCBByID rc !! id')
    ∧ (subID (subStart sub) = subID sub →
       subAndCBByID rc !! subID sub = None →
       size (subAndCBByID rc1) = S (size (subAndCBByID rc))
       ∧ ∃ rc2, Unsubscribe id rc1 = Some (None, rc2)
           ∧ subAndCBByID rc2 = subAndCBByID rc).
Proof.
  unfold SubscribeRTP. run.
  destruct (rtpH264Passthrough rc); run; [|done].
  destruct (NewStreamSubscription a bufferSize) as [err|sub]; run; [done|].
  destruct (encoderInit a) as [err|enc]; run; [done|].
  intros [= <- <-]. exists sub, enc. simpl. do 4 (split; [done|]).
  split; [by rewrite lookup_insert_eq|].
  split; [intros id' Hne; by rewrite lookup_insert_ne|].
  intros Hid Hnew. split; [by apply map_size_insert_None|].
  unfold Unsubscribe. run. rewrite Hid, lookup_insert_eq. run.
  eexists. split; [reflexivity|]. simpl.
  by rewrite delete_insert_id.
Qed.

(** X14.  A successful [Unsubscribe] closes the subscription, removes
    its entry and no other, so the registry shrinks by one; client,
    decoder and frame slot are not touched. *)
Theorem Unsubscribe_removes_only_that_subscription
    (rc : rtspCamera) (id : SubscriptionID) (sc : subAndCB) :
  subAndCBByID rc !! id = Some sc →
  ∃ rc', Unsubscribe id rc = Some (None, rc')
    ∧ subAndCBByID rc' !! id = None
    ∧ (∀ id', id' ≠ id → subAndCBByID rc' !! id' = subAndCBByID rc !! id')
    ∧ S (size (subAndCBByID rc')) = size (subAndCBByID rc)
    ∧ trace rc' = trace rc ++ [EvSubClose id]
    ∧ client rc' = client rc
    ∧ rawDecoder rc' = rawDecoder rc
    ∧ latestFrame rc' = latestFrame rc.
Proof.
  intros Hid. unfold Unsubscribe. run. rewrite Hid. run.
  eexists. split; [reflexivity|]. simpl.
  split; [by rewrite lookup_delete_eq|].
  split; [intros id' Hne; by rewrite lookup_delete_ne|].
  split; [|done].
  rewrite map_size_delete, Hid. simpl.
  assert (size (subAndCBByID rc) ≠ 0%nat) as Hnz.
  { apply map_size_ne_0_lookup. eauto. }
  destruct (size (subAndCBByID rc)); [done|]. done.
Qed.

Lemma closeAndDelete_run ids : ∀ rc,
  ∃ rc', closeAndDelete ids rc = Some ((), rc')
    ∧ subAndCBByID rc' = foldl (λ m id, delete id m) (subAndCBByID rc) ids
    ∧ trace rc' = trace rc ++ (EvSubClose <$> ids)
    ∧ client rc' = client rc
    ∧ rawDecoder rc' = rawDecoder rc
    ∧ latestFrame rc' = latestFrame rc
    ∧ rtpH264Passthrough rc' = rtpH264Passthrough rc
    ∧ logger rc' = logger rc.
Proof.
  induction ids as [|id ids IH]; intros rc; simpl.
  - exists rc. by rewrite app_nil_r.
  - run. match goal with |- context [closeAndDelete ids ?s] =>
           destruct (IH s) as (rc' & -> & Hs & Ht & Hc & Hd & Hf & Hp & Hl) end.
    exists rc'. split; [done|]. simpl in *.
    rewrite Hs, Ht, <- app_assoc. done.
Qed.

Lemma lookup_foldl_delete (ids : list SubscriptionID) :
  ∀ (m : gmap SubscriptionID subAndCB) k,
  foldl (λ m id, delete id m) m ids !! k
  = if decide (k ∈ ids) then None else m !! k.
Proof.
  induction ids as [|id ids IH]; intros m k.
  - destruct (decide (k ∈ [])) as [Hin|_]; [|done]. by apply elem_of_nil in Hin.
  - cbn [foldl]. rewrite IH.
    destruct (decide (k ∈ ids)) as [Hin|Hnin], (decide (k ∈ id :: ids)) as [Hin'|Hnin'];
      try done.
    + exfalso. apply Hnin'. by right.
    + apply elem_of_cons in Hin' as [->|?]; [|done]. by rewrite lookup_delete_eq.
    + rewrite lookup_delete_ne; [done|]. intros ->. apply Hnin'. by left.
Qed.

Lemma closedIds_closes ids : closedIds (EvSubClose <$> ids) = ids.
Proof. induction ids as [|i l IH]; [done|]. simpl. f_equal. exact IH. Qed.

Lemma unsubscribeAll_run rc :
  ∃ rc', unsubscribeAll rc = Some ((), rc')
    ∧ subAndCBByID rc' = ∅
    ∧ trace rc' = trace rc ++ (EvSubClose <$> (map_to_list (subAndCBByID rc)).*1)
    ∧ client rc' = client rc
    ∧ rawDecoder rc' = rawDecoder rc
    ∧ latestFrame rc' = latestFrame rc
    ∧ rtpH264Passthrough rc' = rtpH264Passthrough rc
    ∧ logger rc' = logger rc.
Proof.
  unfold unsubscribeAll. run.
  destruct (closeAndDelete_run ((map_to_list (subAndCBByID rc)).*1) rc)
    as (rc' & Hrun & Hs & Ht & Hrest).
  exists rc'. split; [exact Hrun|]. split; [|done].
  rewrite Hs. apply map_eq. intros k. rewrite lookup_foldl_delete, lookup_empty.
  case_decide as Hin; [done|].
  destruct (subAndCBByID rc !! k) as [sc|] eqn:E; [|done].
  exfalso. apply Hin. apply list_elem_of_fmap. exists (k, sc). split; [done|].
  by apply elem_of_map_to_list.
Qed.

(** X15.  [unsubscribeAll] leaves the registry empty and closes every
    registered subscription exactly once, and nothing but these; client,
    decoder and frame slot are not touched. *)
Theorem unsubscribeAll_empties_registry (rc : rtspCamera) :
  ∃ rc' evs, unsubscribeAll rc = Some ((), rc')
    ∧ subAndCBByID rc' = ∅
    ∧ trace rc' = trace rc ++ evs
    ∧ length evs = size (subAndCBByID rc)
    ∧ NoDup (closedIds evs)
    ∧ (∀ id, id ∈ closedIds evs ↔ id ∈ dom (subAndCBByID rc))
    ∧ length (closedIds evs) = length evs
    ∧ client rc' = client rc
    ∧ rawDecoder rc' = rawDecoder rc
    ∧ latestFrame rc' = latestFrame rc.
Proof.
  destruct (unsubscribeAll_run rc) as (rc' & Hrun & Hs & Ht & Hc & Hd & Hf & _).
  exists rc', (EvSubClose <$> (map_to_list (subAndCBByID rc)).*1).
  rewrite closedIds_closes, !length_fmap, length_map_to_list.
  split_and?; try done.
  - apply NoDup_fst_map_to_list.
  - intros id. rewrite elem_of_dom, list_elem_of_fmap. split.
    + intros ([k sc] & -> & Hin). apply elem_of_map_to_list in Hin. eauto.
    + intros [sc Hsc]. exists (id, sc). split; [done|]. by apply elem_of_map_to_list.
Qed.

(** ** What a subscriber's closure keeps *)

Lemma encodeAndCall_step s tunit au r s' :
  encodeAndCall s tunit au = Some (r, s') →
  firstReceived s' = true
  ∧ lastPTS s' = PTS tunit
  ∧ (calls s' = calls s ∨ ∃ batch, batch ≠ [] ∧ calls s' = calls s ++ [batch]).
Proof.
  unfold encodeAndCall. destruct (Encode (encoder s) au) as [enc' [err|pkts]]; simpl.
  - intros [= <- <-]. simpl. eauto.
  - case_bool_decide as Hlen.
    + intros [= <- <-]. simpl. eauto.
    + destruct (RTPPackets tunit) as [|first rest]; [done|]. intros [= <- <-]. simpl.
      split; [done|]. split; [done|]. right. eexists. split; [|done].
      destruct pkts; [done|]. done.
Qed.

Lemma unitSubscriberFunc_step s u r s' :
  unitSubscriberFunc s u = Some (r, s') →
  (firstReceived s = true → firstReceived s' = true ∧ lastPTS s ≤ lastPTS s')
  ∧ (calls s' = calls s ∨ ∃ batch, batch ≠ [] ∧ calls s' = calls s ++ [batch]).
Proof.
  unfold unitSubscriberFunc. destruct u as [tunit|kind].
  2: { intros [= <- <-]. split; [|eauto]. intros ->. split; [done|lia]. }
  destruct (AU tunit) as [au|].
  2: { intros [= <- <-]. split; [|eauto]. intros ->. split; [done|lia]. }
  destruct (firstReceived s) eqn:Hfirst; simpl.
  - case_bool_decide as Hlow.
    + intros [= <- <-]. split; [|eauto]. intros _. split; [done|lia].
    + intros (Hf & Hl & Hc)%encodeAndCall_step. split; [|done].
      intros _. split; [done|]. lia.
  - intros (Hf & Hl & Hc)%encodeAndCall_step. split; [done|done].
Qed.

(** X17.  The timestamp a closure compares against never goes down: over
    any sequence of units, of any kind and in any order, once a unit has
    been accepted the closure stays in that state and its last accepted
    timestamp only grows or stays. *)
Theorem runUnits_timestamps_never_decrease
    (us : list Unit) (s s' : Subscriber) (rs : list (option Error)) :
  firstReceived s = true →
  runUnits s us = Some (rs, s') →
  firstReceived s' = true ∧ lastPTS s ≤ lastPTS s'.
Proof.
  revert s rs. induction us as [|u us IH]; intros s rs Hfirst; simpl.
  - intros [= _ <-]. split; [done|lia].
  - destruct (unitSubscriberFunc s u) as [[r s1]|] eqn:E; [|done].
    destruct (runUnits s1 us) as [[rs1 s2]|] eqn:E2; [|done].
    intros [= _ <-].
    apply unitSubscriberFunc_step in E as [Hmono _].
    destruct (Hmono Hfirst) as [Hf1 Hle1].
    destruct (IH s1 rs1 Hf1 E2) as [Hf2 Hle2]. split; [done|lia].
Qed.

(** X18.  The callback of a subscriber is never called with an empty
    batch of packets, and at most once per unit: over any sequence of
    units the recorded invocations only grow, by at most one non-empty
    batch per unit. *)
Theorem runUnits_batches_non_empty
    (us : list Unit) (s s' : Subscriber) (rs : list (option Error)) :
  runUnits s us = Some (rs, s') →
  ∃ batches, calls s' = calls s ++ batches
    ∧ batchesNonEmpty batches
    ∧ (length batches ≤ length us)%nat.
Proof.
  revert s rs. induction us as [|u us IH]; intros s rs; simpl.
  - intros [= _ <-]. exists []. rewrite app_nil_r. split; [done|]. split; [constructor|done].
  - destruct (unitSubscriberFunc s u) as [[r s1]|] eqn:E; [|done].
    destruct (runUnits s1 us) as [[rs1 s2]|] eqn:E2; [|done].
    intros [= _ <-].
    apply unitSubscriberFunc_step in E as [_ Hcalls].
    destruct (IH s1 rs1 E2) as (batches & Hc & Hne & Hlen).
    destruct Hcalls as [Hsame|(batch & Hb & Hadd)].
    + exists batches. rewrite Hc, Hsame. split; [done|]. split; [done|lia].
    + exists (batch :: batches). rewrite Hc, Hadd, <- app_assoc.
      split; [done|]. split; [by constructor|simpl; lia].
Qed.

(** X19.  A unit that passes the ordering check but fails in the encoder
    is dropped without an error and without a call of the callback, yet
    it counts as accepted: its timestamp becomes the one to compare
    against, so a later unit with a lower timestamp is rejected. *)
Theorem encode_failure_still_counts_as_accepted
    (s : Subscriber) (tunit : H264Unit) (au : AccessUnit) (err : Error) :
  AU tunit = Some au →
  (firstReceived s = true → lastPTS s ≤ PTS tunit) →
  (Encode (encoder s) au).2 = inl err →
  ∃ s', unitSubscriberFunc s (UnitH264 tunit) = Some (None, s')
    ∧ calls s' = calls s
    ∧ firstReceived s' = true
    ∧ lastPTS s' = PTS tunit
    ∧ ∀ next auNext, AU next = Some auNext → PTS next < PTS tunit →
        unitSubscriberFunc s' (UnitH264 next) = Some (Some ErrBFrames, s').
Proof.
  intros Hau Hord Henc.
  assert (unitSubscriberFunc s (UnitH264 tunit) = encodeAndCall s tunit au) as ->.
  { unfold unitSubscriberFunc. rewrite Hau.
    destruct (firstReceived s); simpl; [|done].
    rewrite bool_decide_eq_false_2; [done|]. specialize (Hord eq_refl). lia. }
  unfold encodeAndCall. destruct (Encode (encoder s) au) as [enc' r].
  simpl in Henc. subst r. eexists. split; [reflexivity|]. simpl.
  do 3 (split; [done|]).
  intros next auNext HauN Hlow. unfold unitSubscriberFunc. rewrite HauN. simpl.
  by rewrite bool_decide_eq_true_2.
Qed.

(** ** The reconnect worker and the constructor *)

(** After [reconnectClient] the camera has either a freshly built handler
    and a decoder, or no handler and no decoder. *)
Lemma reconnectClient_outcomes a rc :
  ∃ r rc', reconnectClient a rc = Some (r, rc')
    ∧ subAndCBByID rc' = subAndCBByID rc
    ∧ latestFrame rc' = latestFrame rc
    ∧ rtpH264Passthrough rc' = rtpH264Passthrough rc
    ∧ match r with
      | None =>
          ∃ c h, client rc' = Some c ∧ handler c = Some h
                 ∧ freshHandler (rtpH264Passthrough rc) h
                 ∧ is_Some (rawDecoder rc')
      | Some _ => client rc' ≫= handler = None ∧ rawDecoder rc' = None
      end.
Proof.
  unfold reconnectClient. rewrite bind_run.
  destruct (closeConnection_closing rc)
    as (rc0 & -> & Hc0 & Hd0 & Hf0 & Hp0 & Hs0 & _). run.
  destruct (Start a) as [e|]; run.
  { eexists (Some e), _. split; [reflexivity|]. done. }
  match goal with |- context [connect a ?s] =>
    destruct (connect_run a s _ eq_refl)
      as (err & rc1 & -> & Hf1 & Hp1 & Hs1 & _ & _ & Hok) end.
  simpl in *. destruct err as [e|]; simpl; run.
  - destruct (closeConnection_closing rc1)
      as (rc2 & -> & Hc2 & Hd2 & Hf2 & Hp2 & Hs2 & _).
    exists (Some e), rc2. split; [done|].
    rewrite Hs2, Hs1, Hf2, Hf1, Hp2, Hp1, Hc2. done.
  - exists None, rc1. split; [done|]. rewrite Hs1, Hf1, Hp1.
    do 3 (split; [done|]).
    destruct (Hok eq_refl) as (h & Hc1 & Hh & Hd1). rewrite Hp0 in Hh. eauto 10.
Qed.

(** X20.  A tick of the reconnect worker leaves the camera exactly as it
    is when there is a client and the probe shows no fault: no error or an
    error that is, and wraps, none of the four connection errors; no
    response or a response with status 200.  In particular an error of
    another kind without a response does not start a reconnection. *)
Theorem workerTick_healthy_probe_is_noop
    (probe : Probe) (a : Answers) (rc : rtspCamera) (c : Client) :
  client rc = Some c →
  (∀ err, probeErr probe = Some err →
     (ErrClientTerminated ∉ err) ∧ (ErrEOF ∉ err)
     ∧ (ErrEPIPE ∉ err) ∧ (ErrECONNREFUSED ∉ err)) →
  (∀ status, probeRes probe = Some status → status = StatusOK) →
  workerTick probe a rc = Some ((), rc).
Proof.
  intros Hc Herr Hres. unfold workerTick. run. rewrite Hc.
  assert (match probeErr probe with
          | Some err =>
              errorsIs err ErrClientTerminated || errorsIs err ErrEOF
              || errorsIs err ErrEPIPE || errorsIs err ErrECONNREFUSED
          | None => false
          end = false) as ->.
  { destruct (probeErr probe) as [err|]; [|done].
    destruct (Herr err eq_refl) as (H1 & H2 & H3 & H4). unfold errorsIs.
    by rewrite !bool_decide_eq_false_2. }
  destruct (probeRes probe) as [status|]; [|done].
  rewrite (Hres status eq_refl). done.
Qed.

Lemma workerTick_run probe a rc :
  ∃ rc', workerTick probe a rc = Some ((), rc')
    ∧ subAndCBByID rc' = subAndCBByID rc
    ∧ latestFrame rc' = latestFrame rc
    ∧ rtpH264Passthrough rc' = rtpH264Passthrough rc
    ∧ (unhealthy rc probe →
       (∃ c h, client rc' = Some c ∧ handler c = Some h
               ∧ freshHandler (rtpH264Passthrough rc) h
               ∧ is_Some (rawDecoder rc'))
       ∨ (client rc' ≫= handler = None ∧ rawDecoder rc' = None)).
Proof.
  assert (∀ rc0, subAndCBByID rc0 = subAndCBByID rc →
            latestFrame rc0 = latestFrame rc →
            rtpH264Passthrough rc0 = rtpH264Passthrough rc →
            ∃ rc', (err ← reconnectClient a;
                    match err with
                    | Some _ => log Warn "cannot reconnect to rtsp server"
                    | None => log Info "reconnected to rtsp server"
                    end) rc0 = Some ((), rc')
              ∧ subAndCBByID rc' = subAndCBByID rc
              ∧ latestFrame rc' = latestFrame rc
              ∧ rtpH264Passthrough rc' = rtpH264Passthrough rc
              ∧ ((∃ c h, client rc' = Some c ∧ handler c = Some h
                         ∧ freshHandler (rtpH264Passthrough rc) h
                         ∧ is_Some (rawDecoder rc'))
                 ∨ (client rc' ≫= handler = None ∧ rawDecoder rc' = None)))
    as Hreconnect.
  { intros rc0 Hs0 Hf0 Hp0. rewrite bind_run.
    destruct (reconnectClient_outcomes a rc0) as (r & rc1 & -> & Hs & Hf & Hp & Hr).
    rewrite Hp0 in Hr.
    destruct r as [e|]; run; eexists; (split; [reflexivity|]); simpl;
      rewrite Hs, Hf, Hp; (do 3 (split; [done|])); [right|left]; done. }
  unfold workerTick. run. destruct (client rc) as [c|] eqn:Hc.
  2: { run. destruct (Hreconnect rc) as (rc' & Hrun & Hs & Hf & Hp & Hout); try done.
       exists rc'. rewrite bind_run in Hrun. split; [exact Hrun|]. done. }
  destruct (match probeErr probe with
            | Some err =>
                errorsIs err ErrClientTerminated || errorsIs err ErrEOF
                || errorsIs err ErrEPIPE || errorsIs err ErrECONNREFUSED
            | None => false
            end) eqn:Hconn.
  { run.
    match goal with |- context [reconnectClient a ?s] =>
      destruct (Hreconnect s) as (rc' & Hrun & Hs & Hf & Hp & Hout); try done end.
    exists rc'. rewrite bind_run in Hrun. split; [exact Hrun|]. done. }
  assert (∀ err kind, probeErr probe = Some err → kind ∈ err →
            kind ∈ [ErrClientTerminated; ErrEOF; ErrEPIPE; ErrECONNREFUSED] → False)
    as Hclean.
  { intros err kind He Hin Hkind. rewrite He in Hconn. unfold errorsIs in Hconn.
    apply orb_false_elim in Hconn as [Hconn H4].
    apply orb_false_elim in Hconn as [Hconn H3].
    apply orb_false_elim in Hconn as [H1 H2].
    apply bool_decide_eq_false in H1, H2, H3, H4.
    repeat (apply elem_of_cons in Hkind as [->|Hkind]; [done|]).
    by apply elem_of_nil in Hkind. }
  destruct (probeRes probe) as [status|] eqn:Hres.
  - case_bool_decide as Hstatus.
    + run.
      match goal with |- context [reconnectClient a ?s] =>
        destruct (Hreconnect s) as (rc' & Hrun & Hs & Hf & Hp & Hout); try done end.
      exists rc'. rewrite bind_run in Hrun. split; [exact Hrun|]. done.
    + run. exists rc. split; [done|]. do 3 (split; [done|]).
      intros [Hnone|[(err & kind & He & Hin & Hkind)|(st & Hst & Hne)]].
      * congruence.
      * exfalso. by apply (Hclean err kind).
      * exfalso. rewrite Hres in Hst. injection Hst as <-. done.
  - run. exists rc. split; [done|]. do 3 (split; [done|]).
    intros [Hnone|[(err & kind & He & Hin & Hkind)|(st & Hst & Hne)]].
    + congruence.
    + exfalso. by apply (Hclean err kind).
    + congruence.
Qed.

(** X21.  A tick on a camera whose probe calls for a reconnection never
    keeps the old pipeline: afterwards the camera has either a freshly
    built handler (for H.264 with the keyframe gate closed again) and a
    decoder, or no handler and no decoder. *)
Theorem workerTick_unhealthy_rebuilds_or_tears_down
    (probe : Probe) (a : Answers) (rc : rtspCamera) :
  unhealthy rc probe →
  ∃ rc', workerTick probe a rc = Some ((), rc')
    ∧ ((∃ c h, client rc' = Some c ∧ handler c = Some h
               ∧ freshHandler (rtpH264Passthrough rc) h
               ∧ is_Some (rawDecoder rc'))
       ∨ (client rc' ≫= handler = None ∧ rawDecoder rc' = None)).
Proof.
  intros Hbad.
  destruct (workerTick_run probe a rc) as (rc' & Hrun & _ & _ & _ & Hout).
  exists rc'. split; [done|]. by apply Hout.
Qed.

(** X22.  The reconnect worker never panics and, over any number of
    ticks with any probes and any outcomes of the reconnections, keeps the
    subscription registry, the frame slot and the passthrough flag as
    they are. *)
Theorem clientReconnectBackgroundWorker_keeps_registry_and_frame
    (ticks : list (Probe * Answers)) (rc : rtspCamera) :
  ∃ rc', clientReconnectBackgroundWorker ticks rc = Some ((), rc')
    ∧ subAndCBByID rc' = subAndCBByID rc
    ∧ latestFrame rc' = latestFrame rc
    ∧ rtpH264Passthrough rc' = rtpH264Passthrough rc.
Proof.
  revert rc. induction ticks as [|[probe a] ticks IH]; intros rc.
  - by exists rc.
  - destruct (workerTick_run probe a rc) as (rc1 & Hrun & Hs & Hf & Hp & _).
    destruct (IH rc1) as (rc' & Hrest & Hs' & Hf' & Hp').
    exists rc'. cbn [clientReconnectBackgroundWorker]. rewrite bind_run, Hrun.
    split; [exact Hrest|]. by rewrite Hs', Hf', Hp'.
Qed.

Lemma workerTick_without_client probe a rc :
  client rc = None →
  workerTick probe a rc
  = (err ← reconnectClient a;
     match err with
     | Some _ => log Warn "cannot reconnect to rtsp server"
     | None => log Info "reconnected to rtsp server"
     end) rc.
Proof. intros Hc. unfold workerTick. rewrite bind_run. unfold gets. by rewrite Hc. Qed.

Lemma tickAt_run inflight point rc :
  ∃ rc', tickAt inflight point rc = Some ((), rc')
    ∧ subAndCBByID rc' = subAndCBByID rc
    ∧ latestFrame rc' = latestFrame rc
    ∧ rtpH264Passthrough rc' = rtpH264Passthrough rc
    ∧ (tickPoint <$> inflight ≠ Some point → rc' = rc).
Proof.
  unfold tickAt. destruct inflight as [t|]; simpl.
  - case_bool_decide as Hp.
    + destruct (workerTick_run (tickProbe t) (tickAnswers t) rc)
        as (rc' & Hrun & Hs & Hf & Hflag & _).
      exists rc'. split_and?; try done. intros Hne. by rewrite Hp in Hne.
    + exists rc. done.
  - exists rc. done.
Qed.

Lemma Close_without_tick rc :
  ∃ rc', Close None rc = Some ((), rc')
    ∧ subAndCBByID rc' = ∅
    ∧ client rc' = None
    ∧ rawDecoder rc' = None
    ∧ latestFrame rc' = latestFrame rc
    ∧ rtpH264Passthrough rc' = rtpH264Passthrough rc
    ∧ trace rc' = trace rc
                  ++ (EvSubClose <$> (map_to_list (subAndCBByID rc)).*1)
                  ++ closing rc.
Proof.
  unfold Close, tickAt. rewrite !bind_run, ret_run, bind_run.
  destruct (unsubscribeAll_run rc) as (rc1 & -> & Hs1 & Ht1 & Hc1 & Hd1 & Hf1 & Hp1 & _).
  rewrite !bind_run, ret_run, bind_run.
  destruct (closeConnection_closing rc1)
    as (rc2 & -> & Hc2 & Hd2 & Hf2 & Hp2 & Hs2 & _ & Ht2 & _).
  rewrite ret_run. exists rc2. split; [done|].
  rewrite Hs2, Hf2, Hf1, Hp2, Hp1, Ht2, Ht1. unfold closing at 1. rewrite Hc1, Hd1.
  rewrite <- app_assoc. done.
Qed.

(** X16.  [Close] leaves the registry empty and the last frame in the
    slot, whatever the worker does meanwhile.  With no tick of the worker
    in progress, or with one that ends before [closeConnection], it leaves
    neither client nor decoder; with none in progress it closes the
    subscriptions before the client and the decoder, and a second [Close]
    changes nothing.  A tick that runs after [closeConnection], while
    [Close] waits for the worker, finds no client and reconnects: when
    that reconnection succeeds, [Close] returns with a live client and
    decoder.  A later [Close], the worker being gone, closes them. *)
Theorem Close_and_the_tick_in_progress (inflight : option InFlight) (rc : rtspCamera) :
  ∃ rc', Close inflight rc = Some ((), rc')
    ∧ subAndCBByID rc' = ∅
    ∧ latestFrame rc' = latestFrame rc
    ∧ (tickPoint <$> inflight ≠ Some TickDuringWait →
       client rc' = None ∧ rawDecoder rc' = None)
    ∧ (inflight = None →
       trace rc' = trace rc
                   ++ (EvSubClose <$> (map_to_list (subAndCBByID rc)).*1)
                   ++ closing rc
       ∧ Close None rc' = Some ((), rc'))
    ∧ (∀ t rc0 rc1,
         inflight = Some t → tickPoint t = TickDuringWait →
         Close None rc = Some ((), rc0) →
         reconnectClient (tickAnswers t) rc0 = Some (None, rc1) →
         is_Some (client rc') ∧ is_Some (rawDecoder rc'))
    ∧ ∃ rc'', Close None rc' = Some ((), rc'')
        ∧ subAndCBByID rc'' = ∅
        ∧ client rc'' = None
        ∧ rawDecoder rc'' = None
        ∧ latestFrame rc'' = latestFrame rc.
Proof.
  assert (∀ rc0, subAndCBByID rc0 = ∅ → client rc0 = None → rawDecoder rc0 = None →
            Close None rc0 = Some ((), rc0)) as Hidle.
  { intros rc0 Hs0 Hc0 Hd0. unfold Close, tickAt.
    rewrite !bind_run, ret_run, bind_run. unfold unsubscribeAll. run.
    rewrite Hs0, map_to_list_empty. run.
    destruct (closeConnection_closing rc0) as (rc3 & -> & _ & _ & _ & _ & _ & _ & _ & Hid).
    by rewrite (Hid Hc0 Hd0). }
  unfold Close. rewrite bind_run.
  destruct (tickAt_run inflight TickBeforeUnsubscribe rc)
    as (rcA & -> & HsA & HfA & _ & HidA).
  rewrite bind_run.
  destruct (unsubscribeAll_run rcA) as (rcB & HrunB & HsB & HtB & HcB & HdB & HfB & _).
  rewrite HrunB, bind_run.
  destruct (tickAt_run inflight TickBeforeCloseConnection rcB)
    as (rcC & -> & HsC & HfC & _ & HidC).
  rewrite bind_run.
  destruct (closeConnection_closing rcC)
    as (rcD & HrunD & HcD & HdD & HfD & _ & HsD & _ & HtD & _).
  rewrite HrunD.
  destruct (tickAt_run inflight TickDuringWait rcD)
    as (rcE & HrunE & HsE & HfE & _ & HidE).
  exists rcE. split; [exact HrunE|].
  assert (subAndCBByID rcE = ∅) as Hs by (by rewrite HsE, HsD, HsC, HsB).
  assert (latestFrame rcE = latestFrame rc) as Hf
    by (by rewrite HfE, HfD, HfC, HfB, HfA).
  split; [exact Hs|]. split; [exact Hf|]. split; [|split; [|split]].
  - intros Hne. rewrite (HidE Hne). done.
  - intros ->.
    assert (rcA = rc) as -> by (by apply HidA).
    assert (rcC = rcB) as -> by (by apply HidC).
    assert (rcE = rcD) as -> by (by apply HidE).
    split; [|by apply Hidle].
    rewrite HtD, HtB. unfold closing at 1. rewrite HcB, HdB.
    by rewrite <- app_assoc.
  - intros t rc0 rc1 -> Hpoint Hclose Hre.
    assert (rcA = rc) as -> by (apply HidA; simpl; congruence).
    assert (rcC = rcB) as -> by (apply HidC; simpl; congruence).
    assert (rc0 = rcD) as ->.
    { revert Hclose. unfold Close, tickAt.
      rewrite !bind_run, ret_run, bind_run, HrunB.
      rewrite !bind_run, ret_run, bind_run, HrunD, ret_run.
      by intros [= <-]. }
    revert HrunE. unfold tickAt. rewrite bool_decide_eq_true_2 by done.
    rewrite (workerTick_without_client _ _ rcD HcD), bind_run, Hre.
    unfold log, modify. intros [= <-]. simpl.
    destruct (reconnectClient_success _ _ _ Hre) as (c & h & Hc & _ & _ & Hd).
    rewrite Hc. split; [by eexists|exact Hd].
  - destruct (Close_without_tick rcE) as (rc2 & Hrun2 & Hs2 & Hc2 & Hd2 & Hf2 & _).
    exists rc2. split_and?; try done. by rewrite Hf2.
Qed.

(** X23.  [newRTSPCamera] returns a camera only when the address parses,
    the first connection succeeds and the video source is created.  That
    camera has the passthrough flag of the configuration, no
    subscription and no frame (the reader answers "no frame yet"), a
    client with a freshly built handler, and a decoder. *)
Theorem newRTSPCamera_returns_connected_camera
    (ParseURL : option Error) (RTPPassthrough : bool) (a : Answers)
    (NewVideoSource : option Error) (rc : rtspCamera) :
  newRTSPCamera ParseURL RTPPassthrough a NewVideoSource = Some (inr rc) →
  ParseURL = None
  ∧ NewVideoSource = None
  ∧ rtpH264Passthrough rc = RTPPassthrough
  ∧ subAndCBByID rc = ∅
  ∧ VideoReader rc = ErrNoFrameYet
  ∧ ∃ c h, client rc = Some c ∧ handler c = Some h
           ∧ freshHandler RTPPassthrough h
           ∧ is_Some (rawDecoder rc).
Proof.
  unfold newRTSPCamera. destruct ParseURL as [e|]; [done|].
  destruct (reconnectClient_outcomes a (mkCamera None None None [] RTPPassthrough ∅ []))
    as (r & rc1 & -> & Hs & Hf & Hp & Hr).
  destruct r as [e|]; [done|]. destruct NewVideoSource as [e|]; [done|].
  intros [= <-]. unfold VideoReader. rewrite Hf, Hs, Hp. simpl. done.
Qed.

(** ** The log of the H.264 pipeline *)

Lemma countLog_app entry l1 l2 :
  countLog entry (l1 ++ l2) = (countLog entry l1 + countLog entry l2)%nat.
Proof. unfold countLog. by rewrite filter_app, length_app. Qed.

Lemma decodeNALUs_log msg au : ∀ rc rc',
  decodeNALUs msg au rc = Some ((), rc') →
  logger rc' = logger rc ∨ logger rc' = logger rc ++ [(Err, msg)].
Proof.
  induction au as [|nalu rest IH]; intros rc rc'; simpl.
  - run. intros [= <-]. by left.
  - unfold decode. run. destruct (rawDecoder rc) as [d|]; [|done].
    destruct (rawDecode d nalu) as [d' [err|[img|]]]; run.
    + intros [= <-]. by right.
    + intros H. by apply IH in H.
    + intros H. by apply IH in H.
Qed.

Lemma storeImage_log p pkt rc p' rc' :
  storeImage p pkt rc = Some (p', rc') →
  ∃ new, logger rc' = logger rc ++ new
    ∧ (countLog (Debug, "waiting for I-frame") new + waitBudget p' ≤ waitBudget p)%nat
    ∧ (countLog (Debug, "got I-frame") new + gotBudget p' ≤ gotBudget p)%nat.
Proof.
  unfold storeImage, waitBudget, gotBudget. run.
  destruct (rtpDecode264 (rtpDec p) pkt) as [d' [err|au]]; run.
  { destruct (benign err); run; intros [= <- <-]; simpl.
    - exists []. rewrite app_nil_r. split; [done|]. simpl. split; lia.
    - eexists. split; [done|]. simpl. split; lia. }
  destruct (iFrameReceived p) eqn:Hg; simpl.
  - rewrite bind_run.
    match goal with |- context [decodeNALUs ?m ?a ?s] =>
      destruct (decodeNALUs m a s) as [[[] rc1]|] eqn:E; [|done];
      apply decodeNALUs_log in E end.
    run. intros [= <- <-]. simpl in *.
    destruct E as [->| ->]; [exists []; rewrite app_nil_r|eexists];
      (split; [done|]); simpl; split; lia.
  - destruct (IDRPresent au); simpl.
    + rewrite !bind_run. run.
      match goal with |- context [decodeNALUs ?m ?a ?s] =>
        destruct (decodeNALUs m a s) as [[[] rc1]|] eqn:E; [|done];
        apply decodeNALUs_log in E end.
      run. intros [= <- <-]. simpl in *.
      destruct E as [->| ->]; rewrite <- ?app_assoc; (eexists; split; [done|]);
        simpl; destruct (waitingForIframeLogged p); simpl; split; lia.
    + destruct (waitingForIframeLogged p) eqn:Hw; run; intros [= <- <-]; simpl.
      * exists []. rewrite app_nil_r. split; [done|]. simpl. split; lia.
      * eexists. split; [done|]. simpl. split; lia.
Qed.

(** X24.  Over the whole life of an H.264 pipeline without passthrough,
    whatever packets arrive, "waiting for I-frame" is logged at most once
    and "got I-frame" at most once; neither is logged again once the
    closure has noted it. *)
Theorem waiting_for_keyframe_logged_once
    (pkts : list Packet) (p : H264Pipeline) (rc rc' : rtspCamera) (h' : Handler) :
  feed (HandleH264 p None) pkts rc = Some (h', rc') →
  ∃ new, logger rc' = logger rc ++ new
    ∧ (countLog (Debug, "waiting for I-frame") new ≤ waitBudget p)%nat
    ∧ (countLog (Debug, "got I-frame") new ≤ gotBudget p)%nat
    ∧ (waitBudget p ≤ 1)%nat ∧ (gotBudget p ≤ 1)%nat.
Proof.
  assert (∀ q, (waitBudget q ≤ 1)%nat ∧ (gotBudget q ≤ 1)%nat) as Hbound.
  { intros q. unfold waitBudget, gotBudget.
    destruct (iFrameReceived q), (waitingForIframeLogged q); simpl; lia. }
  revert p rc. induction pkts as [|pkt l IH]; intros p rc; cbn [feed].
  - intros [= _ <-]. exists []. rewrite app_nil_r.
    destruct (Hbound p). split_and?; try done; cbn; lia.
  - simpl. rewrite !bind_run.
    destruct (storeImage p pkt rc) as [[p1 rc1]|] eqn:E; [|done]. run.
    intros Hrest. apply IH in Hrest as (new2 & Hl2 & Hw2 & Hg2 & _).
    apply storeImage_log in E as (new1 & Hl1 & Hw1 & Hg1).
    exists (new1 ++ new2). rewrite Hl2, Hl1, !countLog_app, <- app_assoc.
    destruct (Hbound p). split_and?; try done; lia.
Qed.

(** X25.  Subscriptions made before a reconnection are served after it:
    once [reconnectClient] has succeeded and installed an H.264 handler
    with passthrough, a packet for which the format processor returns a
    unit is published to exactly the subscriptions that were registered
    before the reconnection. *)
Theorem subscriptions_are_served_after_reconnect
    (a : Answers) (rc rc1 : rtspCamera) (c : Client) (p : H264Pipeline) (fp : Fp)
    (pkt : Packet) (u : Unit) :
  reconnectClient a rc = Some (None, rc1) →
  client rc1 = Some c →
  handler c = Some (HandleH264 p (Some fp)) →
  passthroughUnit c fp pkt = Some u →
  ∃ rc2, receive pkt rc1 = Some ((), rc2)
    ∧ subAndCBByID rc2 = published u <$> subAndCBByID rc
    ∧ dom (subAndCBByID rc2) = dom (subAndCBByID rc).
Proof.
  intros Hre Hc Hh Hu.
  destruct (reconnectClient_outcomes a rc) as (r & rc1' & Hrun & Hs & _ & _ & Hr).
  rewrite Hre in Hrun. injection Hrun as <- <-.
  destruct Hr as (c' & h & _ & _ & _ & [d Hd]).
  destruct (publishToWebRTC_run fp pkt rc1 c Hc)
    as (fp' & rc2 & evs & Hpub & _ & Hd2 & _ & _ & _ & Hsubs).
  rewrite Hu in Hsubs. destruct Hsubs as [Hm _].
  destruct (publishToWebRTC_client fp pkt rc1 c fp' rc2 Hc Hpub) as [td Hc2].
  destruct (storeImage_run p pkt rc2 d) as (rc3 & Hraw & Hc3 & Hs3 & _);
    [by rewrite Hd2|].
  eexists. unfold receive. rewrite !bind_run. unfold gets at 1.
  rewrite Hc. simpl. rewrite Hh. simpl. rewrite !bind_run, Hpub, bind_run, Hraw.
  run. rewrite Hc3, Hc2. split; [reflexivity|]. simpl.
  rewrite Hs3, Hm, Hs. split; [done|]. apply dom_fmap_L.
Qed.

End Proofs.

(** * Properties of the ONVIF discovery *)

Section OnvifProofs.
Import Onvif.
Context {Dev : Type} `{OnvifDevice Dev}.

Lemma streamURIs_from dev creds profiles : ∀ uris log,
  foldl (λ acc profile,
           match GetStreamUri dev profile creds with
           | inl err => (acc.1, acc.2 ++ [(Warn, errorText err)])
           | inr uri => (acc.1 ++ [urlString uri], acc.2)
           end) (uris, log) profiles
  = (uris ++ omap (streamOf dev creds) profiles,
     log ++ omap (λ profile, match GetStreamUri dev profile creds with
                             | inl err => Some (Warn, errorText err)
                             | inr _ => None
                             end) profiles).
Proof.
  induction profiles as [|profile rest IH]; intros uris log; simpl.
  - by rewrite !app_nil_r.
  - assert (streamOf dev creds profile
            = match GetStreamUri dev profile creds with
              | inl _ => None
              | inr uri => Some (urlString uri)
              end) as -> by done.
    destruct (GetStreamUri dev profile creds) as [e|uri]; simpl.
    + rewrite IH. by rewrite <- app_assoc.
    + rewrite IH. by rewrite <- app_assoc.
Qed.

Lemma streamURIs_counts dev creds (profiles : list Profile) :
  (length (omap (streamOf dev creds) profiles)
   + length (omap (λ profile, match GetStreamUri dev profile creds with
                              | inl err => Some (Warn, errorText err)
                              | inr _ => None
                              end) profiles)
   = length profiles)%nat
  ∧ Forall (λ entry : Level * string, entry.1 = Warn)
      (omap (λ profile, match GetStreamUri dev profile creds with
                        | inl err => Some (Warn, errorText err)
                        | inr _ => None
                        end) profiles).
Proof.
  induction profiles as [|profile rest [Hlen Hall]]; simpl in *;
    [split; [done|constructor]|].
  assert (streamOf dev creds profile
          = match GetStreamUri dev profile creds with
            | inl _ => None
            | inr uri => Some (urlString uri)
            end) as -> by done.
  unfold omap in Hlen, Hall.
  destruct (GetStreamUri dev profile creds) as [e|uri]; simpl.
  - split; [lia|]. by constructor.
  - split; [lia|done].
Qed.

(** X26.  Once [GetProfiles] has answered, [GetRTSPStreamURIsFromProfiles]
    does not fail: it returns the stream addresses of the profiles whose
    [GetStreamUri] succeeds, in the order of the profiles, and logs one
    warning for each profile whose call fails; with no profile the result
    is empty. *)
Theorem GetRTSPStreamURIsFromProfiles_skips_failing_profiles
    (dev : Dev) (creds : Credentials) (profiles : list Profile) :
  GetProfiles dev = inr profiles →
  ∃ uris log,
    GetRTSPStreamURIsFromProfiles dev creds = (inr uris, log)
    ∧ uris = omap (streamOf dev creds) profiles
    ∧ (length uris + length log = length profiles)%nat
    ∧ Forall (λ entry, entry.1 = Warn) log.
Proof.
  intros Hp. unfold GetRTSPStreamURIsFromProfiles, streamURIs. rewrite Hp.
  rewrite streamURIs_from. simpl. eexists _, _. split; [reflexivity|].
  split; [done|]. apply streamURIs_counts.
Qed.

Lemma GetCameraInfo_host dev xaddr cred info :
  (GetCameraInfo dev xaddr cred).1 = inr info → WSDiscoveryXAddr info = Host xaddr.
Proof.
  unfold GetCameraInfo. destruct (GetDeviceInformation dev) as [err|di]; [done|].
  destruct (GetRTSPStreamURIsFromProfiles dev cred) as [[err|uris] log]; [done|].
  simpl. by intros [= <-].
Qed.

Lemma tryCredentials_result NewDevice ctxErr xaddr creds : ∀ i0,
  (∀ i, ctxErr i = false) →
  match (tryCredentials NewDevice ctxErr xaddr i0 creds).1 with
  | inr info =>
      ∃ i cred dev,
        creds !! i = Some cred
        ∧ NewDevice xaddr cred = inr dev
        ∧ (GetCameraInfo dev xaddr cred).1 = inr info
        ∧ ∀ j cred', (j < i)%nat → creds !! j = Some cred' →
            credentialsWork NewDevice xaddr cred' = false
  | inl err =>
      err = ErrorfS "no credentials matched IP" (urlString xaddr)
      ∧ Forall (λ cred, credentialsWork NewDevice xaddr cred = false) creds
  end.
Proof.
  intros i0 Hctx. revert i0.
  induction creds as [|cred rest IH]; intros i0; simpl.
  - split; [done|constructor].
  - rewrite Hctx.
    assert (∀ r : (DiscoveryError + CameraInfo) * Log,
              r.1 = (tryCredentials NewDevice ctxErr xaddr (S i0) rest).1 →
              credentialsWork NewDevice xaddr cred = false →
              match r.1 with
              | inr info =>
                  ∃ i c dev,
                    (cred :: rest) !! i = Some c
                    ∧ NewDevice xaddr c = inr dev
                    ∧ (GetCameraInfo dev xaddr c).1 = inr info
                    ∧ ∀ j cred', (j < i)%nat → (cred :: rest) !! j = Some cred' →
                        credentialsWork NewDevice xaddr cred' = false
              | inl err =>
                  err = ErrorfS "no credentials matched IP" (urlString xaddr)
                  ∧ Forall (λ c, credentialsWork NewDevice xaddr c = false) (cred :: rest)
              end) as Hskip.
    { intros r -> Hbad. specialize (IH (S i0)).
      destruct (tryCredentials NewDevice ctxErr xaddr (S i0) rest).1 as [err|info].
      - destruct IH as [-> Hall]. split; [done|]. by constructor.
      - destruct IH as (i & c & dev & Hi & Hdev & Hinfo & Hbefore).
        exists (S i), c, dev. do 3 (split; [done|]).
        intros [|j] cred' Hlt Hj; simpl in Hj.
        + by injection Hj as <-.
        + apply (Hbefore j); [lia|done]. }
    unfold credentialsWork in Hskip at 1.
    destruct (NewDevice xaddr cred) as [err|dev] eqn:Hnew.
    { destruct (tryCredentials NewDevice ctxErr xaddr (S i0) rest) as [r log] eqn:E.
      apply (Hskip (r, _)); done. }
    destruct (GetCameraInfo dev xaddr cred) as [[err|info] infoLog] eqn:Hinfo.
    { destruct (tryCredentials NewDevice ctxErr xaddr (S i0) rest) as [r log] eqn:E.
      apply (Hskip (r, _)); done. }
    simpl. exists 0%nat, cred, dev. split; [done|]. split; [done|].
    split; [by rewrite Hinfo|]. intros j cred' Hlt. lia.
Qed.

(** X27.  With a context that is not cancelled, [DiscoverCamerasOnXAddr]
    tries the credentials in order and returns the camera information
    obtained with the first ones that open the device and read it; its
    discovery address is the host of the address asked.  It fails, with
    "no credentials matched", exactly when no credentials work; so with an
    empty list of credentials it always fails. *)
Theorem DiscoverCamerasOnXAddr_first_working_credentials
    (NewDevice : URL → Credentials → DiscoveryError + Dev) (ctxErr : nat → bool)
    (xaddr : URL) (creds : list Credentials) :
  (∀ i, ctxErr i = false) →
  match (DiscoverCamerasOnXAddr NewDevice ctxErr xaddr creds).1 with
  | inr info =>
      WSDiscoveryXAddr info = Host xaddr
      ∧ ∃ i cred dev,
          creds !! i = Some cred
          ∧ NewDevice xaddr cred = inr dev
          ∧ (GetCameraInfo dev xaddr cred).1 = inr info
          ∧ ∀ j cred', (j < i)%nat → creds !! j = Some cred' →
              credentialsWork NewDevice xaddr cred' = false
  | inl err =>
      err = ErrorfS "no credentials matched IP" (urlString xaddr)
      ∧ Forall (λ cred, credentialsWork NewDevice xaddr cred = false) creds
  end.
Proof.
  intros Hctx. unfold DiscoverCamerasOnXAddr.
  pose proof (tryCredentials_result NewDevice ctxErr xaddr creds 0 Hctx) as Hres.
  destruct (tryCredentials NewDevice ctxErr xaddr 0 creds).1 as [err|info]; [done|].
  destruct Hres as (i & cred & dev & Hi & Hdev & Hinfo & Hbefore).
  split; [by eapply GetCameraInfo_host|]. by exists i, cred, dev.
Qed.

Lemma DiscoverCamerasOnXAddr_host
    (NewDevice : URL → Credentials → DiscoveryError + Dev)
    (xaddr : URL) (creds : list Credentials) info :
  (DiscoverCamerasOnXAddr NewDevice (λ _, false) xaddr creds).1 = inr info →
  WSDiscoveryXAddr info = Host xaddr.
Proof.
  unfold DiscoverCamerasOnXAddr. intros Hres.
  pose proof (tryCredentials_result NewDevice (λ _, false) xaddr creds 0
                (λ _, eq_refl)) as Hshape.
  rewrite Hres in Hshape.
  destruct Hshape as (i & cred & dev & Hi & Hdev & Hinfo & Hbefore).
  by eapply GetCameraInfo_host.
Qed.

Lemma addXAddrs_keyed (xaddrs : list URL) : ∀ m : gmap string URL,
  (∀ k v, m !! k = Some v → Host v = k) →
  ∀ k v, addXAddrs m xaddrs !! k = Some v → Host v = k.
Proof.
  unfold addXAddrs. induction xaddrs as [|x rest IH]; intros m Hm; simpl; [done|].
  apply IH. intros k v. destruct (decide (Host x = k)) as [<-|Hne].
  - rewrite lookup_insert_eq. by intros [= <-].
  - rewrite lookup_insert_ne by done. apply Hm.
Qed.

Lemma discoveredXAddrs_keyed WSDiscovery manualXAddrs ifaces k v :
  discoveredXAddrs WSDiscovery manualXAddrs ifaces !! k = Some v → Host v = k.
Proof.
  unfold discoveredXAddrs.
  assert (∀ m : gmap string URL, (∀ k v, m !! k = Some v → Host v = k) →
            ∀ k v, foldl (λ m iface,
                            match WSDiscovery iface with
                            | inl _ => m
                            | inr xaddrs => addXAddrs m xaddrs
                            end) m ifaces !! k = Some v → Host v = k) as Hfold.
  { induction ifaces as [|iface rest IH]; intros m Hm; simpl; [done|].
    apply IH. destruct (WSDiscovery iface) as [err|xaddrs]; [done|].
    by apply addXAddrs_keyed. }
  apply Hfold. apply addXAddrs_keyed. intros k' v'. by rewrite lookup_empty.
Qed.

Lemma collected_cameras (f : string * URL → DiscoveryError + CameraInfo)
    (l : list (string * URL)) : ∀ acc,
  foldl (λ cams entry, match f entry with
                       | inl _ => cams
                       | inr cam => cams ++ [cam]
                       end) acc l
  = acc ++ omap (λ entry, match f entry with
                          | inl _ => None
                          | inr cam => Some cam
                          end) l.
Proof.
  induction l as [|e l IH]; intros acc; simpl.
  - by rewrite app_nil_r.
  - rewrite IH. destruct (f e); [done|by rewrite <- app_assoc].
Qed.

Lemma omap_hosts_sublist (g : string * URL → option CameraInfo)
    (l : list (string * URL)) :
  (∀ e cam, e ∈ l → g e = Some cam → WSDiscoveryXAddr cam = e.1) →
  (WSDiscoveryXAddr <$> omap g l) `sublist_of` l.*1.
Proof.
  intros Hg. induction l as [|e l IH]; simpl; [constructor|].
  assert ((WSDiscoveryXAddr <$> omap g l) `sublist_of` l.*1) as Hrest.
  { apply IH. intros e' cam Hin. apply Hg. by right. }
  destruct (g e) as [cam|] eqn:E; simpl.
  - rewrite (Hg e cam); [by constructor|by left|done].
  - by constructor.
Qed.

(** X28.  When the interfaces can be listed, [DiscoverCameras] does not
    fail, whatever the probes and the devices answer.  It asks every
    discovered host once: the cameras returned have pairwise different
    discovery addresses, each the host of a manual or probed address, and
    there are at most as many cameras as hosts. *)
Theorem DiscoverCameras_one_camera_per_host
    (WSDiscovery : string → DiscoveryError + list URL)
    (NewDevice : URL → Credentials → DiscoveryError + Dev)
    (creds : list Credentials) (manualXAddrs : list URL) (ifaces : list string) :
  ∃ cameras,
    DiscoverCameras (inr ifaces) WSDiscovery NewDevice creds manualXAddrs = inr cameras
    ∧ NoDup (WSDiscoveryXAddr <$> cameras)
    ∧ (∀ cam, cam ∈ cameras →
         WSDiscoveryXAddr cam ∈ dom (discoveredXAddrs WSDiscovery manualXAddrs ifaces))
    ∧ (length cameras ≤ size (discoveredXAddrs WSDiscovery manualXAddrs ifaces))%nat.
Proof.
  unfold DiscoverCameras.
  set (m := discoveredXAddrs WSDiscovery manualXAddrs ifaces).
  rewrite (collected_cameras
             (λ entry, (DiscoverCamerasOnXAddr NewDevice (λ _, false) entry.2 creds).1)).
  rewrite app_nil_l.
  set (g := λ entry : string * URL,
         match (DiscoverCamerasOnXAddr NewDevice (λ _, false) entry.2 creds).1 with
         | inl _ => None
         | inr cam => Some cam
         end).
  eexists. split; [reflexivity|].
  assert ((WSDiscoveryXAddr <$> omap g (map_to_list m)) `sublist_of` (map_to_list m).*1)
    as Hsub.
  { apply omap_hosts_sublist. intros [k v] cam Hin Hg. simpl.
    apply elem_of_map_to_list in Hin.
    apply discoveredXAddrs_keyed in Hin as <-.
    unfold g in Hg. simpl in Hg.
    pose proof (DiscoverCamerasOnXAddr_host NewDevice v creds) as Hhost.
    destruct (DiscoverCamerasOnXAddr NewDevice (λ _, false) v creds).1 as [err|info];
      [done|]. injection Hg as <-. by apply Hhost. }
  split; [|split].
  - eapply sublist_NoDup; [|exact Hsub]. apply NoDup_fst_map_to_list.
  - intros cam Hcam. apply elem_of_dom.
    assert (WSDiscoveryXAddr cam ∈ (map_to_list m).*1) as Hin.
    { eapply elem_of_sublist; [|exact Hsub]. apply list_elem_of_fmap. by exists cam. }
    apply list_elem_of_fmap in Hin as ([k v] & -> & Hin). simpl.
    apply elem_of_map_to_list in Hin. by exists v.
  - apply sublist_length in Hsub. rewrite !length_fmap in Hsub.
    by rewrite length_map_to_list in Hsub.
Qed.

(** X29.  [ValidWSDiscoveryInterface] panics when one of the two address
    queries fails.  Otherwise it accepts exactly the interfaces that are
    up, multicast and not loopback; the other flags have no influence. *)
Theorem ValidWSDiscoveryInterface_flags
    (Addrs MulticastAddrs : option DiscoveryError) (Flags : Z) :
  (ValidWSDiscoveryInterface Addrs MulticastAddrs Flags = None
   ↔ is_Some Addrs ∨ is_Some MulticastAddrs)
  ∧ ValidWSDiscoveryInterface None None Flags
    = Some (Z.testbit Flags 0 && Z.testbit Flags 4 && negb (Z.testbit Flags 2))
  ∧ ∀ other,
      Z.land other (Z.lor FlagUp (Z.lor FlagMulticast FlagLoopback)) = 0 →
      ValidWSDiscoveryInterface None None (Z.lxor Flags other)
      = ValidWSDiscoveryInterface None None Flags.
Proof.
  assert (∀ f, ValidWSDiscoveryInterface None None f
               = Some (Z.testbit f 0 && Z.testbit f 4 && negb (Z.testbit f 2)))
    as Hbits.
  { intros f. unfold ValidWSDiscoveryInterface, FlagUp, FlagMulticast, FlagLoopback.
    f_equal.
    assert (∀ k, 0 ≤ k → (Z.land f (2 ^ k) =? 0) = negb (Z.testbit f k)) as Hbit.
    { intros k Hk. rewrite Z.land_comm.
      destruct (Z.testbit f k) eqn:E.
      - apply Z.eqb_neq. intros H0.
        assert (Z.testbit (Z.land (2 ^ k) f) k = false) as Hf
          by (rewrite H0; apply Z.bits_0).
        rewrite Z.land_spec, Z.pow2_bits_true, E in Hf by done. done.
      - apply Z.eqb_eq. apply Z.bits_inj'. intros n Hn.
        rewrite Z.land_spec, Z.bits_0.
        destruct (decide (n = k)) as [->|Hne].
        + by rewrite E, andb_false_r.
        + by rewrite Z.pow2_bits_false by lia. }
    change 1 with (2 ^ 0). change 16 with (2 ^ 4). change 4 with (2 ^ 2).
    rewrite !Hbit by lia. by rewrite !negb_involutive. }
  split; [|split].
  - unfold ValidWSDiscoveryInterface.
    destruct Addrs, MulticastAddrs; split; try done; try (intros _; by eauto).
    all: intros [[? [=]]|[? [=]]].
  - apply Hbits.
  - intros other Hother. rewrite !Hbits. f_equal.
    assert (∀ k, Z.testbit (Z.lor FlagUp (Z.lor FlagMulticast FlagLoopback)) k = true →
                 Z.testbit other k = false) as Hclear.
    { intros k Hk.
      assert (Z.testbit (Z.land other (Z.lor FlagUp (Z.lor FlagMulticast FlagLoopback))) k
              = false) as Hf by (rewrite Hother; apply Z.bits_0).
      rewrite Z.land_spec, Hk, andb_true_r in Hf. done. }
    rewrite !Z.lxor_spec, !Hclear by done. by rewrite !xorb_false_r.
Qed.

End OnvifProofs.

Import SingleNal.

(** * The properties on the small instance *)

(** A trailing picture of H.265 arrives first on a fresh callback: it is
    decoded and stored, though no keyframe unit has been seen. *)
Lemma initH265_stores_before_keyframe_witness :
  rawDecoder (camera false true callback265) = Some h265Decoder
  ∧ (rtpDecode265 rtpDec265_0 trailPkt).2 = inr [[0x02; 0x01]]
  ∧ isKey265 [[0x02; 0x01]] = false
  ∧ decodedImages h265Decoder [[0x02; 0x01]] ≠ []
  ∧ ∃ d' rc' evs,
      onPacketH265 rtpDec265_0 trailPkt (camera false true callback265) = Some (d', rc')
      ∧ trace rc' = trace (camera false true callback265) ++ evs
      ∧ gated isKey265 false evs = false
      ∧ latestFrame rc' = last (decodedImages h265Decoder [[0x02; 0x01]])
      ∧ is_Some (latestFrame rc').
Proof.
  split_and!; [reflexivity | reflexivity | reflexivity | discriminate |].
  apply (initH265_stores_before_keyframe isKey265 rtpDec265_0 trailPkt
           (camera false true callback265) h265Decoder [[0x02; 0x01]]);
    [reflexivity | reflexivity | reflexivity | discriminate].
Defined.

(** C2 as stated fails: with passthrough enabled the packet reaches
    [publishToWebRTC] before it reaches the raw-frame path. *)
Lemma onPacketRTP_raw_path_not_first :
  ∃ h rc',
    onPacketRTP handler264 slicePkt watched = Some (h, rc')
    ∧ handoffs (trace rc') = [(PassthroughPath, slicePkt); (RawFramePath, slicePkt)]
    ∧ handoffs (trace rc') ≠ [(RawFramePath, slicePkt); (PassthroughPath, slicePkt)].
Proof.
  eexists _, _. split; [vm_compute; reflexivity|]. split; [reflexivity|].
  vm_compute. discriminate.
Qed.

Lemma onPacketRTP_passthrough_then_raw_witness :
  client watched = Some (mkClient timeDec0 (Some handler264))
  ∧ rawDecoder watched = Some h264Decoder
  ∧ ∃ fp' rc' rcRaw,
      onPacketRTP handler264 idrPkt watched
        = Some (HandleH264 (pipelineAfter pipeline idrPkt) (Some fp'), rc')
      ∧ handoffs (trace rc')
        = handoffs (trace watched) ++ [(PassthroughPath, idrPkt); (RawFramePath, idrPkt)]
      ∧ storeImage pipeline idrPkt watched = Some (pipelineAfter pipeline idrPkt, rcRaw)
      ∧ latestFrame rc' = latestFrame rcRaw
      ∧ rawDecoder rc' = rawDecoder rcRaw.
Proof.
  split_and!; [reflexivity | reflexivity |].
  apply (onPacketRTP_passthrough_then_raw pipeline fp0 idrPkt watched
           (mkClient timeDec0 (Some handler264)) h264Decoder);
    reflexivity.
Defined.

Lemma reconnectClient_h265_with_passthrough_witness :
  rtpH264Passthrough (newCamera true) = true
  ∧ (∀ session, Describe answers265 = inr session → findH264 session = None)
  ∧ ∃ err rc0 rc',
      closeConnection (newCamera true) = Some ((), rc0)
      ∧ reconnectClient answers265 (newCamera true) = Some (Some err, rc')
      ∧ rawDecoder rc' = None
      ∧ client rc' ≫= handler = None
      ∧ (Start answers265 = None → (∃ session, Describe answers265 = inr session) →
         getStreamInfo answers265 = inr H265 →
         err = ErrH265WithPassthrough
         ∧ client rc' = None
         ∧ trace rc' = trace rc0 ++ [EvClientClose]).
Proof.
  assert (∀ session, Describe answers265 = inr session → findH264 session = None)
    as Hno by (intros session [= <-]; reflexivity).
  split_and!; [reflexivity | exact Hno |].
  apply (reconnectClient_h265_with_passthrough answers265 (newCamera true));
    [reflexivity | exact Hno].
Defined.

Lemma reconnectClient_start_failure_keeps_client_witness :
  Start answersStartFails = Some (ErrLib "dial tcp: connection refused")
  ∧ ∃ rc',
      reconnectClient answersStartFails (newCamera false)
        = Some (Some (ErrLib "dial tcp: connection refused"), rc')
      ∧ client rc' = Some (mkClient timeDec0 None)
      ∧ rawDecoder rc' = None.
Proof.
  split; [reflexivity|].
  apply (reconnectClient_start_failure_keeps_client answersStartFails
           (newCamera false) (ErrLib "dial tcp: connection refused")).
  reflexivity.
Defined.

(** C5 as stated fails: a unit without an access unit is not rejected,
    however low its timestamp. *)
Lemma unitSubscriberFunc_low_pts_not_rejected :
  firstReceived subscriber = true
  ∧ PTS (mkH264Unit None 50 [slicePkt]) < lastPTS subscriber
  ∧ unitSubscriberFunc subscriber (UnitH264 (mkH264Unit None 50 [slicePkt]))
    = Some (None, subscriber)
  ∧ fst <$> unitSubscriberFunc subscriber (UnitH264 (mkH264Unit None 50 [slicePkt]))
    ≠ Some (Some ErrBFrames).
Proof. split_and!; [reflexivity | reflexivity | reflexivity | discriminate]. Qed.

Lemma unitSubscriberFunc_rejects_decreasing_pts_witness :
  firstReceived subscriber = true
  ∧ AU (mkH264Unit (Some [[0x41]]) 50 [slicePkt]) = Some [[0x41]]
  ∧ PTS (mkH264Unit (Some [[0x41]]) 50 [slicePkt]) < lastPTS subscriber
  ∧ AU (mkH264Unit (Some [[0x65]]) 100 [idrPkt]) = Some [[0x65]]
  ∧ lastPTS subscriber ≤ PTS (mkH264Unit (Some [[0x65]]) 100 [idrPkt])
  ∧ unitSubscriberFunc subscriber (UnitH264 (mkH264Unit (Some [[0x41]]) 50 [slicePkt]))
    = Some (Some ErrBFrames, subscriber)
  ∧ runUnits subscriber [UnitH264 (mkH264Unit (Some [[0x41]]) 50 [slicePkt]);
                         UnitH264 (mkH264Unit (Some [[0x65]]) 100 [idrPkt])]
    = match encodeAndCall subscriber (mkH264Unit (Some [[0x65]]) 100 [idrPkt]) [[0x65]] with
      | Some (r, s') => Some ([Some ErrBFrames; r], s')
      | None => None
      end
  ∧ ∀ r s',
      encodeAndCall subscriber (mkH264Unit (Some [[0x65]]) 100 [idrPkt]) [[0x65]]
        = Some (r, s') →
      lastPTS s' = PTS (mkH264Unit (Some [[0x65]]) 100 [idrPkt])
      ∧ encoder s' = (Encode (encoder subscriber) [[0x65]]).1.
Proof.
  split_and!; [reflexivity | reflexivity | reflexivity | reflexivity | done |..];
    apply (unitSubscriberFunc_rejects_decreasing_pts subscriber
             (mkH264Unit (Some [[0x41]]) 50 [slicePkt])
             (mkH264Unit (Some [[0x65]]) 100 [idrPkt]) [[0x41]] [[0x65]]);
    done.
Defined.

Lemma frame_slot_waits_for_keyframe_witness :
  rawDecoder watched = Some h264Decoder
  ∧ client watched = Some (mkClient timeDec0 (Some handler264))
  ∧ latestFrame watched = None
  ∧ Forall (λ au, IDRPresent au = false) (units264 rtpDec264_0 [slicePkt; slicePkt])
  ∧ (rtpDecode264 (rtpDecAfter rtpDec264_0 [slicePkt; slicePkt]) idrPkt).2 = inr [[0x65; 0x88]]
  ∧ IDRPresent [[0x65; 0x88]] = true
  ∧ (∀ n, ∃ h rcn,
        feed (HandleH264 (mkH264Pipeline rtpDec264_0 false false) (Some fp0))
             (take n [slicePkt; slicePkt]) watched = Some (h, rcn)
        ∧ latestFrame rcn = None)
  ∧ ∃ p' fp' rc',
      feed (HandleH264 (mkH264Pipeline rtpDec264_0 false false) (Some fp0))
           ([slicePkt; slicePkt] ++ [idrPkt]) watched
        = Some (HandleH264 p' fp', rc')
      ∧ iFrameReceived p' = true
      ∧ latestFrame rc' = last (decodedImages h264Decoder [[0x65; 0x88]]).
Proof.
  assert (Forall (λ au, IDRPresent au = false) (units264 rtpDec264_0 [slicePkt; slicePkt]))
    as Hall by (repeat constructor).
  split_and!; [reflexivity | reflexivity | reflexivity | exact Hall
              | reflexivity | reflexivity |..];
    apply (frame_slot_waits_for_keyframe rtpDec264_0 (Some fp0) watched h264Decoder
             (mkClient timeDec0 (Some handler264))
             [slicePkt; slicePkt] idrPkt [[0x65; 0x88]]);
    solve [reflexivity | exact Hall].
Defined.

Lemma unitSubscriberFunc_timestamps_witness :
  AU (mkH264Unit (Some [[0x65]; [0x41]]) 150 [idrPkt; slicePkt]) = Some [[0x65]; [0x41]]
  ∧ RTPPackets (mkH264Unit (Some [[0x65]; [0x41]]) 150 [idrPkt; slicePkt])
    = idrPkt :: [slicePkt]
  ∧ (firstReceived subscriber = true →
     lastPTS subscriber ≤ PTS (mkH264Unit (Some [[0x65]; [0x41]]) 150 [idrPkt; slicePkt]))
  ∧ (Encode (encoder subscriber) [[0x65]; [0x41]]).2
    = inr [mkPacket 0 0 true [0x65]; mkPacket 1 0 true [0x41]]
  ∧ ∃ r s',
      unitSubscriberFunc subscriber
        (UnitH264 (mkH264Unit (Some [[0x65]; [0x41]]) 150 [idrPkt; slicePkt]))
        = Some (r, s')
      ∧ ∃ delivered,
          calls s' = calls subscriber ++ [delivered]
          ∧ r = packetsCB subscriber delivered
          ∧ length delivered = 2%nat
          ∧ ∀ i out pkt, delivered !! i = Some out →
              [mkPacket 0 0 true [0x65]; mkPacket 1 0 true [0x41]] !! i = Some pkt →
              Timestamp out = add32 (Timestamp pkt) (Timestamp idrPkt)
              ∧ Timestamp out = (Timestamp pkt + Timestamp idrPkt) mod 2 ^ 32
              ∧ SequenceNumber out = SequenceNumber pkt
              ∧ Marker out = Marker pkt
              ∧ Payload out = Payload pkt.
Proof.
  split_and!; [reflexivity | reflexivity | done | reflexivity |].
  apply (unitSubscriberFunc_timestamps subscriber
           (mkH264Unit (Some [[0x65]; [0x41]]) 150 [idrPkt; slicePkt])
           [[0x65]; [0x41]] idrPkt [slicePkt]
           [mkPacket 0 0 true [0x65]; mkPacket 1 0 true [0x41]]);
    done.
Defined.

(** C8 as stated fails: a unit whose access unit holds parameter sets
    only, or is empty, is rejected with the ordering error when its
    timestamp is below the last accepted one; with a higher timestamp the
    parameter sets are encoded and the callback is invoked. *)
Lemma unitSubscriberFunc_parameter_only_not_noop :
  firstReceived subscriber = true
  ∧ lastPTS subscriber = 100
  ∧ Forall (λ nalu, isSlice false nalu = false) [[0x67]; [0x68]]
  ∧ unitSubscriberFunc subscriber (UnitH264 (mkH264Unit (Some [[0x67]; [0x68]]) 50 [slicePkt]))
    = Some (Some ErrBFrames, subscriber)
  ∧ unitSubscriberFunc subscriber (UnitH264 (mkH264Unit (Some []) 50 [slicePkt]))
    = Some (Some ErrBFrames, subscriber)
  ∧ fst <$> unitSubscriberFunc subscriber
              (UnitH264 (mkH264Unit (Some [[0x67]; [0x68]]) 50 [slicePkt]))
    ≠ Some None
  ∧ ∃ s', unitSubscriberFunc subscriber
            (UnitH264 (mkH264Unit (Some [[0x67]; [0x68]]) 150 [slicePkt]))
          = Some (None, s')
      ∧ lastPTS s' = 150
      ∧ calls s' = calls subscriber
                   ++ [[mkPacket 0 9000 true [0x67]; mkPacket 1 9000 true [0x68]]].
Proof.
  split_and!; [reflexivity | reflexivity | by repeat constructor | reflexivity
              | reflexivity | discriminate |].
  eexists. split; [reflexivity|]. split; reflexivity.
Qed.

(** A unit without an access unit and timestamp 50 is a no-op; with the
    parameter sets as its access unit it is rejected; an empty access
    unit at timestamp 150 gives no packet, and 150 is then the last
    accepted timestamp. *)
Lemma unitSubscriberFunc_no_payload_witness :
  unitSubscriberFunc subscriber (UnitH264 (mkH264Unit None 50 [slicePkt]))
  = Some (None, subscriber)
  ∧ firstReceived subscriber = true
  ∧ 50 < lastPTS subscriber
  ∧ unitSubscriberFunc subscriber (UnitH264 (mkH264Unit (Some [[0x67]; [0x68]]) 50 [slicePkt]))
    = Some (Some ErrBFrames, subscriber)
  ∧ (firstReceived subscriber = true → lastPTS subscriber ≤ 150)
  ∧ (Encode (encoder subscriber) []).2 = inr []
  ∧ ∃ s', unitSubscriberFunc subscriber (UnitH264 (mkH264Unit (Some []) 150 [slicePkt]))
          = Some (None, s')
      ∧ calls s' = calls subscriber
      ∧ firstReceived s' = true
      ∧ lastPTS s' = 150.
Proof.
  assert (firstReceived subscriber = true → lastPTS subscriber ≤ 150) as Hord
    by (intros _; vm_compute; discriminate).
  split_and!.
  - apply (proj1 (unitSubscriberFunc_no_payload subscriber 50 [slicePkt] [] [])).
  - reflexivity.
  - reflexivity.
  - apply (proj1 (proj2 (proj2
             (unitSubscriberFunc_no_payload subscriber 50 [slicePkt] [] [])))
             [[0x67]; [0x68]]);
      reflexivity.
  - exact Hord.
  - reflexivity.
  - apply (proj2 (proj2 (proj2
             (unitSubscriberFunc_no_payload subscriber 150 [slicePkt] [] []))) []);
      [exact Hord | reflexivity].
Defined.

Lemma Unsubscribe_unknown_id_witness :
  subAndCBByID watched !! 8%N = None
  ∧ Unsubscribe 8%N watched = Some (Some ErrIdNotFound, watched)
  ∧ subAndCBByID watched !! 7%N = Some (mkSubAndCB subscriber (mkQueue 7%N 2 []))
  ∧ ∃ rc1, Unsubscribe 7%N watched = Some (None, rc1)
      ∧ subAndCBByID rc1 = delete 7%N (subAndCBByID watched)
      ∧ Unsubscribe 7%N rc1 = Some (Some ErrIdNotFound, rc1).
Proof.
  split_and!.
  - reflexivity.
  - apply (proj1 (Unsubscribe_unknown_id watched 8%N)). reflexivity.
  - reflexivity.
  - apply (proj2 (Unsubscribe_unknown_id watched 7%N)
             (mkSubAndCB subscriber (mkQueue 7%N 2 []))).
    reflexivity.
Defined.

Lemma publish_ignores_keyframe_gate_witness :
  client watched = Some (mkClient timeDec0 (Some handler264))
  ∧ rawDecoder watched = Some h264Decoder
  ∧ passthroughUnit (mkClient timeDec0 (Some handler264)) fp0 slicePkt
    = Some (UnitH264 (mkH264Unit (Some [[0x41; 0x9a]]) 9000 [slicePkt]))
  ∧ ∃ fp' rc',
      onPacketRTP (HandleH264 pipeline (Some fp0)) slicePkt watched
        = Some (HandleH264 (pipelineAfter pipeline slicePkt) (Some fp'), rc')
      ∧ subAndCBByID rc'
        = published (UnitH264 (mkH264Unit (Some [[0x41; 0x9a]]) 9000 [slicePkt]))
            <$> subAndCBByID watched
      ∧ (∀ id sc, subAndCBByID watched !! id = Some sc →
           EvPublish id (UnitH264 (mkH264Unit (Some [[0x41; 0x9a]]) 9000 [slicePkt]))
                     (Publish (sub sc)
                        (UnitH264 (mkH264Unit (Some [[0x41; 0x9a]]) 9000 [slicePkt]))).2
           ∈ trace rc')
      ∧ (iFrameReceived pipeline = false →
         (∀ au, (rtpDecode264 (rtpDec pipeline) slicePkt).2 = inr au →
                IDRPresent au = false) →
         iFrameReceived (pipelineAfter pipeline slicePkt) = false
         ∧ latestFrame rc' = latestFrame watched).
Proof.
  split_and!; [reflexivity | reflexivity | reflexivity |].
  apply (publish_ignores_keyframe_gate pipeline fp0 slicePkt watched
           (mkClient timeDec0 (Some handler264)) h264Decoder
           (UnitH264 (mkH264Unit (Some [[0x41; 0x9a]]) 9000 [slicePkt])));
    reflexivity.
Defined.

(** ** Further properties on the small instance *)

Import Examples.

(** A camera that was never connected is left as it is. *)
Lemma closeConnection_idempotent_witness :
  client (newCamera false) = None
  ∧ rawDecoder (newCamera false) = None
  ∧ closeConnection (newCamera false) = Some ((), newCamera false).
Proof.
  split_and!; [reflexivity | reflexivity |].
  destruct (closeConnection_idempotent (newCamera false))
    as (rc1 & Hrun & _ & _ & _ & Hsame).
  rewrite Hrun. rewrite (Hsame eq_refl eq_refl). reflexivity.
Defined.

(** The track announces no PPS: the decoder gets the SPS, and one warning
    is logged. *)
Lemma initH264_feeds_parameter_sets_witness :
  client watched = Some (mkClient timeDec0 (Some handler264))
  ∧ initH264 answersOK sessionNoPPS watched
    = Some (None, stateAfter (initH264 answersOK sessionNoPPS) watched)
  ∧ ∃ f d,
      findH264 sessionNoPPS = Some f
      ∧ newH264Decoder answersOK = inr d
      ∧ rawDecoder (stateAfter (initH264 answersOK sessionNoPPS) watched)
        = Some (fedWith (fedWith d (SPS264 f)) (PPS264 f))
      ∧ logger (stateAfter (initH264 answersOK sessionNoPPS) watched)
        = logger watched
          ++ missingWarning (SPS264 f) "no SPS found in H264 format"
          ++ missingWarning (PPS264 f) "no PPS found in H264 format"
      ∧ latestFrame (stateAfter (initH264 answersOK sessionNoPPS) watched)
        = latestFrame watched.
Proof.
  split_and!; [reflexivity | reflexivity |].
  apply (initH264_feeds_parameter_sets answersOK sessionNoPPS watched
           (stateAfter (initH264 answersOK sessionNoPPS) watched)
           (mkClient timeDec0 (Some handler264)));
    reflexivity.
Defined.

Lemma initH265_feeds_parameter_sets_witness :
  client (camera false true callback265) = Some (mkClient timeDec0 (Some callback265))
  ∧ initH265 answers265 session265 (camera false true callback265)
    = Some (None, stateAfter (initH265 answers265 session265)
                    (camera false true callback265))
  ∧ ∃ f d,
      rtpH264Passthrough (camera false true callback265) = false
      ∧ findH265 session265 = Some f
      ∧ newH265Decoder answers265 = inr d
      ∧ rawDecoder (stateAfter (initH265 answers265 session265)
                      (camera false true callback265))
        = Some (fedWith (fedWith (fedWith d (VPS265 f)) (SPS265 f)) (PPS265 f))
      ∧ logger (stateAfter (initH265 answers265 session265)
                  (camera false true callback265))
        = logger (camera false true callback265)
          ++ missingWarning (VPS265 f) "no VPS found in H265 format"
          ++ missingWarning (SPS265 f) "no SPS found in H265 format"
          ++ missingWarning (PPS265 f) "no PPS found in H265 format"
      ∧ latestFrame (stateAfter (initH265 answers265 session265)
                       (camera false true callback265))
        = latestFrame (camera false true callback265).
Proof.
  split_and!; [reflexivity | reflexivity |].
  apply (initH265_feeds_parameter_sets answers265 session265
           (camera false true callback265)
           (stateAfter (initH265 answers265 session265) (camera false true callback265))
           (mkClient timeDec0 (Some callback265)));
    reflexivity.
Defined.

Lemma reconnectClient_success_means_connected_witness :
  reconnectClient answersOK (newCamera true)
  = Some (None, stateAfter (reconnectClient answersOK) (newCamera true))
  ∧ Start answersOK = None
  ∧ Play answersOK = None
  ∧ ∃ session c,
      Describe answersOK = inr session
      ∧ client (stateAfter (reconnectClient answersOK) (newCamera true)) = Some c
      ∧ is_Some (rawDecoder (stateAfter (reconnectClient answersOK) (newCamera true)))
      ∧ ((getStreamInfo answersOK = inr H264
          ∧ ∃ f dec fp,
              findH264 session = Some f
              ∧ CreateDecoder264 answersOK f = inr dec
              ∧ handler c = Some (HandleH264 (mkH264Pipeline dec false false) fp)
              ∧ (is_Some fp ↔ rtpH264Passthrough (newCamera true) = true))
         ∨ (getStreamInfo answersOK = inr H265
            ∧ rtpH264Passthrough (newCamera true) = false
            ∧ ∃ f dec,
                findH265 session = Some f
                ∧ CreateDecoder265 answersOK f = inr dec
                ∧ handler c = Some (HandleH265 dec))).
Proof.
  split; [reflexivity|].
  apply (reconnectClient_success_means_connected answersOK (newCamera true)
           (stateAfter (reconnectClient answersOK) (newCamera true))).
  reflexivity.
Defined.

(** A keyframe and then a slice arrive: the reader returns the newest of
    the images stored. *)
Lemma VideoReader_returns_newest_stored_image_witness :
  client watched = Some (mkClient timeDec0 (Some handler264))
  ∧ handler (mkClient timeDec0 (Some handler264)) = Some handler264
  ∧ rawDecoder watched = Some h264Decoder
  ∧ ∃ rc' evs, receiveAll [idrPkt; slicePkt] watched = Some ((), rc')
      ∧ trace rc' = trace watched ++ evs
      ∧ VideoReader rc' = match last (stores evs) with
                          | Some img => Frame img
                          | None => VideoReader watched
                          end.
Proof.
  split_and!; [reflexivity | reflexivity | reflexivity |].
  apply (VideoReader_returns_newest_stored_image [idrPkt; slicePkt] watched
           (mkClient timeDec0 (Some handler264)) handler264 h264Decoder);
    reflexivity.
Defined.

Lemma receiveAll_keeps_registered_ids_witness :
  client watched = Some (mkClient timeDec0 (Some handler264))
  ∧ handler (mkClient timeDec0 (Some handler264)) = Some handler264
  ∧ rawDecoder watched = Some h264Decoder
  ∧ ∃ rc', receiveAll [idrPkt; slicePkt] watched = Some ((), rc')
      ∧ dom (subAndCBByID rc') = dom (subAndCBByID watched)
      ∧ size (subAndCBByID rc') = size (subAndCBByID watched).
Proof.
  split_and!; [reflexivity | reflexivity | reflexivity |].
  apply (receiveAll_keeps_registered_ids [idrPkt; slicePkt] watched
           (mkClient timeDec0 (Some handler264)) handler264 h264Decoder);
    reflexivity.
Defined.

(** With an open gate a slice that is no keyframe is decoded. *)
Lemma open_gate_decodes_every_unit_witness :
  iFrameReceived openPipeline = true
  ∧ client openCamera = Some (mkClient timeDec0 (Some (HandleH264 openPipeline None)))
  ∧ rawDecoder openCamera = Some h264Decoder
  ∧ ∃ fp1 rc1 p' fp' rc',
      onPacketRTP (HandleH264 openPipeline None) slicePkt openCamera
        = Some (HandleH264 (pipelineAfter openPipeline slicePkt) fp1, rc1)
      ∧ (∀ au, (rtpDecode264 (rtpDec openPipeline) slicePkt).2 = inr au →
           latestFrame rc1 = newestOf (decodedImages h264Decoder au) (latestFrame openCamera)
           ∧ rawDecoder rc1 = Some (decoderAfter h264Decoder au))
      ∧ feed (HandleH264 openPipeline None) (slicePkt :: [slicePkt]) openCamera
        = Some (HandleH264 p' fp', rc')
      ∧ iFrameReceived p' = true.
Proof.
  split_and!; [reflexivity | reflexivity | reflexivity |].
  apply (open_gate_decodes_every_unit openPipeline None slicePkt [slicePkt] openCamera
           (mkClient timeDec0 (Some (HandleH264 openPipeline None))) h264Decoder);
    reflexivity.
Defined.

(** A packet without payload: both depacketizers refuse it, and the
    packet is dropped with one line in the log. *)
Lemma depacketizer_errors_are_absorbed_witness :
  (rtpDecode264 (rtpDec pipeline) emptyPkt).2 = inl (ErrLib "payload is too short")
  ∧ (rtpDecode265 rtpDec265_0 emptyPkt).2 = inl (ErrLib "payload is too short")
  ∧ (∃ p' rc', storeImage pipeline emptyPkt watched = Some (p', rc')
       ∧ iFrameReceived p' = iFrameReceived pipeline
       ∧ latestFrame rc' = latestFrame watched
       ∧ rawDecoder rc' = rawDecoder watched
       ∧ subAndCBByID rc' = subAndCBByID watched
       ∧ logger rc' = logger watched ++ [(Debug, "error decoding(1) h264 rstp stream")])
  ∧ (∃ d' rc', onPacketH265 rtpDec265_0 emptyPkt watched = Some (d', rc')
       ∧ latestFrame rc' = latestFrame watched
       ∧ rawDecoder rc' = rawDecoder watched
       ∧ subAndCBByID rc' = subAndCBByID watched
       ∧ logger rc' = logger watched ++ [(Err, "error decoding(1) h265 rstp stream")]).
Proof.
  split_and!; [reflexivity | reflexivity |..].
  - apply (proj1 (depacketizer_errors_are_absorbed pipeline rtpDec265_0 emptyPkt watched)
             (ErrLib "payload is too short")).
    reflexivity.
  - apply (proj2 (depacketizer_errors_are_absorbed pipeline rtpDec265_0 emptyPkt watched)
             (ErrLib "payload is too short")).
    reflexivity.
Defined.

(** The raw decoder refuses the second of three NAL units: the image of
    the first stays stored, the third is not decoded. *)
Lemma decodeNALUs_stops_at_first_error_witness :
  rawDecoder Checked.camera = Some Checked.h264Decoder
  ∧ firstError Checked.h264Decoder [[0x65; 0x88]] = None
  ∧ rawDecode (decoderAfter Checked.h264Decoder [[0x65; 0x88]]) [0x80]
    = (Checked.h264Decoder, inl (ErrLib "forbidden_zero_bit is set"))
  ∧ ∃ rc', decodeNALUs "error decoding(2) h264 rtsp stream"
             ([[0x65; 0x88]] ++ [0x80] :: [[0x41; 0x9a]]) Checked.camera
           = Some ((), rc')
      ∧ rawDecoder rc' = Some Checked.h264Decoder
      ∧ latestFrame rc'
        = newestOf (decodedImages Checked.h264Decoder [[0x65; 0x88]])
                   (latestFrame Checked.camera)
      ∧ trace rc' = trace Checked.camera
                    ++ (EvStore <$> decodedImages Checked.h264Decoder [[0x65; 0x88]])
      ∧ logger rc' = logger Checked.camera
                     ++ [(Err, "error decoding(2) h264 rtsp stream")].
Proof.
  split_and!; [reflexivity | reflexivity | reflexivity |].
  apply (decodeNALUs_stops_at_first_error "error decoding(2) h264 rtsp stream"
           [[0x65; 0x88]] [[0x41; 0x9a]] [0x80] Checked.camera
           Checked.h264Decoder Checked.h264Decoder (ErrLib "forbidden_zero_bit is set"));
    reflexivity.
Defined.

(** A camera without passthrough refuses the subscription and stays as it
    is. *)
Lemma SubscribeRTP_failure_changes_nothing_witness :
  rtpH264Passthrough (newCamera false) = false
  ∧ SubscribeRTP subscribeOK 512 (λ _, None) (newCamera false)
    = Some ((uuidNil, Some ErrH264PassthroughNotEnabled), newCamera false).
Proof.
  split; [reflexivity|].
  destruct (SubscribeRTP_failure_changes_nothing subscribeOK 512 (λ _, None)
              (newCamera false)) as (id & r & rc' & Hrun & Hoff & Hfail).
  rewrite Hrun. rewrite (Hoff eq_refl) in Hfail |- *.
  destruct (Hfail (ex_intro _ _ eq_refl)) as [Hrc Hid]. rewrite Hrc, Hid. reflexivity.
Defined.

Lemma SubscribeRTP_then_Unsubscribe_witness :
  SubscribeRTP subscribeOK 512 (λ _, None) watched
  = Some ((11%N, None), stateAfter (SubscribeRTP subscribeOK 512 (λ _, None)) watched)
  ∧ ∃ sub enc,
      rtpH264Passthrough watched = true
      ∧ NewStreamSubscription subscribeOK 512 = inr sub
      ∧ encoderInit subscribeOK = inr enc
      ∧ 11%N = subID (subStart sub)
      ∧ subAndCBByID (stateAfter (SubscribeRTP subscribeOK 512 (λ _, None)) watched)
          !! subID sub
        = Some (mkSubAndCB (mkSubscriber false 0 enc (λ _, None) []) (subStart sub))
      ∧ (∀ id', id' ≠ subID sub →
           subAndCBByID (stateAfter (SubscribeRTP subscribeOK 512 (λ _, None)) watched)
             !! id'
           = subAndCBByID watched !! id')
      ∧ (subID (subStart sub) = subID sub →
         subAndCBByID watched !! subID sub = None →
         size (subAndCBByID (stateAfter (SubscribeRTP subscribeOK 512 (λ _, None)) watched))
         = S (size (subAndCBByID watched))
         ∧ ∃ rc2,
             Unsubscribe 11%N (stateAfter (SubscribeRTP subscribeOK 512 (λ _, None)) watched)
             = Some (None, rc2)
             ∧ subAndCBByID rc2 = subAndCBByID watched).
Proof.
  split; [reflexivity|].
  apply (SubscribeRTP_then_Unsubscribe subscribeOK 512 (λ _, None) watched
           (stateAfter (SubscribeRTP subscribeOK 512 (λ _, None)) watched) 11%N).
  reflexivity.
Defined.

Lemma Unsubscribe_removes_only_that_subscription_witness :
  subAndCBByID watched !! 9%N = Some (mkSubAndCB subscriber (mkQueue 9%N 0 []))
  ∧ ∃ rc', Unsubscribe 9%N watched = Some (None, rc')
      ∧ subAndCBByID rc' !! 9%N = None
      ∧ (∀ id', id' ≠ 9%N → subAndCBByID rc' !! id' = subAndCBByID watched !! id')
      ∧ S (size (subAndCBByID rc')) = size (subAndCBByID watched)
      ∧ trace rc' = trace watched ++ [EvSubClose 9%N]
      ∧ client rc' = client watched
      ∧ rawDecoder rc' = rawDecoder watched
      ∧ latestFrame rc' = latestFrame watched.
Proof.
  split; [reflexivity|].
  apply (Unsubscribe_removes_only_that_subscription watched 9%N
           (mkSubAndCB subscriber (mkQueue 9%N 0 []))).
  reflexivity.
Defined.

(** A later unit is delivered, an earlier one rejected, one of another
    kind refused: the timestamp goes from 100 to 150. *)
Lemma runUnits_timestamps_never_decrease_witness :
  firstReceived subscriber = true
  ∧ runUnits subscriber threeUnits
    = Some ([None; Some ErrBFrames; Some ErrTypeConversion],
            afterThreeUnits)
  ∧ firstReceived afterThreeUnits
    = true
  ∧ lastPTS subscriber
    ≤ lastPTS afterThreeUnits.
Proof.
  split_and!; [reflexivity | reflexivity |..];
    apply (runUnits_timestamps_never_decrease threeUnits subscriber
             afterThreeUnits
             [None; Some ErrBFrames; Some ErrTypeConversion]);
    reflexivity.
Defined.

Lemma runUnits_batches_non_empty_witness :
  runUnits subscriber threeUnits
  = Some ([None; Some ErrBFrames; Some ErrTypeConversion],
          afterThreeUnits)
  ∧ ∃ batches,
      calls afterThreeUnits
      = calls subscriber ++ batches
      ∧ batchesNonEmpty batches
      ∧ (length batches ≤ length threeUnits)%nat.
Proof.
  split; [reflexivity|].
  apply (runUnits_batches_non_empty threeUnits subscriber
           afterThreeUnits
           [None; Some ErrBFrames; Some ErrTypeConversion]).
  reflexivity.
Defined.

(** The encoder refuses the access unit of a unit with timestamp 150:
    nothing is delivered, and 150 is the timestamp to compare against. *)
Lemma encode_failure_still_counts_as_accepted_witness :
  AU Checked.emptyNalUnit = Some [[]]
  ∧ (firstReceived Checked.subscriber = true →
     lastPTS Checked.subscriber ≤ PTS Checked.emptyNalUnit)
  ∧ (Encode (encoder Checked.subscriber) [[]]).2 = inl (ErrLib "NAL unit is empty")
  ∧ ∃ s', unitSubscriberFunc Checked.subscriber (UnitH264 Checked.emptyNalUnit)
          = Some (None, s')
      ∧ calls s' = calls Checked.subscriber
      ∧ firstReceived s' = true
      ∧ lastPTS s' = PTS Checked.emptyNalUnit
      ∧ ∀ next auNext, AU next = Some auNext → PTS next < PTS Checked.emptyNalUnit →
          unitSubscriberFunc s' (UnitH264 next) = Some (Some ErrBFrames, s').
Proof.
  assert (firstReceived Checked.subscriber = true →
          lastPTS Checked.subscriber ≤ PTS Checked.emptyNalUnit) as Hord
    by (intros _; vm_compute; discriminate).
  split_and!; [reflexivity | exact Hord | reflexivity |].
  apply (encode_failure_still_counts_as_accepted Checked.subscriber Checked.emptyNalUnit
           [[]] (ErrLib "NAL unit is empty"));
    [reflexivity | exact Hord | reflexivity].
Defined.

(** A time-out of the probe, with a response of status 200, starts no
    reconnection. *)
Lemma workerTick_healthy_probe_is_noop_witness :
  client watched = Some (mkClient timeDec0 (Some handler264))
  ∧ (∀ err, probeErr probeTimeout = Some err →
       (ErrClientTerminated ∉ err) ∧ (ErrEOF ∉ err)
       ∧ (ErrEPIPE ∉ err) ∧ (ErrECONNREFUSED ∉ err))
  ∧ (∀ status, probeRes probeTimeout = Some status → status = StatusOK)
  ∧ workerTick probeTimeout answersOK watched = Some ((), watched).
Proof.
  assert (∀ err, probeErr probeTimeout = Some err →
            (ErrClientTerminated ∉ err) ∧ (ErrEOF ∉ err)
            ∧ (ErrEPIPE ∉ err) ∧ (ErrECONNREFUSED ∉ err)) as Herr.
  { intros err [= <-]. split_and!; apply (bool_decide_unpack _); reflexivity. }
  assert (∀ status, probeRes probeTimeout = Some status → status = StatusOK) as Hres
    by (by intros status [= <-]).
  split_and!; [reflexivity | exact Herr | exact Hres |].
  apply (workerTick_healthy_probe_is_noop probeTimeout answersOK watched
           (mkClient timeDec0 (Some handler264)));
    [reflexivity | exact Herr | exact Hres].
Defined.

(** An [io.EOF] wrapped in a read error calls for a reconnection. *)
Lemma workerTick_unhealthy_rebuilds_or_tears_down_witness :
  unhealthy watched probeEOF
  ∧ ∃ rc', workerTick probeEOF answersOK watched = Some ((), rc')
      ∧ ((∃ c h, client rc' = Some c ∧ handler c = Some h
                 ∧ freshHandler (rtpH264Passthrough watched) h
                 ∧ is_Some (rawDecoder rc'))
         ∨ (client rc' ≫= handler = None ∧ rawDecoder rc' = None)).
Proof.
  assert (unhealthy watched probeEOF) as Hbad.
  { right; left. exists [ErrOtherProbe "read tcp"; ErrEOF], ErrEOF.
    split_and!; [reflexivity | |]; apply (bool_decide_unpack _); reflexivity. }
  split; [exact Hbad|].
  apply (workerTick_unhealthy_rebuilds_or_tears_down probeEOF answersOK watched).
  exact Hbad.
Defined.

(** A tick of the worker runs while [Close] waits: it finds no client,
    reconnects, and [Close] returns with a client and a decoder. *)
Lemma Close_and_the_tick_in_progress_witness :
  tickPoint tickWhileWaiting = TickDuringWait
  ∧ Close None watched = Some ((), stateAfter (Close None) watched)
  ∧ reconnectClient (tickAnswers tickWhileWaiting) (stateAfter (Close None) watched)
    = Some (None, stateAfter (reconnectClient (tickAnswers tickWhileWaiting))
                    (stateAfter (Close None) watched))
  ∧ ∃ rc', Close (Some tickWhileWaiting) watched = Some ((), rc')
      ∧ subAndCBByID rc' = ∅
      ∧ latestFrame rc' = latestFrame watched
      ∧ is_Some (client rc')
      ∧ is_Some (rawDecoder rc')
      ∧ ∃ rc'', Close None rc' = Some ((), rc'')
          ∧ subAndCBByID rc'' = ∅
          ∧ client rc'' = None
          ∧ rawDecoder rc'' = None
          ∧ latestFrame rc'' = latestFrame watched.
Proof.
  split_and!; [reflexivity | vm_compute; reflexivity | vm_compute; reflexivity |].
  destruct (Close_and_the_tick_in_progress (Some tickWhileWaiting) watched)
    as (rc' & Hrun & Hs & Hf & _ & _ & Hlive & Hlater).
  exists rc'. split; [exact Hrun|]. split; [exact Hs|]. split; [exact Hf|].
  destruct (Hlive tickWhileWaiting (stateAfter (Close None) watched)
              (stateAfter (reconnectClient (tickAnswers tickWhileWaiting))
                 (stateAfter (Close None) watched)))
    as [Hc Hd]; [reflexivity | reflexivity | vm_compute; reflexivity
                | vm_compute; reflexivity |].
  split; [exact Hc|]. split; [exact Hd|]. exact Hlater.
Defined.

Lemma newRTSPCamera_returns_connected_camera_witness :
  newRTSPCamera None true answersOK None
  = Some (inr (stateAfter (reconnectClient answersOK) (newCamera true)))
  ∧ (None : option Error) = None
  ∧ rtpH264Passthrough (stateAfter (reconnectClient answersOK) (newCamera true)) = true
  ∧ subAndCBByID (stateAfter (reconnectClient answersOK) (newCamera true)) = ∅
  ∧ VideoReader (stateAfter (reconnectClient answersOK) (newCamera true)) = ErrNoFrameYet
  ∧ ∃ c h, client (stateAfter (reconnectClient answersOK) (newCamera true)) = Some c
           ∧ handler c = Some h
           ∧ freshHandler true h
           ∧ is_Some (rawDecoder (stateAfter (reconnectClient answersOK) (newCamera true))).
Proof.
  split; [reflexivity|].
  destruct (newRTSPCamera_returns_connected_camera None true answersOK None
              (stateAfter (reconnectClient answersOK) (newCamera true)) eq_refl)
    as (_ & Hsource & Hrest).
  split; [exact Hsource | exact Hrest].
Defined.

(** Two slices, a keyframe and a slice: each of the two lines is logged
    once. *)
Lemma waiting_for_keyframe_logged_once_witness :
  feed (HandleH264 pipeline None) [slicePkt; slicePkt; idrPkt; slicePkt] waitingCamera
  = Some (HandleH264 openPipeline None,
          stateAfter (feed (HandleH264 pipeline None)
                        [slicePkt; slicePkt; idrPkt; slicePkt]) waitingCamera)
  ∧ ∃ new,
      logger (stateAfter (feed (HandleH264 pipeline None)
                            [slicePkt; slicePkt; idrPkt; slicePkt]) waitingCamera)
      = logger waitingCamera ++ new
      ∧ (countLog (Debug, "waiting for I-frame") new ≤ waitBudget pipeline)%nat
      ∧ (countLog (Debug, "got I-frame") new ≤ gotBudget pipeline)%nat
      ∧ (waitBudget pipeline ≤ 1)%nat ∧ (gotBudget pipeline ≤ 1)%nat.
Proof.
  split; [vm_compute; reflexivity|].
  apply (waiting_for_keyframe_logged_once [slicePkt; slicePkt; idrPkt; slicePkt]
           pipeline waitingCamera
           (stateAfter (feed (HandleH264 pipeline None)
                          [slicePkt; slicePkt; idrPkt; slicePkt]) waitingCamera)
           (HandleH264 openPipeline None)).
  vm_compute; reflexivity.
Defined.

(** The two subscriptions of [watched] are served by the handler that the
    reconnection installs. *)
Lemma subscriptions_are_served_after_reconnect_witness :
  reconnectClient answersOK watched
  = Some (None, stateAfter (reconnectClient answersOK) watched)
  ∧ client (stateAfter (reconnectClient answersOK) watched)
    = Some (mkClient timeDec0 (Some handler264))
  ∧ handler (mkClient timeDec0 (Some handler264)) = Some (HandleH264 pipeline (Some fp0))
  ∧ passthroughUnit (mkClient timeDec0 (Some handler264)) fp0 slicePkt = Some sliceUnit
  ∧ ∃ rc2, receive slicePkt (stateAfter (reconnectClient answersOK) watched)
           = Some ((), rc2)
      ∧ subAndCBByID rc2 = published sliceUnit <$> subAndCBByID watched
      ∧ dom (subAndCBByID rc2) = dom (subAndCBByID watched).
Proof.
  split_and!; [vm_compute; reflexivity | vm_compute; reflexivity
              | reflexivity | reflexivity |].
  apply (subscriptions_are_served_after_reconnect answersOK watched
           (stateAfter (reconnectClient answersOK) watched)
           (mkClient timeDec0 (Some handler264)) pipeline fp0 slicePkt sliceUnit);
    vm_compute; reflexivity.
Defined.

(** After the reconnection of [watched] a slice, a keyframe and a slice
    arrive: nothing is stored before the keyframe. *)
Lemma reconnected_keyframe_gate_witness :
  reconnectClient answersOK watched
  = Some (None, stateAfter (reconnectClient answersOK) watched)
  ∧ client (stateAfter (reconnectClient answersOK) watched)
    = Some (mkClient timeDec0 (Some handler264))
  ∧ handler (mkClient timeDec0 (Some handler264)) = Some (HandleH264 pipeline (Some fp0))
  ∧ ∃ rc2 evs,
      receiveAll [slicePkt; idrPkt; slicePkt] (stateAfter (reconnectClient answersOK) watched)
      = Some ((), rc2)
      ∧ trace rc2 = trace (stateAfter (reconnectClient answersOK) watched) ++ evs
      ∧ gated IDRPresent false evs = true.
Proof.
  split_and!; [vm_compute; reflexivity | vm_compute; reflexivity | reflexivity |].
  apply (reconnected_keyframe_gate answersOK watched
           (stateAfter (reconnectClient answersOK) watched)
           (mkClient timeDec0 (Some handler264)) pipeline (Some fp0)
           [slicePkt; idrPkt; slicePkt]);
    vm_compute; reflexivity.
Defined.

(** ** The ONVIF discovery on a device with two profiles *)

Import Onvif.

(** The second profile has no stream: one address, one warning. *)
Lemma GetRTSPStreamURIsFromProfiles_skips_failing_profiles_witness :
  GetProfiles twoProfiles = inr [mkProfile "main" "Main"; mkProfile "sub" "Sub"]
  ∧ ∃ uris log,
      GetRTSPStreamURIsFromProfiles twoProfiles administrator = (inr uris, log)
      ∧ uris = omap (streamOf twoProfiles administrator)
                 [mkProfile "main" "Main"; mkProfile "sub" "Sub"]
      ∧ (length uris + length log
         = length [mkProfile "main" "Main"; mkProfile "sub" "Sub"])%nat
      ∧ Forall (λ entry, entry.1 = Warn) log.
Proof.
  split; [reflexivity|].
  apply (GetRTSPStreamURIsFromProfiles_skips_failing_profiles twoProfiles administrator
           [mkProfile "main" "Main"; mkProfile "sub" "Sub"]).
  reflexivity.
Defined.

(** The first credentials are refused, the second open the device. *)
Lemma DiscoverCamerasOnXAddr_first_working_credentials_witness :
  (∀ i : nat, (λ _ : nat, false) i = false)
  ∧ ∃ info,
      (DiscoverCamerasOnXAddr openTwoProfiles (λ _, false) xaddr [guest; administrator]).1
      = inr info
      ∧ WSDiscoveryXAddr info = Host xaddr
      ∧ ∃ i cred dev,
          [guest; administrator] !! i = Some cred
          ∧ openTwoProfiles xaddr cred = inr dev
          ∧ (GetCameraInfo dev xaddr cred).1 = inr info
          ∧ ∀ j cred', (j < i)%nat → [guest; administrator] !! j = Some cred' →
              credentialsWork openTwoProfiles xaddr cred' = false.
Proof.
  split; [reflexivity|].
  pose proof (DiscoverCamerasOnXAddr_first_working_credentials openTwoProfiles
                (λ _, false) xaddr [guest; administrator] (λ _, eq_refl)) as Hfirst.
  destruct (DiscoverCamerasOnXAddr openTwoProfiles (λ _, false) xaddr
              [guest; administrator]).1 as [err|info] eqn:Hres.
  - discriminate Hres.
  - exists info. split; [reflexivity | exact Hfirst].
Defined.

(** An interface that is up and multicast stays valid when the broadcast
    and running flags are switched. *)
Lemma ValidWSDiscoveryInterface_flags_witness :
  Z.land (Z.lor FlagBroadcast FlagRunning)
         (Z.lor FlagUp (Z.lor FlagMulticast FlagLoopback)) = 0
  ∧ ValidWSDiscoveryInterface None None
      (Z.lxor (Z.lor FlagUp FlagMulticast) (Z.lor FlagBroadcast FlagRunning))
    = ValidWSDiscoveryInterface None None (Z.lor FlagUp FlagMulticast).
Proof.
  split; [reflexivity|].
  apply (proj2 (proj2 (ValidWSDiscoveryInterface_flags None None
                         (Z.lor FlagUp FlagMulticast)))
           (Z.lor FlagBroadcast FlagRunning)).
  reflexivity.
Defined.
